(** * ML-mini-project: the smile classifier's loader, trainer and evaluator

    A shallow embedding of [face.py], [model_utils.py] and the figures of
    [logger_utils.py].  Python values are modelled as the code has them:
    [int] as [Z], [float] as the kernel's binary64 floats (which is what a
    Python float is), [str] as [string], lists as [list].  A call that may
    raise returns a [result]. *)

From Stdlib Require Import List ZArith Lia Bool Ascii String Floats Uint63
  QArith Qround Permutation DecimalString.
From Stdlib Require Decimal DecimalPos DecimalZ.
Import ListNotations.

Set Implicit Arguments.
Set Warnings "-inexact-float,-notation-for-abbreviation".

(** ** Python exceptions and fallible results *)

Inductive exn : Type :=
| FileExistsError
| FileNotFoundError
| StopIteration
| ZeroDivisionError
| ValueError
| IndexError
| Cv2Error
| OSError (errno : nat)
| RuntimeError (code : nat).

Inductive result (A : Type) : Type :=
| Ok (a : A)
| Raise (e : exn).
Arguments Ok {A} a.
Arguments Raise {A} e.

Definition is_ok {A} (r : result A) : bool :=
  match r with Ok _ => true | Raise _ => false end.

(** ** Strings: [os.path.join], [readline], [split], [int] *)

Module Py.

Local Open Scope string_scope.

Definition newline : ascii := "010"%char.
Definition space : ascii := " "%char.
Definition sep : ascii := "/"%char.

Definition is_newline (c : ascii) : bool := Ascii.eqb c newline.

Fixpoint endswith_char (s : string) (c : ascii) : bool :=
  match s with
  | EmptyString => false
  | String a EmptyString => Ascii.eqb a c
  | String _ r => endswith_char r c
  end.

Definition startswith_char (s : string) (c : ascii) : bool :=
  match s with
  | String a _ => Ascii.eqb a c
  | EmptyString => false
  end.

(** [os.path.join(a, b)] of [posixpath], for two components. *)
Definition os_path_join (a b : string) : string :=
  if startswith_char b sep then b
  else if (match a with EmptyString => true | _ => false end)
          || endswith_char a sep
       then a ++ b
       else a ++ String sep b.

(** [f.readline()] on the unread rest of a text file: the line up to and
    including its newline, and what is left.  At end of file the line is
    the empty string. *)
Fixpoint readline (rest : string) : string * string :=
  match rest with
  | EmptyString => (EmptyString, EmptyString)
  | String c r =>
      if is_newline c then (String c EmptyString, r)
      else let (l, r') := readline r in (String c l, r')
  end.

(** The lines of a text file as iterating over it yields them
    ([list(f)]): each keeps its newline, the last may lack one. *)
Fixpoint file_lines (content : string) : list string :=
  match content with
  | EmptyString => []
  | String c r =>
      if is_newline c then String c EmptyString :: file_lines r
      else match file_lines r with
           | [] => [String c EmptyString]
           | l :: ls => String c l :: ls
           end
  end.

(** [s.split(" ")[0]]: the text before the first space. *)
Fixpoint split_space_first (s : string) : string :=
  match s with
  | EmptyString => EmptyString
  | String c r => if Ascii.eqb c space then EmptyString
                  else String c (split_space_first r)
  end.

(** Whitespace that [int()] strips from a [str].  A character is a code
    point below 256.  In a string of ASCII characters [int()] strips tab,
    line feed, vertical tab, form feed, carriage return and the space
    (0x09 to 0x0d, 0x20), and not the separators 0x1c to 0x1f, which
    [str.isspace] does count as whitespace.  A string with a character
    beyond ASCII has its Unicode whitespace turned into spaces first:
    below 256 these are the next-line character 0x85 and the no-break
    space 0xa0. *)
Definition is_space (c : ascii) : bool :=
  let n := nat_of_ascii c in
  ((9 <=? n) && (n <=? 13) || (n =? 32) || (n =? 133) || (n =? 160))%nat.

Fixpoint lstrip (s : string) : string :=
  match s with
  | String c r => if is_space c then lstrip r else s
  | EmptyString => EmptyString
  end.

Fixpoint rev_string (s acc : string) : string :=
  match s with
  | EmptyString => acc
  | String c r => rev_string r (String c acc)
  end.

Definition strip (s : string) : string :=
  rev_string (lstrip (rev_string (lstrip s) EmptyString)) EmptyString.

Definition digit_of (c : ascii) : option Z :=
  let n := nat_of_ascii c in
  if ((48 <=? n) && (n <=? 57))%nat then Some (Z.of_nat (n - 48)) else None.

Definition is_underscore (c : ascii) : bool := Ascii.eqb c "_"%char.

(** Decimal digits with single underscores between them; [acc] is the
    value read so far and [prev_digit] says whether the previous
    character was a digit. *)
Fixpoint digits (s : string) (acc : Z) (prev_digit : bool) : option Z :=
  match s with
  | EmptyString => if prev_digit then Some acc else None
  | String c r =>
      match digit_of c with
      | Some d => digits r (10 * acc + d)%Z true
      | None =>
          if is_underscore c && prev_digit
          then match r with
               | EmptyString => None
               | String c' _ =>
                   match digit_of c' with
                   | Some _ => digits r acc false
                   | None => None
                   end
               end
          else None
      end
  end.

(** The digit characters of [s]. *)
Fixpoint count_digits (s : string) : nat :=
  match s with
  | EmptyString => O
  | String c r =>
      match digit_of c with
      | Some _ => S (count_digits r)
      | None => count_digits r
      end
  end.

(** [sys.get_int_max_str_digits()], as the interpreter starts with. *)
Definition max_str_digits : nat := 4300.

(** [int(s)] for a [str] of characters below 256: [None] is
    [ValueError].  Whitespace around the number is stripped, a sign may
    come first, the digits are the ASCII ones (no other character below
    256 is a decimal digit) with single underscores between them, and a
    number of more than [max_str_digits] digits is refused. *)
Definition int (s : string) : option Z :=
  match strip s with
  | EmptyString => None
  | String c r =>
      let body :=
        if Ascii.eqb c "-"%char || Ascii.eqb c "+"%char then r
        else String c r in
      if (max_str_digits <? count_digits body)%nat then None
      else if Ascii.eqb c "-"%char then option_map Z.opp (digits body 0%Z false)
      else digits body 0%Z false
  end.

(** [s.isascii()] *)
Fixpoint isascii (s : string) : bool :=
  match s with
  | EmptyString => true
  | String c r => (nat_of_ascii c <? 128)%nat && isascii r
  end.

(** [str(n)] for a non-negative [int], as an f-string formats it. *)
Definition str (n : Z) : string := NilZero.string_of_int (Z.to_int n).

End Py.


(** ** Python floats *)

Module PyFloat.

(** [float(z)]: the binary64 value nearest to [z], ties to even; exact
    for [|z| <= 2^53], which covers every count and length the program
    converts.  Beyond the range of binary64 (from [2^1024] on) Python
    raises [OverflowError], where this gives an infinity. *)
Definition of_int (z : Z) : float :=
  SF2Prim (binary_normalize prec emax z 0 false).

(** [int(x)] for a finite [x]: truncation toward zero. *)
Definition to_int (x : float) : Z :=
  match Prim2SF x with
  | S754_finite s m e =>
      let v := if (0 <=? e)%Z then (Zpos m * 2 ^ e)%Z
               else (Zpos m / 2 ^ (- e))%Z in
      if s then (- v)%Z else v
  | _ => 0%Z
  end.

(** [a / b] on two [int]s with [b] not zero. *)
Definition int_truediv (a b : Z) : float :=
  PrimFloat.div (of_int a) (of_int b).

(** [acc + c] with [acc] a float and [c] an [int]. *)
Definition add_int (acc : float) (c : Z) : float :=
  PrimFloat.add acc (of_int c).

(** [x / n] with [x] a float and [n] an [int] that is not zero. *)
Definition div_int (x : float) (n : Z) : float :=
  PrimFloat.div x (of_int n).

End PyFloat.

(** [range(n)] *)
Definition range (n : Z) : list Z := map Z.of_nat (seq 0 (Z.to_nat n)).

(** [len(xs)] *)
Definition len {A} (xs : list A) : Z := Z.of_nat (List.length xs).

(** ** Module constants of [face.py] *)

Definition EPOCHS : Z := 300.
Definition IMG_WIDTH : Z := 180.
Definition IMG_HEIGHT : Z := 192.
(** [TEST_SIZE = 0.3], as the ratio it stands for *)
Definition TEST_SIZE : Q := 3 # 10.
Definition BATCH_SIZE : Z := 64.

(** ** Figures ([logger_utils.py])

    A figure is the list of its axes, in the order [add_subplot] made
    them; each keeps the grid and the position it was asked for, the
    image shown in it and what its title is made of. *)

Module Logger.

(** What a call does: besides the exceptions of the loader and the
    trainer, indexing past the end raises [IndexError]. *)
Inductive outcome (A : Type) : Type :=
| Returns (a : A)
| Raises (e : exn)
| RaisesIndexError.
Arguments Returns {A} a.
Arguments Raises {A} e.
Arguments RaisesIndexError {A}.

Definition returns {A} (o : outcome A) : bool :=
  match o with Returns _ => true | _ => false end.

Record Axes (Image Title : Type) : Type := {
  nrows : Z;
  ncols : Z;
  index : Z;
  shown : Image;
  title : Title
}.

(** [xs[i]] for an index that is not negative *)
Definition getitem {A} (xs : list A) (i : Z) : option A :=
  nth_error xs (Z.to_nat i).

(** [xs[:n]] for an [n] that is not negative *)
Definition upto {A} (n : Z) (xs : list A) : list A := firstn (Z.to_nat n) xs.

(** [fig.add_subplot(rows, cols, index)] makes the axes when the grid
    has rows and columns and [index] is one of its [rows * cols]
    positions, and raises [ValueError] otherwise. *)
Definition in_grid (rows cols index : Z) : bool :=
  (0 <? rows)%Z && (0 <? cols)%Z && (1 <=? index)%Z
  && (index <=? rows * cols)%Z.

Section Plots.

Variables Image Prob Label : Type.

(** [for idx in np.arange(RANGE)] of [plot_classes_preds], over the
    figure made so far. *)
Fixpoint classes_preds_loop (RANGE ROWS : Z) (images : list Image)
    (labels : list Label) (probs : list Prob) (idxs : list Z)
    (fig : list (Axes Image (Prob * Label)))
    : outcome (list (Axes Image (Prob * Label))) :=
  match idxs with
  | [] => Returns fig
  | idx :: idxs' =>
      match getitem probs idx with
      | None => RaisesIndexError
      | Some prob =>
          match getitem labels idx with
          | None => RaisesIndexError
          | Some label =>
              if in_grid ROWS (RANGE / ROWS) (idx + 1)
              then
                match getitem images idx with
                | None => RaisesIndexError
                | Some img =>
                    classes_preds_loop RANGE ROWS images labels probs idxs'
                      (fig ++ [{| nrows := ROWS; ncols := RANGE / ROWS;
                                  index := idx + 1; shown := img;
                                  title := (prob, label) |}])
                end
              else Raises ValueError
          end
      end
  end.

(** [plot_classes_preds(net, images, labels)] *)
Definition plot_classes_preds (net : list Image -> list Prob)
    (images : list Image) (labels : list Label)
    : outcome (list (Axes Image (Prob * Label))) :=
  let RANGE := Z.min 12 (len labels) in
  let ROWS := 3%Z in
  let images := upto RANGE images in
  let labels := upto RANGE labels in
  let probs := net images in
  classes_preds_loop RANGE ROWS images labels probs (range RANGE) [].

(** [for i in np.arange(batch_size)] of [plot_random_batch] *)
Fixpoint random_batch_loop (batch_size : Z) (image_samples : list Image)
    (label_samples : list Label) (idxs : list Z)
    (fig : list (Axes Image Label)) : outcome (list (Axes Image Label)) :=
  match idxs with
  | [] => Returns fig
  | i :: idxs' =>
      if in_grid 8 (batch_size / 8) (i + 1)
      then
        match getitem image_samples i with
        | None => RaisesIndexError
        | Some img =>
            match getitem label_samples i with
            | None => RaisesIndexError
            | Some label =>
                random_batch_loop batch_size image_samples label_samples
                  idxs'
                  (fig ++ [{| nrows := 8; ncols := batch_size / 8;
                              index := i + 1; shown := img;
                              title := label |}])
            end
        end
      else Raises ValueError
  end.

(** [plot_random_batch(train_dataloader, batch_size)]; a batch is its
    images with their labels. *)
Definition plot_random_batch
    (train_dataloader : list (list Image * list Label)) (batch_size : Z)
    : outcome (list (Axes Image Label)) :=
  match train_dataloader with
  | [] => Raises StopIteration
  | (image_samples, label_samples) :: _ =>
      random_batch_loop batch_size image_samples label_samples
        (range batch_size) []
  end.

(** The axes [ax] is the one [plot_classes_preds] makes for the sample
    [idx]: in its grid, with the image, the output and the label of the
    sample. *)
Definition classes_preds_axes (RANGE : Z) (images : list Image)
    (labels : list Label) (probs : list Prob) (idx : Z)
    (ax : Axes Image (Prob * Label)) : Prop :=
  nrows ax = 3%Z /\ ncols ax = (RANGE / 3)%Z /\ index ax = (idx + 1)%Z
  /\ in_grid 3 (RANGE / 3) (idx + 1) = true
  /\ getitem images idx = Some (shown ax)
  /\ getitem probs idx = Some (fst (title ax))
  /\ getitem labels idx = Some (snd (title ax)).

(** The axes [ax] is the one [plot_random_batch] makes for the sample
    [i]. *)
Definition random_batch_axes (batch_size : Z) (image_samples : list Image)
    (label_samples : list Label) (i : Z) (ax : Axes Image Label) : Prop :=
  nrows ax = 8%Z /\ ncols ax = (batch_size / 8)%Z /\ index ax = (i + 1)%Z
  /\ in_grid 8 (batch_size / 8) (i + 1) = true
  /\ getitem image_samples i = Some (shown ax)
  /\ getitem label_samples i = Some (title ax).

End Plots.

End Logger.

(** ** The Image Loader ([face.py], [load_data]) *)

Section Loader.

(** What [cv2.imread] decodes, and the array [load_data] stores for it:
    [np.array(ToTensor()(cv2.resize(cv2.cvtColor(img, COLOR_BGR2RGB),
    dsize=(IMG_WIDTH, IMG_HEIGHT))))]. *)
Variables RawImage Image : Type.
Variable to_tensor : RawImage -> Image.

(** The part of the disk [load_data] reads: [fs_open] gives the text of
    a file as text mode delivers it, or what [open] raises; [os_listdir]
    the names in a directory, or what it raises.  [cv2.imread] does not
    raise on a file it cannot decode: it returns [None], and the
    [cv2.cvtColor] that follows raises. *)
Record FileSystem : Type := {
  fs_open : string -> result string;
  os_listdir : string -> result (list string);
  cv2_imread : string -> option RawImage
}.

Variable fs : FileSystem.

(** The body of [for image in os.listdir(data_path)], with the lists
    built so far and the unread rest of the labels file. *)
Fixpoint load_loop (data_path : string) (listing : list string)
    (images : list Image) (labels : list Z) (label_file : string)
    : result (list Image * list Z) :=
  match listing with
  | [] => Ok (images, labels)
  | image :: listing' =>
      match cv2_imread fs (Py.os_path_join data_path image) with
      | None => Raise Cv2Error
      | Some img =>
          let res := to_tensor img in
          let images := images ++ [res] in
          let (line, label_file) := Py.readline label_file in
          match Py.int (Py.split_space_first line) with
          | None => Raise ValueError
          | Some line_data =>
              load_loop data_path listing' images (labels ++ [line_data])
                        label_file
          end
      end
  end.

Definition load_data (data_dir : string) : result (list Image * list Z) :=
  let data_path := Py.os_path_join data_dir "files" in
  match fs_open fs (Py.os_path_join data_dir "labels.txt") with
  | Raise e => Raise e
  | Ok label_file =>
      match os_listdir fs data_path with
      | Raise e => Raise e
      | Ok listing => load_loop data_path listing [] [] label_file
      end
  end.

(** The image stored for a file name of the listing. *)
Definition loaded_from (data_path name : string) (img : Image) : Prop :=
  exists raw, cv2_imread fs (Py.os_path_join data_path name) = Some raw
              /\ img = to_tensor raw.

(** The label stored for a line of the labels file. *)
Definition label_of_line (line : string) (label : Z) : Prop :=
  Py.int (Py.split_space_first line) = Some label.

End Loader.

(** ** The framework the trainer is glue over

    PyTorch itself is not part of the repository; the operations
    [model_utils.py] calls are the fields of this interface.  A tensor of
    shape (B, 1) is the list of its B values, and a stacked batch of
    shape (B, 3, H, W) the list of its B images. *)

Class Torch : Type := {
  (** the tensors of [model.state_dict()] *)
  Params : Type;
  (** one image of a batch, shape (3, H, W) *)
  Image : Type;
  (** the optimizer with its [param_groups], and the scheduler bound to it *)
  Optimizer : Type;
  (** [model(inputs)] with the given parameters and training flag *)
  forward : Params -> bool -> list Image -> list float;
  (** [nn.BCELoss()(outputs, targets).item()] *)
  BCELoss : list float -> list float -> float;
  (** [optim.Adam(model.parameters(), lr=lr)] *)
  Adam : Params -> float -> Optimizer;
  (** [optim.lr_scheduler.LinearLR(optimizer, start, end, total_iters)] *)
  LinearLR : Optimizer -> float -> float -> Z -> Optimizer;
  (** [optimizer.zero_grad(); loss.backward(); optimizer.step()] for the
      loss of one batch *)
  backward_step : Params -> bool -> Optimizer -> list Image -> list float
                  -> Params * Optimizer;
  (** [scheduler.step()] *)
  scheduler_step : Optimizer -> Optimizer;
  (** [optimizer.param_groups[0]["lr"]] *)
  current_lr : Optimizer -> float
}.

(** A stacked batch of images, shape (B, 3, H, W). *)
Definition Inputs {T : Torch} : Type := list Image.

Section Trainer.

Context {T : Torch}.

(** An [nn.Module]: its parameters and its [training] flag, which
    [model.train()] sets and [model.eval()] clears. *)
Record NNModule : Type := {
  params : Params;
  training : bool
}.

Definition model_train (model : NNModule) : NNModule :=
  {| params := params model; training := true |}.

Definition model_eval (model : NNModule) : NNModule :=
  {| params := params model; training := false |}.

Definition call_model (model : NNModule) (inputs : Inputs) : list float :=
  forward (params model) (training model) inputs.

(** One item of a [DataLoader]: [(inputs, targets)], targets of shape (B, 1). *)
Definition Batch : Type := (Inputs * list float)%type.

(** [(outputs > 0.5).float()], elementwise *)
Definition threshold (o : float) : float :=
  if PrimFloat.ltb 0.5 o then 1%float else 0%float.

(** [((outputs > 0.5).float() == targets).sum().item()], for outputs
    and targets of one size: the comparison is reached after the
    criterion has been given both, and [nn.BCELoss] refuses sizes that
    differ.  [sum_equal] below is the comparison for any two sizes. *)
Definition n_correct (outputs targets : list float) : Z :=
  len (filter (fun ot => PrimFloat.eqb (threshold (fst ot)) (snd ot))
              (combine outputs targets)).

(** *** The Evaluator ([eval_model]) *)

(** The loop [for inputs, targets in test_dataloader] over the
    accumulators [(correct, total, val_loss)]. *)
Fixpoint eval_loop (model : NNModule) (test_dataloader : list Batch)
    (correct total : Z) (val_loss : float) : Z * Z * float :=
  match test_dataloader with
  | [] => (correct, total, val_loss)
  | (inputs, targets) :: rest =>
      let outputs := call_model model inputs in
      let loss := BCELoss outputs targets in
      let val_loss := PrimFloat.add val_loss loss in
      let total := (total + len targets)%Z in
      let correct := (correct + n_correct outputs targets)%Z in
      eval_loop model rest correct total val_loss
  end.

(** [eval_model(model, test_dataloader, criterion)]: what it returns or
    raises, and the module as the call leaves it, with the calls of the
    module and of the criterion taken to return ([forward] and [BCELoss]
    are functions); [eval_model_with] below has them raise. *)
Definition eval_model (model : NNModule) (test_dataloader : list Batch)
    : result (float * float) * NNModule :=
  let model := model_eval model in
  let '(correct, total, val_loss) :=
    eval_loop model test_dataloader 0%Z 0%Z 0%float in
  if (len test_dataloader =? 0)%Z then (Raise ZeroDivisionError, model)
  else
    let average_val_loss := PyFloat.div_int val_loss (len test_dataloader) in
    if (total =? 0)%Z then (Raise ZeroDivisionError, model)
    else
      let accuracy := PyFloat.int_truediv (100 * correct) total in
      (Ok (average_val_loss, accuracy), model).

(** *** The Evaluator, with calls that may raise *)

(** [(predicted == targets).sum().item()] for tensors of shapes (B, 1)
    and (C, 1): row by row when B = C, the single row of one against
    every row of the other when B or C is 1, and refused by the
    broadcast when the sizes differ otherwise. *)
Definition sum_equal (predicted targets : list float) : result Z :=
  if (List.length predicted =? List.length targets)%nat
  then Ok (len (filter (fun pt => PrimFloat.eqb (fst pt) (snd pt))
                       (combine predicted targets)))
  else
    match predicted, targets with
    | [p], _ => Ok (len (filter (fun t => PrimFloat.eqb p t) targets))
    | _, [t] => Ok (len (filter (fun p => PrimFloat.eqb p t) predicted))
    | _, _ => Raise (RuntimeError 0)
    end.

Section Raising.

(** The call [model(inputs)] and the call [criterion(outputs, targets)],
    each returning or raising. *)
Variable net : NNModule -> Inputs -> result (list float).
Variable criterion : list float -> list float -> result float.

(** The loop [for inputs, targets in test_dataloader] over the
    accumulators [(correct, total, val_loss)]. *)
Fixpoint eval_loop_with (model : NNModule) (test_dataloader : list Batch)
    (correct total : Z) (val_loss : float) : result (Z * Z * float) :=
  match test_dataloader with
  | [] => Ok (correct, total, val_loss)
  | (inputs, targets) :: rest =>
      match net model inputs with
      | Raise e => Raise e
      | Ok outputs =>
          match criterion outputs targets with
          | Raise e => Raise e
          | Ok loss =>
              let val_loss := PrimFloat.add val_loss loss in
              let predicted := map threshold outputs in
              let total := (total + len targets)%Z in
              match sum_equal predicted targets with
              | Raise e => Raise e
              | Ok equal =>
                  let correct := (correct + equal)%Z in
                  eval_loop_with model rest correct total val_loss
              end
          end
      end
  end.

(** [eval_model(model, test_dataloader, criterion)] *)
Definition eval_model_with (model : NNModule) (test_dataloader : list Batch)
    : result (float * float) * NNModule :=
  let model := model_eval model in
  match eval_loop_with model test_dataloader 0%Z 0%Z 0%float with
  | Raise e => (Raise e, model)
  | Ok (correct, total, val_loss) =>
      if (len test_dataloader =? 0)%Z then (Raise ZeroDivisionError, model)
      else
        let average_val_loss :=
          PyFloat.div_int val_loss (len test_dataloader) in
        if (total =? 0)%Z then (Raise ZeroDivisionError, model)
        else
          let accuracy := PyFloat.int_truediv (100 * correct) total in
          (Ok (average_val_loss, accuracy), model)
  end.

(** The first call of the module or of the criterion that raises, in the
    order of the loop, and what it raises. *)
Fixpoint first_failure (model : NNModule) (test_dataloader : list Batch)
    : option exn :=
  match test_dataloader with
  | [] => None
  | (inputs, targets) :: rest =>
      match net model inputs with
      | Raise e => Some e
      | Ok outputs =>
          match criterion outputs targets with
          | Raise e => Some e
          | Ok _ => first_failure model rest
          end
      end
  end.

(** [nn.BCELoss] refuses outputs and targets of sizes that differ. *)
Definition checks_sizes : Prop :=
  forall outputs targets loss,
    criterion outputs targets = Ok loss ->
    List.length outputs = List.length targets.

End Raising.

(** *** Operations of a training run

    Every call [train_model] makes is an operation of the run.  The run
    keeps them in order, each with the exception it raised, if any. *)

Inductive event : Type :=
| EvToDevice (dev : string)
| EvNextBatch
| EvAdam (lr : float)
| EvLinearLR (start_factor end_factor : float) (total_iters : Z)
| EvMakedirs (path : string)
| EvTqdm (epochs : Z)
| EvModelTrain
| EvForward
| EvCriterion
| EvZeroGrad
| EvBackward
| EvOptimizerStep
| EvTrueDiv
| EvEvalModel
| EvAddScalars (main_tag : string) (train_loss eval_loss : float) (step : Z)
| EvAddScalar (tag : string) (value : float) (step : Z)
| EvPlotClassesPreds
| EvAddFigure (tag : string) (step : Z)
| EvSave (state_dict : Params) (path : string)
| EvSchedulerStep
| EvPbarUpdate
| EvPbarSetPostfix (epoch : Z) (loss lr : float).


Local Notation entry := (event * option exn)%type (only parsing).

(** The environment of a run: [env k] is the exception the k-th
    operation of the run meets (a full disk, a failing device), if any. *)
Definition environment : Type := nat -> option exn.

(** A computation inside [train_model], started as operation number [n]
    of the run: its result, and the operations it performed. *)
Definition M (A : Type) : Type := environment -> nat -> result A * list entry.

Definition ret {A} (a : A) : M A := fun _ _ => (Ok a, []).

Definition bind {A B} (m : M A) (f : A -> M B) : M B :=
  fun env n =>
    match m env n with
    | (Ok a, d) =>
        let (r, d') := f a env (n + List.length d)%nat in (r, d ++ d')
    | (Raise e, d) => (Raise e, d)
    end.

(** Operation [ev], whose own outcome is [r]: it raises what the
    environment makes it raise, and otherwise returns or raises as [r]. *)
Definition perform {A} (ev : event) (r : result A) : M A :=
  fun env n =>
    match env n with
    | Some e => (Raise e, [(ev, Some e)])
    | None =>
        match r with
        | Ok a => (Ok a, [(ev, None)])
        | Raise e => (Raise e, [(ev, Some e)])
        end
    end.

Definition call (ev : event) : M unit := perform ev (Ok tt).

(** [try: m  except FileExistsError: pass] *)
Definition try_except_FileExistsError_pass (m : M unit) : M unit :=
  fun env n =>
    match m env n with
    | (Raise FileExistsError, d) => (Ok tt, d)
    | other => other
    end.

(** [for x in xs: s = body(x, s)] *)
Fixpoint for_each {A S} (xs : list A) (body : A -> S -> M S) (s : S) : M S :=
  match xs with
  | [] => ret s
  | x :: xs' => bind (body x s) (for_each xs' body)
  end.

End Trainer.

(** An operation of a run with the exception it raised, if any. *)
Notation entry := (event * option exn)%type (only parsing).

Notation "x <- m ;; k" := (bind m (fun x => k))
  (at level 61, m at next level, right associativity).
Notation "m ;;; k" := (bind m (fun _ => k))
  (at level 61, right associativity).

(** *** The Trainer ([model_utils.py], [train_model]) *)

Section TrainModel.

Context {T : Torch}.

Local Open Scope string_scope.

(** [x / n] for a float and an [int]: raises on [n == 0]. *)
Definition truediv (x : float) (n : Z) : M float :=
  perform EvTrueDiv
    (if (n =? 0)%Z then Raise ZeroDivisionError else Ok (PyFloat.div_int x n)).

(** The body of [for data in train_dataloader], over
    [(model, optimizer, correct, running_loss)]. *)
Definition train_batch (data : Batch)
    (s : NNModule * Optimizer * float * float)
    : M (NNModule * Optimizer * float * float) :=
  let '(model, optimizer, correct, running_loss) := s in
  let (inputs, targets) := data in
  outputs <- perform EvForward (Ok (call_model model inputs)) ;;
  loss <- perform EvCriterion (Ok (BCELoss outputs targets)) ;;
  call EvZeroGrad ;;;
  call EvBackward ;;;
  po <- perform EvOptimizerStep
          (Ok (backward_step (params model) (training model) optimizer
                             inputs targets)) ;;
  let model := {| params := fst po; training := training model |} in
  let optimizer := snd po in
  let running_loss := PrimFloat.add running_loss loss in
  let correct := PyFloat.add_int correct (n_correct outputs targets) in
  ret (model, optimizer, correct, running_loss).

(** The call [eval_model(model, test_dataloader, criterion)] as an
    operation of the run. *)
Definition call_eval_model (model : NNModule) (test_dataloader : list Batch)
    : M (float * float * NNModule) :=
  perform EvEvalModel
    (match eval_model model test_dataloader with
     | (Ok la, model') => Ok (la, model')
     | (Raise e, _) => Raise e
     end).

(** What [plot_classes_preds(model, sample_input, sample_target)] does
    by itself: it returns the figure or raises as [logger_utils.py] has
    it, with the module as the network. *)
Definition plot_classes_preds_result (model : NNModule) (sample : Batch)
    : result unit :=
  let (sample_input, sample_target) := sample in
  match Logger.plot_classes_preds (call_model model) sample_input
                                  sample_target with
  | Logger.Returns _ => Ok tt
  | Logger.Raises e => Raise e
  | Logger.RaisesIndexError => Raise IndexError
  end.

(** The network gives an output for every image of a batch. *)
Definition output_per_image : Prop :=
  forall params training (inputs : list Image),
    List.length (forward params training inputs) = List.length inputs.

(** The batch has an image for every label. *)
Definition image_per_label (sample : Batch) : Prop :=
  (List.length (snd sample) <= List.length (fst sample))%nat.

(** The figure of [plot_classes_preds] has a cell for every sample it
    shows: [min(12, len(sample_target))] is a multiple of 3. *)
Definition figure_fits (sample : Batch) : bool :=
  (Z.min 12 (len (snd sample)) mod 3 =? 0)%Z.

(** The call [plot_classes_preds(model, sample_input, sample_target)] as
    an operation of the run. *)
Definition call_plot_classes_preds (model : NNModule) (sample : Batch)
    : M unit :=
  perform EvPlotClassesPreds (plot_classes_preds_result model sample).

(** [os.path.join(save_dir, f"{epoch}.pt")] *)
Definition checkpoint_path (save_dir : string) (epoch : Z) : string :=
  Py.os_path_join save_dir (Py.str epoch ++ ".pt").

(** [if not nosave and epoch % 3 == 2: torch.save(...)] *)
Definition checkpoint (model : NNModule) (save_dir : string) (nosave : bool)
    (epoch : Z) : M unit :=
  if negb nosave && (epoch mod 3 =? 2)%Z
  then call (EvSave (params model) (checkpoint_path save_dir epoch))
  else ret tt.

(** The body of [for epoch in range(epochs)], over [(model, optimizer)];
    [sample] is [(sample_input, sample_target)]. *)
Definition train_epoch (sample : Batch)
    (train_dataloader test_dataloader : list Batch)
    (save_dir : string) (nosave : bool) (epoch : Z)
    (s : NNModule * Optimizer) : M (NNModule * Optimizer) :=
  let (model, optimizer) := s in
  model <- perform EvModelTrain (Ok (model_train model)) ;;
  let correct := 0%float in
  let running_loss := 0%float in
  st <- for_each train_dataloader train_batch
                 (model, optimizer, correct, running_loss) ;;
  let '(model, optimizer, correct, running_loss) := st in
  average_loss <- truediv running_loss (len train_dataloader) ;;
  ev <- call_eval_model model test_dataloader ;;
  let '(eval_loss, eval_accuracy, model) := ev in
  call (EvAddScalars "loss" average_loss eval_loss (epoch + 1)) ;;;
  train_accuracy <- truediv correct (len train_dataloader) ;;
  call (EvAddScalar "accuracy/Train" train_accuracy (epoch + 1)) ;;;
  call (EvAddScalar "accuracy/Eval" eval_accuracy (epoch + 1)) ;;;
  call_plot_classes_preds model sample ;;;
  call (EvAddFigure "predictions vs. actuals" (epoch + 1)) ;;;
  checkpoint model save_dir nosave epoch ;;;
  optimizer <- perform EvSchedulerStep (Ok (scheduler_step optimizer)) ;;
  call EvPbarUpdate ;;;
  call (EvPbarSetPostfix epoch average_loss (current_lr optimizer)) ;;;
  ret (model, optimizer).

(** [with tqdm(range(epochs)) as pbar: for epoch in range(epochs): ...]
    and the [return model] after it. *)
Definition fit (sample : Batch)
    (train_dataloader test_dataloader : list Batch) (epochs : Z)
    (save_dir : string) (nosave : bool) (s : NNModule * Optimizer)
    : M NNModule :=
  call (EvTqdm epochs) ;;;
  s' <- for_each (range epochs)
                 (train_epoch sample train_dataloader test_dataloader save_dir
                              nosave)
                 s ;;
  ret (fst s').

(** [int(epochs * 0.7)] *)
Definition total_iters (epochs : Z) : Z :=
  PyFloat.to_int (PrimFloat.mul (PyFloat.of_int epochs) 0.7%float).

Definition train_model (model : NNModule)
    (train_dataloader test_dataloader : list Batch) (epochs : Z)
    (dev save_dir : string) (nosave : bool) : M NNModule :=
  model <- perform (EvToDevice dev) (Ok model) ;;
  sample <- perform EvNextBatch
              (match test_dataloader with
               | [] => Raise StopIteration
               | b :: _ => Ok b
               end) ;;
  let lr := 1e-5%float in
  optimizer <- perform (EvAdam lr) (Ok (Adam (params model) lr)) ;;
  optimizer <- perform (EvLinearLR 1 0.1 (total_iters epochs))
                 (Ok (LinearLR optimizer 1 0.1 (total_iters epochs))) ;;
  try_except_FileExistsError_pass (call (EvMakedirs save_dir)) ;;;
  fit sample train_dataloader test_dataloader epochs save_dir nosave
      (model, optimizer).

(** A run of [train_model] from its first operation. *)
Definition run {A} (m : M A) (env : environment) : result A * list entry :=
  m env 0%nat.

(** *** What a run wrote *)

(** The checkpoint an operation wrote. *)
Definition saved_of (en : entry) : list string :=
  match en with
  | (EvSave _ path, None) => [path]
  | _ => []
  end.

(** The paths of the checkpoints written, in order. *)
Definition saved_paths (tr : list entry) : list string :=
  flat_map saved_of tr.

(** The scalar an operation added under [tag]. *)
Definition scalar_of (tag : string) (en : entry) : list (float * Z) :=
  match en with
  | (EvAddScalar tag' v step, None) =>
      if String.eqb tag tag' then [(v, step)] else []
  | _ => []
  end.

(** The [(value, step)] pairs a scalar tag received, in order. *)
Definition scalars_of (tag : string) (tr : list entry) : list (float * Z) :=
  flat_map (scalar_of tag) tr.

(** An operation that raised. *)
Definition failed (en : entry) : bool :=
  match snd en with Some _ => true | None => false end.

(** The one failure [train_model] handles: [os.makedirs] meeting an
    existing directory. *)
Definition recovered (en : entry) : bool :=
  match en with
  | (EvMakedirs _, Some FileExistsError) => true
  | _ => false
  end.

End TrainModel.

(** *** The training run when nothing fails

    The state [(model, optimizer)] as the loops update it, and the values
    an epoch reports, written as functions of the state the epoch starts
    from. *)

Section Reference.

Context {T : Torch}.

(** The [(outputs, targets)] of every batch of one epoch, each computed
    with the parameters as the batches before it left them. *)
Fixpoint epoch_outputs (model : NNModule) (optimizer : Optimizer)
    (train_dataloader : list Batch) : list (list float * list float) :=
  match train_dataloader with
  | [] => []
  | (inputs, targets) :: rest =>
      let po := backward_step (params model) (training model) optimizer
                              inputs targets in
      (call_model model inputs, targets)
      :: epoch_outputs {| params := fst po; training := training model |}
                       (snd po) rest
  end.

(** The state after the batches of one epoch. *)
Fixpoint after_batches (model : NNModule) (optimizer : Optimizer)
    (train_dataloader : list Batch) : NNModule * Optimizer :=
  match train_dataloader with
  | [] => (model, optimizer)
  | (inputs, targets) :: rest =>
      let po := backward_step (params model) (training model) optimizer
                              inputs targets in
      after_batches {| params := fst po; training := training model |}
                    (snd po) rest
  end.

(** The number of correct thresholded predictions of each batch. *)
Definition correct_counts (outs : list (list float * list float)) : list Z :=
  map (fun ot => n_correct (fst ot) (snd ot)) outs.

(** [correct] at the end of the epoch: the counts added up, as floats,
    from [0.0]. *)
Definition count_correct (outs : list (list float * list float)) : float :=
  fold_left PyFloat.add_int (correct_counts outs) 0%float.

(** Correct predictions of the epoch over the number of batches. *)
Definition correct_per_batch (s : NNModule * Optimizer)
    (train_dataloader : list Batch) : float :=
  PyFloat.div_int
    (count_correct (epoch_outputs (model_train (fst s)) (snd s)
                                  train_dataloader))
    (len train_dataloader).

(** Correct predictions of the epoch over the number of samples. *)
Definition correct_per_sample (s : NNModule * Optimizer)
    (train_dataloader : list Batch) : float :=
  PyFloat.div_int
    (count_correct (epoch_outputs (model_train (fst s)) (snd s)
                                  train_dataloader))
    (len (flat_map snd train_dataloader)).

(** The state one epoch leaves: trained on every batch, left in
    evaluation mode by [eval_model], the scheduler stepped once. *)
Definition after_epoch (train_dataloader : list Batch)
    (s : NNModule * Optimizer) : NNModule * Optimizer :=
  let s' := after_batches (model_train (fst s)) (snd s) train_dataloader in
  (model_eval (fst s'), scheduler_step (snd s')).

(** The state epoch [k] starts from. *)
Definition state_at (train_dataloader : list Batch)
    (s0 : NNModule * Optimizer) (k : nat) : NNModule * Optimizer :=
  Nat.iter k (after_epoch train_dataloader) s0.

(** The state the loop over epochs starts from. *)
Definition initial_state (model : NNModule) (epochs : Z)
    : NNModule * Optimizer :=
  (model,
   LinearLR (Adam (params model) 1e-5%float) 1 0.1 (total_iters epochs)).

(** The checkpoints of a whole run: one for every epoch index with
    [epoch % 3 == 2], unless [nosave]. *)
Definition checkpoints (save_dir : string) (nosave : bool) (epochs : Z)
    : list string :=
  if nosave then []
  else map (checkpoint_path save_dir)
           (filter (fun epoch => (epoch mod 3 =? 2)%Z) (range epochs)).

(** *** The evaluation, in the words of its contract *)

(** The loss of every batch. *)
Definition batch_losses (model : NNModule) (test_dataloader : list Batch)
    : list float :=
  map (fun b => BCELoss (call_model model (fst b)) (snd b)) test_dataloader.

(** [xs] added up from [start], left to right. *)
Definition sum_floats (start : float) (xs : list float) : float :=
  fold_left PrimFloat.add xs start.

(** Every sample's output with its label. *)
Definition predictions (model : NNModule) (test_dataloader : list Batch)
    : list (float * float) :=
  flat_map (fun b => combine (call_model model (fst b)) (snd b))
           test_dataloader.

(** The samples whose thresholded output equals the label. *)
Definition correct_samples (model : NNModule) (test_dataloader : list Batch)
    : Z :=
  len (filter (fun ot => PrimFloat.eqb (threshold (fst ot)) (snd ot))
              (predictions model test_dataloader)).

Definition total_samples (test_dataloader : list Batch) : Z :=
  len (flat_map snd test_dataloader).

(** A [DataLoader] never yields a batch without samples. *)
Definition nonempty_batches (dataloader : list Batch) : Prop :=
  Forall (fun b => snd b <> []) dataloader.

(** The environment in which [os.makedirs] finding the directory is
    taken back: [os.makedirs] is the fifth operation of a run. *)
Definition makedirs_index : nat := 4.

Definition forgive (env : environment) : environment :=
  fun k =>
    if Nat.eqb k makedirs_index
    then match env k with
         | Some FileExistsError => None
         | other => other
         end
    else env k.

(** The environment in which nothing fails. *)
Definition calm : environment := fun _ => None.

(** What one epoch writes: its checkpoint, if it has one, and its
    training accuracy at step [epoch + 1]. *)
Definition epoch_checkpoints (save_dir : string) (nosave : bool) (epoch : Z)
    : list string :=
  if negb nosave && (epoch mod 3 =? 2)%Z
  then [checkpoint_path save_dir epoch] else [].

Definition epoch_accuracy (train_dataloader : list Batch)
    (s : NNModule * Optimizer) (epoch : Z) : list (float * Z) :=
  [(correct_per_batch s train_dataloader, (epoch + 1)%Z)].

(** *** Properties of runs *)

(** [x] satisfies [Q]: a postcondition on the result and the operations. *)
Definition post {A} (x : result A * list entry)
    (Q : result A -> list entry -> Prop) : Prop :=
  Q (fst x) (snd x).

(** Operations that wrote no checkpoint and no scalar. *)
Definition silent (d : list entry) : Prop :=
  saved_paths d = [] /\ forall tag, scalars_of tag d = [].

(** Nothing failed in [d] but what was recovered. *)
Definition unharmed (d : list entry) : Prop :=
  Forall (fun en => failed en = false \/ recovered en = true) d.

(** A computation that returned met no failure but recovered ones; one
    that raised did so at its last operation, with that operation's
    exception, and met no other failure before. *)
Definition fatal_last {A} (x : result A * list entry) : Prop :=
  match x with
  | (Ok _, d) => unharmed d
  | (Raise e, d) =>
      exists d0 ev, d = d0 ++ [(ev, Some e)]
                    /\ recovered (ev, Some e) = false
                    /\ unharmed d0
  end.

Definition propagates {A} (m : M A) : Prop :=
  forall env n, fatal_last (m env n).

Definition not_makedirs (ev : event) : Prop :=
  match ev with EvMakedirs _ => False | _ => True end.

(** Two environments that agree from operation [n] on. *)
Definition agree_from (n : nat) (env env' : environment) : Prop :=
  forall k, (n <= k)%nat -> env k = env' k.

(** A computation that asks the environment about its own operations
    only. *)
Definition local {A} (m : M A) : Prop :=
  forall env env' n, agree_from n env env' -> m env n = m env' n.

(** [l1] is the beginning of [l2]. *)
Definition prefix {A} (l1 l2 : list A) : Prop := exists rest, l2 = l1 ++ rest.

(** What the operations of one epoch may have written when the epoch
    ends or raises: nothing yet or its accuracy, nothing yet or its
    checkpoint; all of it, and the state of the reference, when it ends. *)
Definition epoch_post (train_dataloader : list Batch) (save_dir : string)
    (nosave : bool) (epoch : Z) (s : NNModule * Optimizer)
    (r : result (NNModule * Optimizer)) (d : list entry) : Prop :=
  (saved_paths d = [] \/ saved_paths d = epoch_checkpoints save_dir nosave epoch)
  /\ (scalars_of "accuracy/Train" d = []
      \/ scalars_of "accuracy/Train" d = epoch_accuracy train_dataloader s epoch)
  /\ (forall s', r = Ok s' ->
        s' = after_epoch train_dataloader s
        /\ saved_paths d = epoch_checkpoints save_dir nosave epoch
        /\ scalars_of "accuracy/Train" d
           = epoch_accuracy train_dataloader s epoch).

(** The accuracies the epochs [es] report when the first starts from [s]. *)
Fixpoint epochs_accuracy (train_dataloader : list Batch) (es : list Z)
    (s : NNModule * Optimizer) : list (float * Z) :=
  match es with
  | [] => []
  | e :: es' =>
      epoch_accuracy train_dataloader s e
      ++ epochs_accuracy train_dataloader es' (after_epoch train_dataloader s)
  end.

(** What a whole run has written when it returns or raises. *)
Definition run_post (train_dataloader : list Batch) (save_dir : string)
    (nosave : bool) (model : NNModule) (epochs : Z)
    (r : result NNModule) (d : list entry) : Prop :=
  prefix (saved_paths d) (checkpoints save_dir nosave epochs)
  /\ prefix (scalars_of "accuracy/Train" d)
            (epochs_accuracy train_dataloader (range epochs)
                             (initial_state model epochs))
  /\ (is_ok r = true ->
        saved_paths d = checkpoints save_dir nosave epochs
        /\ scalars_of "accuracy/Train" d
           = epochs_accuracy train_dataloader (range epochs)
                             (initial_state model epochs)).

End Reference.

(** ** The Dataset Splitter ([face.py], [main]) *)

Section Splitter.

Variables X Y : Type.

(** [xs[indices]] *)
Definition take_indices {E} (xs : list E) (indices : list nat) : list E :=
  flat_map (fun i => match nth_error xs i with
                     | Some x => [x]
                     | None => []
                     end) indices.

(** The sample with index [i] of a dataset: its image and its label. *)
Definition sample_at (xs : list X) (ys : list Y) (i : nat) (xy : X * Y)
    : Prop :=
  nth_error xs i = Some (fst xy) /\ nth_error ys i = Some (snd xy).

(** The size of the test subset for a ratio [test_size]. *)
Definition n_test (test_size : Q) (n : nat) : nat :=
  Z.to_nat (Qceiling (test_size * inject_Z (Z.of_nat n))).

Record Split : Type := {
  train_indices : list nat;
  test_indices : list nat;
  x_train : list X;
  x_test : list X;
  y_train : list Y;
  y_test : list Y
}.

(** Modelled from the spec: [train_test_split] is scikit-learn's and is
    not among the sources; [main] only calls it.  The spec has the
    Dataset Splitter partition the images and labels "into train/test
    subsets by a fixed ratio", the two subsets disjoint.  So: the sample
    indices are shuffled ([shuffle], a permutation of the indices which
    the library draws), the first [n_test] of them form the test subset
    and the others the train subset, images and labels alike.  The spec
    does not say how the ratio is rounded; [n_test] rounds up. *)
Definition train_test_split (shuffle : list nat) (xs : list X) (ys : list Y)
    (test_size : Q) : Split :=
  let k := n_test test_size (List.length xs) in
  let test := firstn k shuffle in
  let train := skipn k shuffle in
  {| train_indices := train;
     test_indices := test;
     x_train := take_indices xs train;
     x_test := take_indices xs test;
     y_train := take_indices ys train;
     y_test := take_indices ys test |}.

(** The split [main] makes:
    [train_test_split(images, labels, test_size=TEST_SIZE)]. *)
Definition split_samples (shuffle : list nat) (image_samples : list X)
    (label_samples : list Y) : Split :=
  train_test_split shuffle image_samples label_samples TEST_SIZE.

End Splitter.

(** ** Tensor shapes through [SmilingClassifier.forward] *)

Module Shape.

Local Open Scope Z_scope.

(** Output extent of [nn.Conv2d] and of [nn.MaxPool2d] along one axis
    (dilation 1). *)
Definition window_out (size kernel stride padding : Z) : Z :=
  (size + 2 * padding - kernel) / stride + 1.

(** [nn.Conv2d(c_in, c_out, kernel_size=5, stride=1, padding=2)] on a
    shape (B, C, H, W); [None] is the error on a channel mismatch. *)
Definition conv2d (c_in c_out : Z) (s : Z * Z * Z * Z) : option (Z * Z * Z * Z) :=
  let '(b, c, h, w) := s in
  if c =? c_in
  then Some (b, c_out, window_out h 5 1 2, window_out w 5 1 2)
  else None.

(** [nn.MaxPool2d(kernel_size=2, stride=2, padding=0)] *)
Definition pool (s : Z * Z * Z * Z) : Z * Z * Z * Z :=
  let '(b, c, h, w) := s in (b, c, window_out h 2 2 0, window_out w 2 2 0).

(** [x.view(-1, cols)]: the row count is inferred; [None] when the
    elements do not fill whole rows.  A tensor without elements gives no
    row. *)
Definition view (cols : Z) (s : Z * Z * Z * Z) : option (Z * Z) :=
  let '(b, c, h, w) := s in
  let numel := b * c * h * w in
  if (numel mod cols =? 0) then Some (numel / cols, cols)
  else None.

(** [nn.Linear(n_in, n_out)] on a shape (rows, cols) *)
Definition linear (n_in n_out : Z) (s : Z * Z) : option (Z * Z) :=
  let (rows, cols) := s in
  if cols =? n_in then Some (rows, n_out) else None.

Definition and_then {A B} (o : option A) (f : A -> option B) : option B :=
  match o with Some a => f a | None => None end.

(** The shape [forward] returns for an input of shape [s]; [relu] and
    [sigmoid] keep the shape. *)
Definition forward_shape (s : Z * Z * Z * Z) : option (Z * Z) :=
  and_then (conv2d 3 32 s) (fun x =>
  let x := pool x in
  and_then (conv2d 32 64 x) (fun x =>
  let x := pool x in
  and_then (view (64 * 45 * 48) x) (fun x =>
  and_then (linear (64 * 45 * 48) 512 x) (fun x =>
  linear 512 1 x)))).

End Shape.

(** ** A small instance of the framework, for running the definitions *)

Module Toy.

(** One parameter, added to every input; the optimizer is its learning
    rate, which a step subtracts from the parameter and the scheduler
    halves; the loss adds up the distances to the targets. *)
Definition torch : Torch := {|
  Params := float;
  Image := float;
  Optimizer := float;
  forward := fun w _ xs => map (PrimFloat.add w) xs;
  BCELoss := fun outputs targets =>
    fold_left (fun acc ot => PrimFloat.add acc
                               (PrimFloat.abs (PrimFloat.sub (fst ot) (snd ot))))
              (combine outputs targets) 0%float;
  Adam := fun _ lr => lr;
  LinearLR := fun optimizer _ _ _ => optimizer;
  backward_step := fun w _ lr _ _ => (PrimFloat.sub w lr, lr);
  scheduler_step := fun lr => PrimFloat.mul lr 0.5%float;
  current_lr := fun lr => lr
|}.

Definition model : @NNModule torch := @Build_NNModule torch 0%float true.

(** The call of the module, which returns. *)
Definition net (model : @NNModule torch) (inputs : @Inputs torch)
    : result (list float) :=
  Ok (call_model model inputs).

(** The criterion, which like [nn.BCELoss] refuses sizes that differ. *)
Definition criterion (outputs targets : list float) : result float :=
  if (List.length outputs =? List.length targets)%nat
  then Ok (@BCELoss torch outputs targets) else Raise ValueError.

(** A criterion that takes any two sizes. *)
Definition lenient (outputs targets : list float) : result float :=
  Ok (@BCELoss torch outputs targets).

(** One batch of two samples, which the model gets right. *)
Definition two_right : list (@Batch torch) :=
  [([0.75%float; 0.25%float], [1%float; 0%float])].

(** Two batches of two samples; the second has one wrong prediction. *)
Definition three_right : list (@Batch torch) :=
  [([0.75%float; 0.25%float], [1%float; 0%float]);
   ([0.75%float; 0.75%float], [1%float; 0%float])].

(** One batch of three samples, which the model gets right; its figure
    fits the grid of [plot_classes_preds]. *)
Definition three_samples : list (@Batch torch) :=
  [([0.75%float; 0.25%float; 0.75%float], [1%float; 0%float; 1%float])].

(** A data directory with two images and the lines of [labels]. *)
Definition disk (labels : string) : FileSystem nat := {|
  fs_open := fun path =>
    if String.eqb path "data/labels.txt" then Ok labels
    else Raise FileNotFoundError;
  os_listdir := fun path =>
    if String.eqb path "data/files" then Ok ["a.jpg"; "b.jpg"]%string
    else Raise FileNotFoundError;
  cv2_imread := fun path =>
    if String.eqb path "data/files/a.jpg" then Some 1%nat
    else if String.eqb path "data/files/b.jpg" then Some 2%nat
    else None
|}.

Definition two_labels : string :=
  ("1 a.jpg" ++ String Py.newline ("0 b.jpg" ++ String Py.newline EmptyString))%string.

Definition one_label : string :=
  ("1 a.jpg" ++ String Py.newline EmptyString)%string.

End Toy.

(** ** More of the Image Loader *)

(** The rest of a labels file after [n] calls of [readline]. *)
Fixpoint drop_lines (n : nat) (label_file : string) : string :=
  match n with
  | O => label_file
  | S n' => drop_lines n' (snd (Py.readline label_file))
  end.

(** What the [k]-th call of [readline] returns (counting from 0): the
    [k]-th line, or the empty string when the file has no such line. *)
Definition line_read (k : nat) (content : string) : string :=
  nth k (Py.file_lines content) EmptyString.

Section LoaderReference.

Variable RawImage : Type.
Variable fs : FileSystem RawImage.

(** The file [name] of the directory decodes to [raw]. *)
Definition decode (data_path name : string) (raw : RawImage) : Prop :=
  cv2_imread fs (Py.os_path_join data_path name) = Some raw.

(** The calls of [readline] from number [first] on return lines that
    start with the integers [labels], in order. *)
Definition labels_from (content : string) (first : nat) (labels : list Z)
    : Prop :=
  forall k label, nth_error labels k = Some label ->
                  label_of_line (line_read (first + k) content) label.

End LoaderReference.

(** ** The operations of a training run, in order *)

Section Operations.

Context {T : Torch}.

Local Open Scope string_scope.

(** The calls of one pass of [for data in train_dataloader]. *)
Definition batch_operations : list event :=
  [EvForward; EvCriterion; EvZeroGrad; EvBackward; EvOptimizerStep].

(** [running_loss] at the end of an epoch: the batch losses added up
    from [0.0]. *)
Definition running_loss_of (outs : list (list float * list float)) : float :=
  sum_floats 0 (map (fun ot => BCELoss (fst ot) (snd ot)) outs).

(** [eval_model] returns on these batches: there is a batch, and there
    is a sample. *)
Definition has_samples (test_dataloader : list Batch) : bool :=
  negb (len test_dataloader =? 0)%Z
  && negb (total_samples test_dataloader =? 0)%Z.

(** What [eval_model] returns for a module on batches with samples. *)
Definition eval_values (model : NNModule) (test_dataloader : list Batch)
    : float * float :=
  (PyFloat.div_int
     (sum_floats 0 (batch_losses (model_eval model) test_dataloader))
     (len test_dataloader),
   PyFloat.int_truediv
     (100 * correct_samples (model_eval model) test_dataloader)
     (total_samples test_dataloader)).

(** What ends an epoch from the state [s] when no call is made to fail,
    if anything does: the division by a number of batches that is 0,
    the evaluation without samples, or the figure of the sample batch. *)
Definition epoch_error (sample : Batch)
    (train_dataloader test_dataloader : list Batch)
    (s : NNModule * Optimizer) : option exn :=
  let s' := after_batches (model_train (fst s)) (snd s) train_dataloader in
  if (len train_dataloader =? 0)%Z then Some ZeroDivisionError
  else if negb (has_samples test_dataloader) then Some ZeroDivisionError
  else match plot_classes_preds_result (model_eval (fst s')) sample with
       | Ok _ => None
       | Raise e => Some e
       end.

(** An epoch from the state [s] runs to its end. *)
Definition epoch_runs (sample : Batch)
    (train_dataloader test_dataloader : list Batch)
    (s : NNModule * Optimizer) : bool :=
  match epoch_error sample train_dataloader test_dataloader s with
  | None => true
  | Some _ => false
  end.

(** The operations of one epoch from the state [s], when none is made to
    fail: all of them when the epoch runs to its end, and otherwise
    those up to the division, the evaluation or the figure that
    raises. *)
Definition epoch_operations (sample : Batch)
    (train_dataloader test_dataloader : list Batch)
    (save_dir : string) (nosave : bool) (epoch : Z)
    (s : NNModule * Optimizer) : list event :=
  let outs := epoch_outputs (model_train (fst s)) (snd s) train_dataloader in
  let s' := after_batches (model_train (fst s)) (snd s) train_dataloader in
  let average_loss :=
    PyFloat.div_int (running_loss_of outs) (len train_dataloader) in
  let ev := eval_values (fst s') test_dataloader in
  EvModelTrain
  :: flat_map (fun _ => batch_operations) train_dataloader
  ++ EvTrueDiv
  :: (if (len train_dataloader =? 0)%Z then []
      else
        EvEvalModel
        :: (if has_samples test_dataloader
            then
              EvAddScalars "loss" average_loss (fst ev) (epoch + 1)
              :: EvTrueDiv
              :: EvAddScalar "accuracy/Train"
                   (PyFloat.div_int (count_correct outs)
                                    (len train_dataloader))
                   (epoch + 1)
              :: EvAddScalar "accuracy/Eval" (snd ev) (epoch + 1)
              :: EvPlotClassesPreds
              :: (if is_ok (plot_classes_preds_result (model_eval (fst s'))
                                                      sample)
                  then
                    EvAddFigure "predictions vs. actuals" (epoch + 1)
                    :: (if negb nosave && (epoch mod 3 =? 2)%Z
                        then [EvSave (params (fst s'))
                                     (checkpoint_path save_dir epoch)]
                        else [])
                    ++ [EvSchedulerStep; EvPbarUpdate;
                        EvPbarSetPostfix epoch average_loss
                          (current_lr (scheduler_step (snd s')))]
                  else [])
            else [])).

(** There are batches to train on and samples to evaluate on. *)
Definition trainable (train_dataloader test_dataloader : list Batch) : bool :=
  negb (len train_dataloader =? 0)%Z && has_samples test_dataloader.

(** The operations of the epochs [es], the first from the state [s]:
    the epochs one after the other, up to the first that does not run
    to its end. *)
Fixpoint epochs_operations (sample : Batch)
    (train_dataloader test_dataloader : list Batch)
    (save_dir : string) (nosave : bool) (es : list Z)
    (s : NNModule * Optimizer) : list event :=
  match es with
  | [] => []
  | e :: es' =>
      epoch_operations sample train_dataloader test_dataloader save_dir
                       nosave e s
      ++ (if epoch_runs sample train_dataloader test_dataloader s
          then epochs_operations sample train_dataloader test_dataloader
                 save_dir nosave es' (after_epoch train_dataloader s)
          else [])
  end.

(** The operations of a whole run of [train_model] when none is made to
    fail. *)
Definition run_operations (model : NNModule)
    (train_dataloader test_dataloader : list Batch) (epochs : Z)
    (dev save_dir : string) (nosave : bool) : list event :=
  EvToDevice dev
  :: EvNextBatch
  :: match test_dataloader with
     | [] => []
     | sample :: _ =>
         EvAdam 1e-5%float
         :: EvLinearLR 1 0.1 (total_iters epochs)
         :: EvMakedirs save_dir
         :: EvTqdm epochs
         :: epochs_operations sample train_dataloader test_dataloader
              save_dir nosave (range epochs) (initial_state model epochs)
     end.

(** What the epochs [es] leave, the first from the state [s], when no
    call is made to fail: the state after them, or what ends the first
    epoch that does not run to its end. *)
Fixpoint calm_epochs_result (sample : Batch)
    (train_dataloader test_dataloader : list Batch) (es : list Z)
    (s : NNModule * Optimizer) : result (NNModule * Optimizer) :=
  match es with
  | [] => Ok s
  | _ :: es' =>
      match epoch_error sample train_dataloader test_dataloader s with
      | Some e => Raise e
      | None =>
          calm_epochs_result sample train_dataloader test_dataloader es'
                      (after_epoch train_dataloader s)
      end
  end.

(** The result of a run of [train_model] in which no call is made to
    fail. *)
Definition calm_result (model : NNModule)
    (train_dataloader test_dataloader : list Batch) (epochs : Z)
    : result NNModule :=
  match test_dataloader with
  | [] => Raise StopIteration
  | sample :: _ =>
      match calm_epochs_result sample train_dataloader test_dataloader
                        (range epochs) (initial_state model epochs) with
      | Ok s => Ok (fst s)
      | Raise e => Raise e
      end
  end.

(** The run ends with [return model]. *)
Definition run_returns (model : NNModule)
    (train_dataloader test_dataloader : list Batch) (epochs : Z) : bool :=
  is_ok (calm_result model train_dataloader test_dataloader epochs).

(** The state dictionaries written, each with its path, in order. *)
Definition saved_states (tr : list entry) : list (string * Params) :=
  flat_map (fun en => match en with
                      | (EvSave state_dict path, None) => [(path, state_dict)]
                      | _ => []
                      end) tr.

(** The same, read off operations that did not fail. *)
Definition states_saved_by (ops : list event) : list (string * Params) :=
  flat_map (fun ev => match ev with
                      | EvSave state_dict path => [(path, state_dict)]
                      | _ => []
                      end) ops.

(** The scalars a tag receives from operations that did not fail. *)
Definition scalars_added_by (tag : string) (ops : list event)
    : list (float * Z) :=
  flat_map (fun ev => match ev with
                      | EvAddScalar tag' v step =>
                          if String.eqb tag tag' then [(v, step)] else []
                      | _ => []
                      end) ops.

(** The losses [add_scalars] received, as [(train, eval, step)]. *)
Definition losses_added (tr : list entry) : list (float * float * Z) :=
  flat_map (fun en => match en with
                      | (EvAddScalars _ train_loss eval_loss step, None) =>
                          [(train_loss, eval_loss, step)]
                      | _ => []
                      end) tr.

(** How many operations of a run are [ev]-like and did not fail. *)
Definition count_done (p : event -> bool) (tr : list entry) : nat :=
  List.length (filter (fun en => p (fst en) && negb (failed en)) tr).

Definition is_optimizer_step (ev : event) : bool :=
  match ev with EvOptimizerStep => true | _ => false end.

Definition is_scheduler_step (ev : event) : bool :=
  match ev with EvSchedulerStep => true | _ => false end.

Definition is_makedirs (ev : event) : bool :=
  match ev with EvMakedirs _ => true | _ => false end.

End Operations.

Section Projections.

Context {T : Torch}.

(** What the operations of a run that did not fail produced, each
    through [p]. *)
Definition done_by {X} (p : event -> list X) (tr : list entry) : list X :=
  flat_map (fun en => match snd en with
                      | None => p (fst en)
                      | Some _ => []
                      end) tr.

Definition state_saved (ev : event) : list (string * Params) :=
  match ev with
  | EvSave state_dict path => [(path, state_dict)]
  | _ => []
  end.

Definition scalar_added (tag : string) (ev : event) : list (float * Z) :=
  match ev with
  | EvAddScalar tag' v step => if String.eqb tag tag' then [(v, step)] else []
  | _ => []
  end.

Definition losses_of (ev : event) : list (float * float * Z) :=
  match ev with
  | EvAddScalars _ train_loss eval_loss step => [(train_loss, eval_loss, step)]
  | _ => []
  end.

Definition one_if (p : event -> bool) (ev : event) : list unit :=
  if p ev then [tt] else [].

(** The checkpoint of epoch [epoch]: its path, and the parameters as
    [epoch + 1] epochs leave them. *)
Definition checkpoint_of (model : NNModule) (train_dataloader : list Batch)
    (epochs : Z) (save_dir : string) (epoch : Z) : string * Params :=
  (checkpoint_path save_dir epoch,
   params (fst (state_at train_dataloader (initial_state model epochs)
                         (S (Z.to_nat epoch))))).

(** What epoch [k] reports about the evaluation: the accuracy of the
    module as the epoch leaves it, at step [k + 1]. *)
Definition eval_accuracy_of (model : NNModule)
    (train_dataloader test_dataloader : list Batch) (epochs : Z) (k : nat)
    : float * Z :=
  (snd (eval_values
          (fst (state_at train_dataloader (initial_state model epochs) (S k)))
          test_dataloader),
   (Z.of_nat k + 1)%Z).

(** What epoch [k] reports about the losses: the average of the batch
    losses of the epoch, and the evaluation loss of the module as the
    epoch leaves it, at step [k + 1]. *)
Definition losses_at (model : NNModule)
    (train_dataloader test_dataloader : list Batch) (epochs : Z) (k : nat)
    : float * float * Z :=
  let s := state_at train_dataloader (initial_state model epochs) k in
  (PyFloat.div_int
     (running_loss_of
        (epoch_outputs (model_train (fst s)) (snd s) train_dataloader))
     (len train_dataloader),
   fst (eval_values
          (fst (state_at train_dataloader (initial_state model epochs) (S k)))
          test_dataloader),
   (Z.of_nat k + 1)%Z).

End Projections.

Section Dues.

Context {T : Torch}.

(** What the epochs [es] produce, epoch by epoch, when the first starts
    from [s] and epoch [e] from the state [s'] produces [q e s']. *)
Fixpoint dues {X} (train_dataloader : list Batch)
    (q : Z -> NNModule * Optimizer -> list X) (es : list Z)
    (s : NNModule * Optimizer) : list X :=
  match es with
  | [] => []
  | e :: es' =>
      q e s ++ dues train_dataloader q es' (after_epoch train_dataloader s)
  end.

End Dues.

Section Products.

Context {T : Torch}.

Local Open Scope string_scope.

(** What the operations of an epoch that runs to its end produce through
    [p], when the calls of a batch, the divisions, the evaluation and
    the plot produce nothing. *)
Definition epoch_products {X} (p : event -> list X)
    (train_dataloader test_dataloader : list Batch) (save_dir : string)
    (nosave : bool) (e : Z) (s : NNModule * Optimizer) : list X :=
  let outs := epoch_outputs (model_train (fst s)) (snd s) train_dataloader in
  let s' := after_epoch train_dataloader s in
  let average_loss :=
    PyFloat.div_int (running_loss_of outs) (len train_dataloader) in
  p (EvAddScalars "loss" average_loss
                  (fst (eval_values (fst s') test_dataloader)) (e + 1))
  ++ p (EvAddScalar "accuracy/Train"
          (PyFloat.div_int (count_correct outs) (len train_dataloader))
          (e + 1))
  ++ p (EvAddScalar "accuracy/Eval"
          (snd (eval_values (fst s') test_dataloader)) (e + 1))
  ++ p (EvAddFigure "predictions vs. actuals" (e + 1))
  ++ (if negb nosave && (e mod 3 =? 2)%Z
      then p (EvSave (params (fst s')) (checkpoint_path save_dir e))
      else [])
  ++ p EvSchedulerStep ++ p EvPbarUpdate
  ++ p (EvPbarSetPostfix e average_loss (current_lr (snd s'))).

(** [p] is fed by none of the operations outside the reports of an
    epoch. *)
Definition reports_only {X} (p : event -> list X) : Prop :=
  flat_map p batch_operations = []
  /\ p EvModelTrain = [] /\ p EvTrueDiv = [] /\ p EvEvalModel = []
  /\ p EvPlotClassesPreds = [] /\ p EvNextBatch = []
  /\ (forall dev, p (EvToDevice dev) = [])
  /\ (forall lr, p (EvAdam lr) = [])
  /\ (forall a b n, p (EvLinearLR a b n) = [])
  /\ (forall path, p (EvMakedirs path) = [])
  /\ (forall n, p (EvTqdm n) = []).

End Products.


(** A data directory whose second image cannot be read. *)
Module Damaged.

Definition disk (labels : string) : FileSystem nat := {|
  fs_open := fun path =>
    if String.eqb path "data/labels.txt" then Ok labels
    else Raise FileNotFoundError;
  os_listdir := fun path =>
    if String.eqb path "data/files" then Ok ["a.jpg"; "b.jpg"]%string
    else Raise FileNotFoundError;
  cv2_imread := fun path =>
    if String.eqb path "data/files/a.jpg" then Some 1%nat else None
|}.

(** A labels file with one line more than the directory has images. *)
Definition three_labels : string :=
  ("1 a.jpg" ++ String Py.newline
     ("0 b.jpg" ++ String Py.newline
        ("1 c.jpg" ++ String Py.newline EmptyString)))%string.

End Damaged.


(** ** The trainer of [face.py] ([get_trained_model])

    The calls into the framework, the writer and the progress bar are
    taken to return here, and the run keeps what it hands to the writer
    and to the progress bar.  What raises is what the code decides
    itself: [next] on a loader without batches, and the divisions. *)

Section GetTrainedModel.

Context {T : Torch}.

Local Open Scope string_scope.

Inductive report : Type :=
| AddScalars (main_tag : string) (tag_scalar_dict : list (string * float))
             (global_step : Z)
| AddScalar (tag : string) (scalar_value : float) (global_step : Z)
| AddFigure (tag : string) (global_step : Z)
| PbarUpdate
| PbarSetPostfix (epoch : Z) (loss : float).

(** The body of [for i, data in enumerate(train_dataloader)], over
    [(model, optimizer, running_loss, average_loss)], with [sample] the
    pair [(sample_input, sample_target)].  The figure is drawn, by
    [plot_classes_preds], after the two calls that hand over scalars
    and before [add_figure] is called. *)
Definition get_trained_model_batch (sample : Batch)
    (train_dataloader test_dataloader : list Batch) (epoch i : Z)
    (data : Batch) (st : NNModule * Optimizer * float * float)
    : result (NNModule * Optimizer * float * float) * list report :=
  let '(model, optimizer, running_loss, average_loss) := st in
  let (inputs, targets) := data in
  let outputs := call_model model inputs in
  let loss := BCELoss outputs targets in
  let po := backward_step (params model) (training model) optimizer
                          inputs targets in
  let model := {| params := fst po; training := training model |} in
  let optimizer := snd po in
  let running_loss := PrimFloat.add running_loss loss in
  if (i =? len train_dataloader - 1)%Z
  then
    if (len train_dataloader =? 0)%Z then (Raise ZeroDivisionError, [])
    else
      let average_loss :=
        PyFloat.div_int running_loss (len train_dataloader) in
      match eval_model model test_dataloader with
      | (Raise e, _) => (Raise e, [])
      | (Ok (eval_loss, accuracy), model) =>
          match plot_classes_preds_result model sample with
          | Raise e =>
              (Raise e,
               [AddScalars "Training stats"
                           [("Training loss", average_loss);
                            ("Test loss", eval_loss)] (epoch + 1);
                AddScalar "Accuracy" accuracy (epoch + 1)])
          | Ok _ =>
              let running_loss := 0%float in
              (Ok (model, optimizer, running_loss, average_loss),
               [AddScalars "Training stats"
                           [("Training loss", average_loss);
                            ("Test loss", eval_loss)] (epoch + 1);
                AddScalar "Accuracy" accuracy (epoch + 1);
                AddFigure "predictions vs. actuals" (epoch + 1)])
          end
      end
  else (Ok (model, optimizer, running_loss, average_loss), []).

(** The loop over the batches that are left, the first with index [i]. *)
Fixpoint get_trained_model_batches (sample : Batch)
    (train_dataloader test_dataloader : list Batch) (epoch i : Z)
    (batches : list Batch) (st : NNModule * Optimizer * float * float)
    : result (NNModule * Optimizer * float * float) * list report :=
  match batches with
  | [] => (Ok st, [])
  | data :: batches' =>
      match get_trained_model_batch sample train_dataloader test_dataloader
                                    epoch i data st with
      | (Ok st', log) =>
          let (r, log') :=
            get_trained_model_batches sample train_dataloader test_dataloader
                                      epoch (i + 1) batches' st' in
          (r, (log ++ log')%list)
      | (Raise e, log) => (Raise e, log)
      end
  end.

(** The body of [for epoch in range(EPOCHS)], over [(model, optimizer)]. *)
Definition get_trained_model_epoch (sample : Batch)
    (train_dataloader test_dataloader : list Batch) (epoch : Z)
    (s : NNModule * Optimizer) : result (NNModule * Optimizer) * list report :=
  let (model, optimizer) := s in
  let model := model_train model in
  let running_loss := 0%float in
  let average_loss := 0%float in
  match get_trained_model_batches sample train_dataloader test_dataloader
          epoch 0 train_dataloader
          (model, optimizer, running_loss, average_loss) with
  | (Ok (model, optimizer, running_loss, average_loss), log) =>
      (Ok (model, optimizer),
       (log ++ [PbarUpdate; PbarSetPostfix epoch average_loss])%list)
  | (Raise e, log) => (Raise e, log)
  end.

Fixpoint get_trained_model_epochs (sample : Batch)
    (train_dataloader test_dataloader : list Batch) (epochs : list Z)
    (s : NNModule * Optimizer) : result (NNModule * Optimizer) * list report :=
  match epochs with
  | [] => (Ok s, [])
  | epoch :: epochs' =>
      match get_trained_model_epoch sample train_dataloader test_dataloader
                                    epoch s with
      | (Ok s', log) =>
          let (r, log') :=
            get_trained_model_epochs sample train_dataloader test_dataloader
                                     epochs' s' in
          (r, (log ++ log')%list)
      | (Raise e, log) => (Raise e, log)
      end
  end.

(** [get_trained_model(train_dataloader, test_dataloader, dev, writer)],
    with [classifier] the module [SmilingClassifier()] makes. *)
Definition get_trained_model (classifier : NNModule)
    (train_dataloader test_dataloader : list Batch) (dev : string)
    : result NNModule * list report :=
  let model := classifier in
  match test_dataloader with
  | [] => (Raise StopIteration, [])
  | sample :: _ =>
      let optimizer := Adam (params model) 0.000001%float in
      match get_trained_model_epochs sample train_dataloader test_dataloader
              (range EPOCHS) (model, optimizer) with
      | (Ok (model, _), log) => (Ok model, log)
      | (Raise e, log) => (Raise e, log)
      end
  end.

(** The state an epoch of [get_trained_model] leaves: trained on every
    batch, and in evaluation mode when there was a batch. *)
Definition trained_epoch (train_dataloader : list Batch)
    (s : NNModule * Optimizer) : NNModule * Optimizer :=
  let s' := after_batches (model_train (fst s)) (snd s) train_dataloader in
  match train_dataloader with
  | [] => s'
  | _ :: _ => (model_eval (fst s'), snd s')
  end.


(** What epoch [epoch] hands over, from the state [s], when it runs to
    its end: the progress alone when there is no batch to train on, and
    else the losses, the accuracy and the figure before it. *)
Definition epoch_reports (train_dataloader test_dataloader : list Batch)
    (epoch : Z) (s : NNModule * Optimizer) : list report :=
  let outs := epoch_outputs (model_train (fst s)) (snd s) train_dataloader in
  let s' := after_batches (model_train (fst s)) (snd s) train_dataloader in
  let average_loss :=
    PyFloat.div_int
      (sum_floats 0 (map (fun ot => BCELoss (fst ot) (snd ot)) outs))
      (len train_dataloader) in
  match train_dataloader with
  | [] => [PbarUpdate; PbarSetPostfix epoch 0]
  | _ :: _ =>
      [AddScalars "Training stats"
                  [("Training loss", average_loss);
                   ("Test loss", fst (eval_values (fst s') test_dataloader))]
                  (epoch + 1);
       AddScalar "Accuracy" (snd (eval_values (fst s') test_dataloader))
                 (epoch + 1);
       AddFigure "predictions vs. actuals" (epoch + 1);
       PbarUpdate;
       PbarSetPostfix epoch average_loss]
  end.

(** What the figure of an epoch that starts from [s] comes to: it is
    drawn with the module as the evaluation left it. *)
Definition epoch_figure (sample : Batch) (train_dataloader : list Batch)
    (s : NNModule * Optimizer) : result unit :=
  plot_classes_preds_result
    (model_eval
       (fst (after_batches (model_train (fst s)) (snd s) train_dataloader)))
    sample.

(** What an epoch has handed over when its figure cannot be drawn: the
    losses and the accuracy. *)
Definition epoch_scalars (train_dataloader test_dataloader : list Batch)
    (epoch : Z) (s : NNModule * Optimizer) : list report :=
  firstn 2 (epoch_reports train_dataloader test_dataloader epoch s).


End GetTrainedModel.
(** * Properties *)

(** ** Python strings *)

Example readline_ex :
  Py.readline ("1 a.jpg" ++ String Py.newline "0 b")%string
  = (("1 a.jpg" ++ String Py.newline EmptyString)%string, "0 b"%string).
Proof. reflexivity. Qed.

Example file_lines_ex :
  Py.file_lines
    ("1 a" ++ String Py.newline ("0 b" ++ String Py.newline "1"))%string
  = [("1 a" ++ String Py.newline EmptyString)%string;
     ("0 b" ++ String Py.newline EmptyString)%string; "1"%string].
Proof. reflexivity. Qed.

Example int_ex :
  Py.int (String "1" (String Py.newline EmptyString)) = Some 1%Z
  /\ Py.int EmptyString = None
  /\ Py.int "-1_0" = Some (-10)%Z
  /\ Py.int (String Py.newline EmptyString) = None
  /\ Py.int "1__0" = None
  /\ Py.int "007" = Some 7%Z.
Proof. repeat split; reflexivity. Qed.

Example str_ex : Py.str 0 = "0"%string /\ Py.str 14 = "14"%string.
Proof. split; reflexivity. Qed.

Example join_ex :
  Py.os_path_join "ckpt" "2.pt" = "ckpt/2.pt"%string
  /\ Py.os_path_join "ckpt/" "2.pt" = "ckpt/2.pt"%string
  /\ Py.os_path_join EmptyString "2.pt" = "2.pt"%string.
Proof. repeat split; reflexivity. Qed.

(** Reading a line of a file that is not exhausted takes the first of
    its lines and leaves the others. *)
Lemma readline_file_lines (s : string) :
  s <> EmptyString ->
  Py.file_lines s = fst (Py.readline s) :: Py.file_lines (snd (Py.readline s)).
Proof.
  induction s as [|c r IH]; [congruence|]; intros _.
  cbn [Py.readline Py.file_lines].
  destruct (Py.is_newline c); [reflexivity|].
  destruct r as [|c' r'].
  - reflexivity.
  - assert (Hne : String c' r' <> EmptyString) by discriminate.
    specialize (IH Hne). rewrite IH.
    destruct (Py.readline (String c' r')) as [l rest]. reflexivity.
Qed.

(** At the end of the file [readline] gives the empty string, which
    [int] refuses. *)
Lemma readline_exhausted_raises :
  Py.int (Py.split_space_first (fst (Py.readline EmptyString))) = None.
Proof. reflexivity. Qed.

(** ** Image Loader *)

Section LoaderFacts.

Variables RawImage Image : Type.
Variable to_tensor : RawImage -> Image.
Variable fs : FileSystem RawImage.

(** A successful loop stored one image per listed file and one label per
    line read, in order, and found a line for every file. *)
Lemma load_loop_ok (data_path : string) (listing : list string) :
  forall images labels label_file imgs labs,
    load_loop to_tensor fs data_path listing images labels label_file = Ok (imgs, labs) ->
    exists imgs' labs',
      imgs = images ++ imgs' /\ labs = labels ++ labs'
      /\ Forall2 (loaded_from to_tensor fs data_path) listing imgs'
      /\ Forall2 label_of_line
           (firstn (List.length listing) (Py.file_lines label_file)) labs'
      /\ (List.length listing <= List.length (Py.file_lines label_file))%nat.
Proof.
  induction listing as [|image listing' IH]; intros images labels label_file
    imgs labs H; cbn [load_loop] in H.
  - inversion H; subst. exists [], []. rewrite !app_nil_r.
    cbn. repeat split; auto with arith.
  - destruct (cv2_imread fs (Py.os_path_join data_path image)) as [raw|] eqn:Hread;
      [|discriminate].
    destruct label_file as [|c r].
    + cbn in H. discriminate.
    + assert (Hne : String c r <> EmptyString) by discriminate.
      pose proof (readline_file_lines Hne) as Hlines.
      destruct (Py.readline (String c r)) as [line rest] eqn:Hrl.
      cbn [fst snd] in Hlines.
      destruct (Py.int (Py.split_space_first line)) as [line_data|] eqn:Hint;
        [|discriminate].
      apply IH in H. destruct H as (imgs' & labs' & -> & -> & Hi & Hl & Hlen).
      exists (to_tensor raw :: imgs'), (line_data :: labs').
      rewrite <- !app_assoc. cbn [app].
      repeat split.
      * constructor; [exists raw; auto | exact Hi].
      * rewrite Hlines. cbn [List.length firstn].
        constructor; [exact Hint | exact Hl].
      * rewrite Hlines. cbn [List.length]. lia.
Qed.

(** The loop raises nothing but the two errors of its body. *)
Lemma load_loop_raise (data_path : string) (listing : list string) :
  forall images labels label_file e,
    load_loop to_tensor fs data_path listing images labels label_file = Raise e ->
    (e = ValueError \/ e = Cv2Error)
    /\ ((forall name, In name listing ->
           cv2_imread fs (Py.os_path_join data_path name) <> None) ->
        e = ValueError).
Proof.
  induction listing as [|image listing' IH]; intros images labels label_file e H;
    cbn [load_loop] in H; [discriminate|].
  destruct (cv2_imread fs (Py.os_path_join data_path image)) as [raw|] eqn:Hread.
  - destruct (Py.readline label_file) as [line rest].
    destruct (Py.int (Py.split_space_first line)).
    + apply IH in H. destruct H as [H1 H2]. split; [exact H1|].
      intros Hall. apply H2. intros name Hin. apply Hall. now right.
    + inversion H; subst. split; [now left|reflexivity].
  - inversion H; subst. split; [now right|].
    intros Hall. exfalso. apply (Hall image); [now left | exact Hread].
Qed.

(** C1: when the labels file has fewer lines than the image directory
    lists files, [load_data] raises: [ValueError] from [int] on the empty
    string [readline] gives at the end of the file, unless an unreadable
    image made [cv2.cvtColor] raise before that.  It never returns. *)
Theorem load_data_label_exhaustion_raises
    (data_dir content : string) (listing : list string)
    (Hopen : fs_open fs (Py.os_path_join data_dir "labels.txt") = Ok content)
    (Hlist : os_listdir fs (Py.os_path_join data_dir "files") = Ok listing)
    (Hfewer : (List.length (Py.file_lines content) < List.length listing)%nat) :
  exists e,
    load_data to_tensor fs data_dir = Raise e
    /\ (e = ValueError \/ e = Cv2Error)
    /\ ((forall name, In name listing ->
           cv2_imread fs (Py.os_path_join (Py.os_path_join data_dir "files") name)
           <> None) ->
        e = ValueError).
Proof.
  unfold load_data. rewrite Hopen, Hlist.
  destruct (load_loop to_tensor fs (Py.os_path_join data_dir "files") listing [] [] content)
    as [[imgs labs]|e] eqn:Hloop.
  - apply load_loop_ok in Hloop.
    destruct Hloop as (_ & _ & _ & _ & _ & _ & Hlen). lia.
  - exists e. split; [reflexivity|].
    exact (load_loop_raise _ _ _ _ _ Hloop).
Qed.

(** C2: when [load_data] returns, the image list and the label list are
    as long as the directory listing, the i-th label is the integer read
    from the i-th line of the labels file, and the i-th image is the one
    decoded from the i-th listed file. *)
Theorem load_data_aligned
    (data_dir : string) (images : list Image) (labels : list Z)
    (Hok : load_data to_tensor fs data_dir = Ok (images, labels)) :
  exists content listing,
    fs_open fs (Py.os_path_join data_dir "labels.txt") = Ok content
    /\ os_listdir fs (Py.os_path_join data_dir "files") = Ok listing
    /\ List.length images = List.length labels
    /\ List.length images = List.length listing
    /\ (forall i label, nth_error labels i = Some label ->
          exists line, nth_error (Py.file_lines content) i = Some line
                       /\ label_of_line line label)
    /\ (forall i img, nth_error images i = Some img ->
          exists name, nth_error listing i = Some name
                       /\ loaded_from to_tensor fs
                            (Py.os_path_join data_dir "files") name img).
Proof.
  unfold load_data in Hok.
  destruct (fs_open fs (Py.os_path_join data_dir "labels.txt"))
    as [content|] eqn:Hopen; [|discriminate].
  destruct (os_listdir fs (Py.os_path_join data_dir "files"))
    as [listing|] eqn:Hlist; [|discriminate].
  apply load_loop_ok in Hok.
  destruct Hok as (imgs' & labs' & -> & -> & Hi & Hl & Hlen).
  cbn [app].
  exists content, listing.
  pose proof (Forall2_length Hi) as Li.
  pose proof (Forall2_length Hl) as Ll.
  rewrite length_firstn in Ll.
  repeat split; try lia.
  - intros i label Hnth.
    assert (Hi' : (i < List.length labs')%nat)
      by (apply nth_error_Some; congruence).
    destruct (nth_error (firstn (List.length listing) (Py.file_lines content)) i)
      as [line|] eqn:Hline.
    + exists line. split.
      * rewrite nth_error_firstn in Hline.
        destruct (Nat.ltb i (List.length listing)); [exact Hline|discriminate].
      * clear - Hl Hline Hnth. revert i Hline Hnth.
        induction Hl; intros [|i] Hline Hnth; cbn in *; try discriminate.
        -- inversion Hline; inversion Hnth; subst; assumption.
        -- eauto.
    + apply nth_error_None in Hline. rewrite length_firstn in Hline. lia.
  - intros i img Hnth.
    clear - Hi Hnth. revert i Hnth.
    induction Hi; intros [|i] Hnth; cbn in *; try discriminate.
    + inversion Hnth; subst. eauto.
    + eauto.
Qed.

End LoaderFacts.

Example load_data_runs :
  load_data (fun raw : nat => raw) (Toy.disk Toy.two_labels) "data"
  = Ok ([1%nat; 2%nat], [1%Z; 0%Z]).
Proof. reflexivity. Qed.

Example load_data_short_labels :
  load_data (fun raw : nat => raw) (Toy.disk Toy.one_label) "data"
  = Raise ValueError.
Proof. reflexivity. Qed.

Lemma load_data_label_exhaustion_raises_witness :
  exists e,
    load_data (fun raw : nat => raw) (Toy.disk Toy.one_label) "data" = Raise e
    /\ (e = ValueError \/ e = Cv2Error)
    /\ ((forall name, In name ["a.jpg"; "b.jpg"]%string ->
           cv2_imread (Toy.disk Toy.one_label)
             (Py.os_path_join (Py.os_path_join "data" "files") name) <> None) ->
        e = ValueError).
Proof.
  apply (@load_data_label_exhaustion_raises nat nat (fun raw => raw)
           (Toy.disk Toy.one_label) "data"%string Toy.one_label
           ["a.jpg"; "b.jpg"]%string).
  - reflexivity.
  - reflexivity.
  - cbn. lia.
Defined.

Lemma load_data_aligned_witness :
  exists content listing,
    fs_open (Toy.disk Toy.two_labels) (Py.os_path_join "data" "labels.txt")
    = Ok content
    /\ os_listdir (Toy.disk Toy.two_labels) (Py.os_path_join "data" "files")
       = Ok listing
    /\ List.length [1%nat; 2%nat] = List.length [1%Z; 0%Z]
    /\ List.length [1%nat; 2%nat] = List.length listing
    /\ (forall i label, nth_error [1%Z; 0%Z] i = Some label ->
          exists line, nth_error (Py.file_lines content) i = Some line
                       /\ label_of_line line label)
    /\ (forall i img, nth_error [1%nat; 2%nat] i = Some img ->
          exists name, nth_error listing i = Some name
                       /\ loaded_from (fun raw : nat => raw)
                            (Toy.disk Toy.two_labels)
                            (Py.os_path_join "data" "files") name img).
Proof.
  apply (@load_data_aligned nat nat (fun raw => raw)
           (Toy.disk Toy.two_labels) "data"%string).
  reflexivity.
Defined.

(** ** Evaluator *)

Section EvaluatorFacts.

Context {T : Torch}.

Lemma model_eval_idempotent (model : NNModule) :
  model_eval (model_eval model) = model_eval model.
Proof. reflexivity. Qed.

(** The loop adds to its accumulators the correct samples, the samples
    and the losses of the batches it visits. *)
Lemma eval_loop_spec (model : NNModule) (test_dataloader : list Batch) :
  forall correct total val_loss,
    eval_loop model test_dataloader correct total val_loss
    = ((correct + correct_samples model test_dataloader)%Z,
       (total + total_samples test_dataloader)%Z,
       sum_floats val_loss (batch_losses model test_dataloader)).
Proof.
  unfold correct_samples, total_samples, predictions, batch_losses, sum_floats,
    len.
  induction test_dataloader as [|[inputs targets] rest IH];
    intros correct total val_loss.
  - cbn. now rewrite !Z.add_0_r.
  - cbn [eval_loop flat_map map fold_left fst snd].
    rewrite IH. unfold n_correct, len.
    rewrite filter_app, !length_app, !Nat2Z.inj_add.
    now rewrite !Z.add_assoc.
Qed.

(** What is in the batches is counted. *)
Lemma total_samples_pos (test_dataloader : list Batch) :
  test_dataloader <> [] -> nonempty_batches test_dataloader ->
  (0 < total_samples test_dataloader)%Z.
Proof.
  unfold total_samples, len.
  destruct test_dataloader as [|[inputs targets] rest]; [congruence|].
  intros _ Hne. inversion Hne as [|b l Hb Hrest]; subst. cbn [snd] in Hb.
  cbn [flat_map snd]. rewrite length_app.
  destruct targets; [congruence|]. cbn [List.length]. lia.
Qed.

(** The module a call of [eval_model] leaves is the one it was given,
    switched to evaluation mode. *)
Lemma eval_model_leaves (model : NNModule) (test_dataloader : list Batch) :
  snd (eval_model model test_dataloader) = model_eval model.
Proof.
  unfold eval_model.
  destruct (eval_loop (model_eval model) test_dataloader 0 0 0) as [[c t] v].
  destruct (len test_dataloader =? 0)%Z; [reflexivity|].
  destruct (t =? 0)%Z; reflexivity.
Qed.

(** The values depend on the module only through its parameters. *)
Lemma eval_model_of_eval (model : NNModule) (test_dataloader : list Batch) :
  eval_model (model_eval model) test_dataloader
  = eval_model model test_dataloader.
Proof. unfold eval_model. now rewrite model_eval_idempotent. Qed.

(** On batches with samples the evaluation returns. *)
Lemma eval_model_returns
    (model : NNModule) (test_dataloader : list Batch) :
  test_dataloader <> [] -> nonempty_batches test_dataloader ->
  is_ok (fst (eval_model model test_dataloader)) = true.
Proof.
  intros Hbatches Hsamples.
  pose proof (total_samples_pos Hbatches Hsamples) as Htotal.
  unfold eval_model. rewrite eval_loop_spec. cbn [Z.add].
  assert (Hlen : (len test_dataloader =? 0)%Z = false).
  { apply Z.eqb_neq. unfold len.
    destruct test_dataloader; [congruence|]. cbn [List.length]. lia. }
  rewrite Hlen.
  assert (Htot : (total_samples test_dataloader =? 0)%Z = false)
    by (apply Z.eqb_neq; lia).
  rewrite Htot. reflexivity.
Qed.


(** C6, as the code has it: two calls of [eval_model] in succession
    return or raise the same, and neither changes a parameter; what a
    call does change is the module's mode, which it leaves at evaluation
    ([model.eval()]), so that the second call changes nothing at all. *)
Theorem eval_model_twice (model : NNModule) (test_dataloader : list Batch) :
  let first := eval_model model test_dataloader in
  let second := eval_model (snd first) test_dataloader in
  fst first = fst second
  /\ params (snd first) = params model
  /\ params (snd second) = params model
  /\ snd first = model_eval model
  /\ snd second = snd first.
Proof.
  cbv zeta. rewrite eval_model_leaves, eval_model_of_eval, eval_model_leaves.
  repeat split.
Qed.

End EvaluatorFacts.

Example eval_model_runs :
  @eval_model Toy.torch Toy.model Toy.three_right
  = (Ok (0.75%float, 75%float), model_eval Toy.model).
Proof. vm_compute. reflexivity. Qed.

Example eval_model_no_batches :
  fst (@eval_model Toy.torch Toy.model []) = Raise ZeroDivisionError.
Proof. reflexivity. Qed.


(** C6, as the claim has it, fails: the call clears the [training] flag
    of a module that [train_model] has just put in training mode, so the
    module after the call is not the module before it. *)
Lemma eval_model_changes_mode :
  training Toy.model = true
  /\ training (snd (@eval_model Toy.torch Toy.model Toy.three_right)) = false
  /\ snd (@eval_model Toy.torch Toy.model Toy.three_right) <> Toy.model.
Proof.
  split; [reflexivity|]. split; [reflexivity|].
  rewrite eval_model_leaves. discriminate.
Qed.

(** ** Runs of the trainer *)

Section RunFacts.

Context {T : Torch}.

(** *** Stepping through a computation *)

Lemma bind_perform {A B} (ev : event) (r : result A) (f : A -> M B)
    (env : environment) (n : nat) :
  bind (perform ev r) f env n
  = match env n with
    | Some e => (Raise e, [(ev, Some e)])
    | None =>
        match r with
        | Ok a => (fst (f a env (S n)), (ev, None) :: snd (f a env (S n)))
        | Raise e => (Raise e, [(ev, Some e)])
        end
    end.
Proof.
  unfold bind, perform. destruct (env n); [reflexivity|].
  destruct r; [|reflexivity].
  cbn [List.length]. rewrite Nat.add_1_r.
  destruct (f a env (S n)). reflexivity.
Qed.

Lemma bind_run {A B} (m : M A) (f : A -> M B) (env : environment) (n : nat) :
  bind m f env n
  = match m env n with
    | (Ok a, d) =>
        (fst (f a env (n + List.length d)%nat),
         d ++ snd (f a env (n + List.length d)%nat))
    | (Raise e, d) => (Raise e, d)
    end.
Proof.
  unfold bind. destruct (m env n) as [[a|e] d]; [|reflexivity].
  destruct (f a env (n + List.length d)%nat). reflexivity.
Qed.

Lemma saved_paths_app (d1 d2 : list entry) :
  saved_paths (d1 ++ d2) = saved_paths d1 ++ saved_paths d2.
Proof. apply flat_map_app. Qed.

Lemma scalars_of_app (tag : string) (d1 d2 : list entry) :
  scalars_of tag (d1 ++ d2) = scalars_of tag d1 ++ scalars_of tag d2.
Proof. apply flat_map_app. Qed.

Lemma saved_paths_cons (en : entry) (d : list entry) :
  saved_paths (en :: d) = saved_of en ++ saved_paths d.
Proof. reflexivity. Qed.

Lemma scalars_of_cons (tag : string) (en : entry) (d : list entry) :
  scalars_of tag (en :: d) = scalar_of tag en ++ scalars_of tag d.
Proof. reflexivity. Qed.

Lemma saved_paths_nil : saved_paths [] = [].
Proof. reflexivity. Qed.

Lemma scalars_of_nil (tag : string) : scalars_of tag [] = [].
Proof. reflexivity. Qed.

(** *** No handler but one: a failure ends the run *)

Lemma recovered_not_makedirs (ev : event) (o : option exn) :
  not_makedirs ev -> recovered (ev, o) = false.
Proof. destruct ev; cbn; tauto. Qed.

Lemma propagates_ret {A} (a : A) : propagates (ret a).
Proof. intros env n. cbn. constructor. Qed.

Lemma propagates_perform {A} (ev : event) (r : result A) :
  not_makedirs ev -> propagates (perform ev r).
Proof.
  intros Hev env n. unfold perform.
  assert (Hraise : forall e, fatal_last (A:=A) (Raise e, [(ev, Some e)])).
  { intros e. exists [], ev. repeat split.
    - now apply recovered_not_makedirs.
    - constructor. }
  destruct (env n) as [e|]; [apply Hraise|].
  destruct r as [a|e]; [|apply Hraise].
  cbn. constructor; [now left | constructor].
Qed.

Lemma propagates_bind {A B} (m : M A) (f : A -> M B) :
  propagates m -> (forall a, propagates (f a)) -> propagates (bind m f).
Proof.
  intros Hm Hf env n. rewrite bind_run.
  specialize (Hm env n). destruct (m env n) as [[a|e] d]; [|exact Hm].
  specialize (Hf a env (n + List.length d)%nat).
  destruct (f a env (n + List.length d)%nat) as [[b|e] d']; cbn [fst snd] in *.
  - apply Forall_app. split; assumption.
  - destruct Hf as (d0 & ev & -> & Hrec & Hd0).
    exists (d ++ d0), ev. rewrite app_assoc. repeat split; [assumption|].
    apply Forall_app. split; assumption.
Qed.

Lemma propagates_for_each {A S} (body : A -> S -> M S) (xs : list A) :
  (forall x s, propagates (body x s)) ->
  forall s, propagates (for_each xs body s).
Proof.
  intros Hbody. induction xs as [|x xs IH]; intros s; cbn [for_each].
  - apply propagates_ret.
  - apply propagates_bind; [apply Hbody | exact IH].
Qed.

(** The handler turns [FileExistsError] from [os.makedirs] into a
    return, and lets everything else through. *)
Lemma propagates_makedirs (save_dir : string) :
  propagates (try_except_FileExistsError_pass (call (EvMakedirs save_dir))).
Proof.
  intros env n. unfold try_except_FileExistsError_pass, call, perform.
  destruct (env n) as [e|].
  - destruct e; cbn;
      try (exists [], (EvMakedirs save_dir); repeat split; constructor).
    constructor; [now right | constructor].
  - cbn. constructor; [now left | constructor].
Qed.

End RunFacts.

Create HintDb runs.

#[local] Hint Resolve propagates_ret propagates_perform propagates_bind
  propagates_for_each propagates_makedirs : runs.

Section StepFacts.

Context {T : Torch}.

Lemma bind_assoc {A B C} (m : M A) (g : A -> M B) (f : B -> M C)
    (env : environment) (n : nat) :
  bind (bind m g) f env n = bind m (fun a => bind (g a) f) env n.
Proof.
  unfold bind. destruct (m env n) as [[a|e] d]; [|reflexivity].
  destruct (g a env (n + List.length d)%nat) as [[b|e] d']; [|reflexivity].
  rewrite length_app, Nat.add_assoc.
  destruct (f b env (n + List.length d + List.length d')%nat).
  now rewrite app_assoc.
Qed.

Lemma bind_ret {A B} (a : A) (f : A -> M B) (env : environment) (n : nat) :
  bind (ret a) f env n = f a env n.
Proof.
  unfold bind, ret. cbn [List.length]. rewrite Nat.add_0_r.
  destruct (f a env n). reflexivity.
Qed.

Lemma post_weaken {A} (x : result A * list entry)
    (Q Q' : result A -> list entry -> Prop) :
  post x Q -> (forall r d, Q r d -> Q' r d) -> post x Q'.
Proof. unfold post. auto. Qed.

Lemma post_ret {A} (a : A) (env : environment) (n : nat)
    (Q : result A -> list entry -> Prop) :
  Q (Ok a) [] -> post (ret a env n) Q.
Proof. auto. Qed.

Lemma post_perform {A} (ev : event) (r : result A) (env : environment)
    (n : nat) (Q : result A -> list entry -> Prop) :
  (forall e, Q (Raise e) [(ev, Some e)]) ->
  (forall a, r = Ok a -> Q (Ok a) [(ev, None)]) ->
  post (perform ev r env n) Q.
Proof.
  intros Hraise Hok. unfold post, perform.
  destruct (env n); [apply Hraise|].
  destruct r; [now apply Hok | apply Hraise].
Qed.

Lemma post_bind {A B} (m : M A) (f : A -> M B) (env : environment) (n : nat)
    (Q : result B -> list entry -> Prop) :
  post (m env n)
       (fun r d =>
          match r with
          | Raise e => Q (Raise e) d
          | Ok a => post (f a env (n + List.length d)%nat)
                         (fun r' d' => Q r' (d ++ d'))
          end) ->
  post (bind m f env n) Q.
Proof.
  unfold post. rewrite bind_run.
  destruct (m env n) as [[a|e] d]; cbn [fst snd]; auto.
Qed.

(** One operation, then the rest. *)
Lemma post_step {A B} (ev : event) (r : result A) (f : A -> M B)
    (env : environment) (n : nat) (Q : result B -> list entry -> Prop) :
  (forall e, Q (Raise e) [(ev, Some e)]) ->
  (forall a, r = Ok a ->
     post (f a env (S n)) (fun r' d' => Q r' ((ev, None) :: d'))) ->
  post (bind (perform ev r) f env n) Q.
Proof.
  intros Hraise Hok. apply post_bind. apply post_perform.
  - exact Hraise.
  - intros a Ha. cbn [List.length]. rewrite Nat.add_1_r. now apply Hok.
Qed.

End StepFacts.

Arguments post : simpl never.

(** [step]: the next operation of the computation in the goal. *)
Ltac step :=
  apply post_step;
  [ intros ?e; cbn beta
  | let a := fresh "a" in
    let Ha := fresh "Ha" in
    intros a Ha; try (injection Ha as <-) ].

Section SpecFacts.

Context {T : Torch}.

(** The loop over the batches writes no checkpoint and no scalar; when
    it ends, the state and the count are those of the reference. *)
Lemma train_batches_spec (train_dataloader : list Batch) :
  forall model optimizer correct running_loss env n,
    post (for_each train_dataloader train_batch
                   (model, optimizer, correct, running_loss) env n)
         (fun r d =>
            silent d
            /\ forall st, r = Ok st ->
                 (fst (fst (fst st)), snd (fst (fst st)))
                 = after_batches model optimizer train_dataloader
                 /\ snd (fst st)
                    = fold_left PyFloat.add_int
                        (correct_counts
                           (epoch_outputs model optimizer train_dataloader))
                        correct).
Proof.
  assert (Hsilent : forall d, saved_paths d = [] ->
            (forall tag, scalars_of tag d = []) -> silent d)
    by (intros; split; assumption).
  induction train_dataloader as [|[inputs targets] rest IH];
    intros model optimizer correct running_loss env n.
  - apply post_ret. split; [now apply Hsilent|].
    intros st [= <-]. split; reflexivity.
  - cbn [for_each]. unfold train_batch, call.
    rewrite !bind_assoc.
    step. { split; [now apply Hsilent | discriminate]. }
    rewrite !bind_assoc.
    step. { split; [now apply Hsilent | discriminate]. }
    rewrite !bind_assoc.
    step. { split; [now apply Hsilent | discriminate]. }
    rewrite !bind_assoc.
    step. { split; [now apply Hsilent | discriminate]. }
    rewrite !bind_assoc.
    step. { split; [now apply Hsilent | discriminate]. }
    rewrite bind_ret.
    eapply post_weaken; [apply IH|].
    cbn beta. intros r d [[Hs1 Hs2] Hst]. split.
    + apply Hsilent; [exact Hs1 | intros tag; apply Hs2].
    + intros st Hr. destruct (Hst st Hr) as [H1 H2].
      cbn [after_batches epoch_outputs correct_counts map fold_left fst snd].
      split; assumption.
Qed.

End SpecFacts.

Arguments checkpoint_path : simpl never.
Arguments PyFloat.div_int : simpl never.
Arguments PyFloat.add_int : simpl never.
Arguments correct_per_batch : simpl never.
Arguments saved_paths : simpl never.
Arguments scalars_of : simpl never.
Arguments after_epoch : simpl never.

(** Brings what a list of operations wrote to a normal form. *)
Ltac traces :=
  repeat first
    [ rewrite saved_paths_cons | rewrite saved_paths_app
    | rewrite saved_paths_nil | rewrite scalars_of_cons
    | rewrite scalars_of_app | rewrite scalars_of_nil ];
  cbn [saved_of scalar_of app String.eqb Ascii.eqb Bool.eqb].

Section EpochFacts.

Context {T : Torch}.

Lemma epoch_post_raise_quiet train_dataloader save_dir nosave epoch s e d :
  saved_paths d = [] -> scalars_of "accuracy/Train" d = [] ->
  epoch_post train_dataloader save_dir nosave epoch s (Raise e) d.
Proof.
  intros H1 H2. split; [now left|]. split; [now left|]. discriminate.
Qed.

Lemma train_epoch_spec (sample : Batch)
    (train_dataloader test_dataloader : list Batch)
    (save_dir : string) (nosave : bool) (epoch : Z)
    (s : NNModule * Optimizer) (env : environment) (n : nat) :
  post (train_epoch sample train_dataloader test_dataloader save_dir nosave epoch s
                    env n)
       (epoch_post train_dataloader save_dir nosave epoch s).
Proof.
  destruct s as [model optimizer]. unfold train_epoch, call.
  step. { now apply epoch_post_raise_quiet. }
  apply post_bind.
  eapply post_weaken; [apply train_batches_spec|].
  cbn beta. intros r d [[Hsaved Hscalars] Hst].
  destruct r as [[[[model' optimizer'] correct] running_loss]|e].
  2:{ apply epoch_post_raise_quiet; traces; [exact Hsaved | apply Hscalars]. }
  destruct (Hst _ eq_refl) as [Hafter Hcorrect]. cbn [fst snd] in Hafter, Hcorrect.
  clear Hst.
  pose proof (Hscalars "accuracy/Train"%string) as Hacc.
  subst correct.
  assert (Hquiet : forall e d',
            saved_paths d' = [] -> scalars_of "accuracy/Train" d' = [] ->
            epoch_post train_dataloader save_dir nosave epoch (model, optimizer)
              (Raise e) ((EvModelTrain, None) :: d ++ d')).
  { intros e d' H1 H2. apply epoch_post_raise_quiet; traces.
    - now rewrite Hsaved, H1.
    - now rewrite Hacc, H2. }
  unfold truediv.
  destruct (len train_dataloader =? 0)%Z eqn:Hlen.
  { step; [|discriminate]. now apply (Hquiet e [(EvTrueDiv, Some e)]). }
  step. { now apply (Hquiet e [(EvTrueDiv, Some e)]). }
  unfold call_eval_model.
  pose proof (eval_model_leaves model' test_dataloader) as Hleaves.
  destruct (eval_model model' test_dataloader) as [[[eval_loss eval_accuracy]|e] model0].
  2:{ step; [|discriminate]. now apply (Hquiet e0 [_; _]). }
  cbn [snd] in Hleaves. subst model0.
  step. { now apply (Hquiet e [_; _]). }
  step. { now apply (Hquiet e [_; _; _]). }
  step. { now apply (Hquiet e [_; _; _; _]). }
  assert (Hlogged : forall r d',
            saved_paths d' = [] \/ saved_paths d' = epoch_checkpoints save_dir nosave epoch ->
            scalars_of "accuracy/Train" d' = [] ->
            (forall s', r = Ok s' ->
               s' = after_epoch train_dataloader (model, optimizer)
               /\ saved_paths d' = epoch_checkpoints save_dir nosave epoch) ->
            epoch_post train_dataloader save_dir nosave epoch (model, optimizer) r
              ((EvModelTrain, None)
               :: d ++ (EvTrueDiv, None) :: (EvEvalModel, None)
                  :: (EvAddScalars "loss"
                        (PyFloat.div_int running_loss (len train_dataloader))
                        eval_loss (epoch + 1), None)
                  :: (EvTrueDiv, None)
                  :: (EvAddScalar "accuracy/Train"
                        (PyFloat.div_int
                           (fold_left PyFloat.add_int
                              (correct_counts
                                 (epoch_outputs (model_train model) optimizer
                                                train_dataloader)) 0%float)
                           (len train_dataloader)) (epoch + 1), None) :: d')).
  { intros r d' H1 H2 H3.
    assert (Hs : saved_paths
                   ((EvModelTrain, None)
               :: d ++ (EvTrueDiv, None) :: (EvEvalModel, None)
                  :: (EvAddScalars "loss"
                        (PyFloat.div_int running_loss (len train_dataloader))
                        eval_loss (epoch + 1), None)
                  :: (EvTrueDiv, None)
                  :: (EvAddScalar "accuracy/Train"
                        (PyFloat.div_int
                           (fold_left PyFloat.add_int
                              (correct_counts
                                 (epoch_outputs (model_train model) optimizer
                                                train_dataloader)) 0%float)
                           (len train_dataloader)) (epoch + 1), None) :: d')
                 = saved_paths d').
    { traces. now rewrite Hsaved. }
    assert (Ha : scalars_of "accuracy/Train"
                   ((EvModelTrain, None)
               :: d ++ (EvTrueDiv, None) :: (EvEvalModel, None)
                  :: (EvAddScalars "loss"
                        (PyFloat.div_int running_loss (len train_dataloader))
                        eval_loss (epoch + 1), None)
                  :: (EvTrueDiv, None)
                  :: (EvAddScalar "accuracy/Train"
                        (PyFloat.div_int
                           (fold_left PyFloat.add_int
                              (correct_counts
                                 (epoch_outputs (model_train model) optimizer
                                                train_dataloader)) 0%float)
                           (len train_dataloader)) (epoch + 1), None) :: d')
                 = epoch_accuracy train_dataloader (model, optimizer) epoch).
    { traces. rewrite Hacc, H2. reflexivity. }
    unfold epoch_post. rewrite Hs, Ha.
    split; [exact H1|]. split; [now right|].
    intros s' Hr. destruct (H3 s' Hr) as [-> ->]. repeat split. }
  step. { now apply (Hquiet e [_; _; _; _; _]). }
  step. { apply Hlogged; [now left | reflexivity | discriminate]. }
  step. { apply Hlogged; [now left | reflexivity | discriminate]. }
  step. { apply Hlogged; [now left | reflexivity | discriminate]. }
  assert (Hdone : after_epoch train_dataloader (model, optimizer)
                  = (model_eval model', scheduler_step optimizer')).
  { unfold after_epoch. cbn [fst snd]. now rewrite <- Hafter. }
  unfold checkpoint, epoch_checkpoints in *.
  destruct (negb nosave && (epoch mod 3 =? 2)%Z).
  - unfold call.
    step. { apply Hlogged; [now left | reflexivity | discriminate]. }
    step. { apply Hlogged; [now right | reflexivity | discriminate]. }
    step. { apply Hlogged; [now right | reflexivity | discriminate]. }
    step. { apply Hlogged; [now right | reflexivity | discriminate]. }
    apply post_ret. apply Hlogged; [now right | reflexivity |].
    intros s' [= <-]. now rewrite Hdone.
  - rewrite bind_ret.
    step. { apply Hlogged; [now left | reflexivity | discriminate]. }
    step. { apply Hlogged; [now left | reflexivity | discriminate]. }
    step. { apply Hlogged; [now left | reflexivity | discriminate]. }
    apply post_ret. apply Hlogged; [now left | reflexivity |].
    intros s' [= <-]. now rewrite Hdone.
Qed.

End EpochFacts.

(** *** The environment is asked about each operation once *)

Section LocalFacts.

Context {T : Torch}.

Lemma agree_from_le (n m : nat) (env env' : environment) :
  (n <= m)%nat -> agree_from n env env' -> agree_from m env env'.
Proof. intros Hle H k Hk. apply H. lia. Qed.

Lemma local_ret {A} (a : A) : local (ret a).
Proof. intros env env' n _. reflexivity. Qed.

Lemma local_perform {A} (ev : event) (r : result A) : local (perform ev r).
Proof.
  intros env env' n H. unfold perform. now rewrite (H n (Nat.le_refl n)).
Qed.

Lemma local_bind {A B} (m : M A) (f : A -> M B) :
  local m -> (forall a, local (f a)) -> local (bind m f).
Proof.
  intros Hm Hf env env' n H. rewrite !bind_run, (Hm env env' n H).
  destruct (m env' n) as [[a|e] d]; [|reflexivity].
  rewrite (Hf a env env' (n + List.length d)%nat); [reflexivity|].
  apply (agree_from_le (n := n)); [lia | exact H].
Qed.

Lemma local_for_each {A S} (body : A -> S -> M S) (xs : list A) :
  (forall x s, local (body x s)) -> forall s, local (for_each xs body s).
Proof.
  intros Hbody. induction xs as [|x xs IH]; intros s; cbn [for_each].
  - apply local_ret.
  - apply local_bind; [apply Hbody | exact IH].
Qed.

End LocalFacts.

Create HintDb locals.

#[local] Hint Resolve local_ret local_perform local_bind local_for_each
  : locals.

(** Goes through a computation operation by operation. *)
Ltac structure db :=
  repeat first
    [ progress intros
    | match goal with
      | |- context [let '(_, _) := ?s in _] => is_var s; destruct s
      end
    | solve [eauto with db]
    | apply local_bind
    | apply propagates_bind
    | apply propagates_perform; exact I ].

Section TrainModelFacts.

Context {T : Torch}.

Variables train_dataloader test_dataloader : list Batch.
Variables (save_dir : string) (nosave : bool).

Lemma local_train_batch (data : Batch) s : local (train_batch data s).
Proof. unfold train_batch, call. structure locals. Qed.

Lemma local_checkpoint model epoch :
  local (checkpoint model save_dir nosave epoch).
Proof.
  unfold checkpoint, call.
  destruct (negb nosave && (epoch mod 3 =? 2)%Z); auto with locals.
Qed.

Lemma local_train_epoch sample epoch s :
  local (train_epoch sample train_dataloader test_dataloader save_dir nosave epoch s).
Proof.
  pose proof local_train_batch. pose proof local_checkpoint.
  unfold train_epoch, call, truediv, call_eval_model. structure locals.
Qed.

Lemma local_fit sample epochs s :
  local (fit sample train_dataloader test_dataloader epochs save_dir nosave s).
Proof.
  pose proof local_train_epoch. unfold fit, call. structure locals.
Qed.

Lemma local_train_model model epochs dev :
  local (train_model model train_dataloader test_dataloader epochs dev
                     save_dir nosave).
Proof.
  pose proof local_fit. unfold train_model.
  assert (Htry : local (try_except_FileExistsError_pass
                          (call (EvMakedirs save_dir)))).
  { intros env env' n Hn.
    unfold try_except_FileExistsError_pass, call, perform.
    now rewrite (Hn n (Nat.le_refl n)). }
  structure locals.
Qed.

Lemma propagates_train_batch (data : Batch) s : propagates (train_batch data s).
Proof. unfold train_batch, call. structure runs. Qed.

Lemma propagates_checkpoint model epoch :
  propagates (checkpoint model save_dir nosave epoch).
Proof.
  unfold checkpoint, call.
  destruct (negb nosave && (epoch mod 3 =? 2)%Z).
  - apply propagates_perform. exact I.
  - apply propagates_ret.
Qed.

Lemma propagates_train_epoch sample epoch s :
  propagates
    (train_epoch sample train_dataloader test_dataloader save_dir nosave epoch s).
Proof.
  pose proof propagates_train_batch. pose proof propagates_checkpoint.
  unfold train_epoch, call, truediv, call_eval_model. structure runs.
Qed.

Lemma propagates_fit sample epochs s :
  propagates (fit sample train_dataloader test_dataloader epochs save_dir nosave s).
Proof.
  pose proof propagates_train_epoch. unfold fit, call. structure runs.
Qed.

Lemma propagates_train_model model epochs dev :
  propagates (train_model model train_dataloader test_dataloader epochs dev
                          save_dir nosave).
Proof.
  pose proof propagates_fit. unfold train_model. structure runs.
Qed.

End TrainModelFacts.

Section LoopFacts.

Context {T : Torch}.

Lemma prefix_nil {A} (l : list A) : prefix [] l.
Proof. now exists l. Qed.

Lemma prefix_refl {A} (l : list A) : prefix l l.
Proof. exists []. now rewrite app_nil_r. Qed.

Lemma prefix_app {A} (l l1 l2 : list A) :
  prefix l1 l2 -> prefix (l ++ l1) (l ++ l2).
Proof. intros [rest ->]. exists rest. now rewrite app_assoc. Qed.

Lemma prefix_app_r {A} (l1 l2 l : list A) :
  prefix l1 l2 -> prefix l1 (l2 ++ l).
Proof. intros [rest ->]. exists (rest ++ l). now rewrite app_assoc. Qed.

Lemma prefix_cons {A} (a : A) (l1 l2 : list A) :
  prefix l1 l2 -> prefix (a :: l1) (a :: l2).
Proof. intros [rest ->]. now exists rest. Qed.

Variables train_dataloader test_dataloader : list Batch.
Variables (save_dir : string) (nosave : bool).

(** The loop over the epochs: what it has written is the beginning of
    what the epochs write, and all of it when the loop ends. *)
Lemma epochs_spec (sample : Batch) (es : list Z) :
  forall s env n,
    post (for_each es
            (train_epoch sample train_dataloader test_dataloader save_dir nosave)
            s env n)
         (fun r d =>
            prefix (saved_paths d)
                   (flat_map (epoch_checkpoints save_dir nosave) es)
            /\ prefix (scalars_of "accuracy/Train" d) (epochs_accuracy train_dataloader es s)
            /\ (forall s', r = Ok s' ->
                  saved_paths d
                  = flat_map (epoch_checkpoints save_dir nosave) es
                  /\ scalars_of "accuracy/Train" d = epochs_accuracy train_dataloader es s)).
Proof.
  induction es as [|e es IH]; intros s env n; cbn [for_each].
  - apply post_ret. split; [apply prefix_nil|]. split; [apply prefix_nil|].
    intros s' _. split; reflexivity.
  - apply post_bind.
    eapply post_weaken; [apply train_epoch_spec|].
    intros r d (Hsaved & Hacc & Hok).
    destruct r as [s'|ex].
    + destruct (Hok s' eq_refl) as (-> & Hs & Ha).
      eapply post_weaken; [apply IH|].
      cbn beta. intros r' d' (Hp1 & Hp2 & Hok').
      traces. rewrite Hs, Ha. cbn [flat_map epochs_accuracy].
      split; [now apply prefix_app|]. split; [now apply prefix_app|].
      intros s'' Hr. destruct (Hok' s'' Hr) as [-> ->]. now split.
    + cbn [flat_map epochs_accuracy].
      split; [|split; [|discriminate]].
      * destruct Hsaved as [-> | ->];
          [apply prefix_nil | apply prefix_app_r, prefix_refl].
      * destruct Hacc as [-> | ->];
          [apply prefix_nil | apply prefix_app_r, prefix_refl].
Qed.

(** Over [range(epochs)], epoch [k] starts from the state [k] epochs
    leave and reports at step [k + 1]. *)
Lemma epochs_accuracy_range (count : nat) :
  forall first s,
    epochs_accuracy train_dataloader (map Z.of_nat (seq first count)) s
    = map (fun k => (correct_per_batch (state_at train_dataloader s k)
                                       train_dataloader,
                     (Z.of_nat (first + k) + 1)%Z))
          (seq 0 count).
Proof.
  induction count as [|count IH]; intros first s; [reflexivity|].
  cbn [seq map epochs_accuracy epoch_accuracy app].
  rewrite Nat.add_0_r. f_equal.
  rewrite IH, <- seq_shift, map_map.
  apply map_ext. intros k. unfold state_at.
  rewrite Nat.iter_succ_r. do 2 f_equal. lia.
Qed.

Lemma epoch_checkpoints_range (es : list Z) :
  flat_map (epoch_checkpoints save_dir nosave) es
  = if nosave then []
    else map (checkpoint_path save_dir)
             (filter (fun epoch => (epoch mod 3 =? 2)%Z) es).
Proof.
  unfold epoch_checkpoints.
  induction es as [|e es IH]; cbn [flat_map filter map].
  - now destruct nosave.
  - rewrite IH. destruct nosave; cbn [negb andb app]; [reflexivity|].
    destruct (e mod 3 =? 2)%Z; reflexivity.
Qed.

Lemma in_range (n e : Z) : In e (range n) <-> (0 <= e < n)%Z.
Proof.
  unfold range. rewrite in_map_iff. split.
  - intros (k & <- & Hk). apply in_seq in Hk. lia.
  - intros He. exists (Z.to_nat e). split; [lia|]. apply in_seq. lia.
Qed.

Lemma run_post_quiet model epochs e d :
  saved_paths d = [] -> scalars_of "accuracy/Train" d = [] ->
  run_post train_dataloader save_dir nosave model epochs (Raise e) d.
Proof.
  intros H1 H2. unfold run_post. rewrite H1, H2.
  split; [apply prefix_nil|]. split; [apply prefix_nil|]. discriminate.
Qed.

Lemma fit_spec (sample : Batch) (model : NNModule) (epochs : Z)
    (env : environment) (n : nat) :
  post (fit sample train_dataloader test_dataloader epochs save_dir nosave
            (initial_state model epochs) env n)
       (run_post train_dataloader save_dir nosave model epochs).
Proof.
  unfold fit, call.
  step. { now apply run_post_quiet. }
  apply post_bind.
  eapply post_weaken; [apply epochs_spec|].
  cbn beta. intros r d (Hp1 & Hp2 & Hok).
  unfold run_post, checkpoints. rewrite <- epoch_checkpoints_range.
  destruct r as [s'|ex].
  - apply post_ret. traces. rewrite !app_nil_r.
    split; [exact Hp1|]. split; [exact Hp2|].
    intros _. exact (Hok s' eq_refl).
  - traces. split; [exact Hp1|]. split; [exact Hp2|]. discriminate.
Qed.

Lemma train_model_spec (model : NNModule) (epochs : Z) (dev : string)
    (env : environment) :
  post (run (train_model model train_dataloader test_dataloader epochs dev
                         save_dir nosave) env)
       (run_post train_dataloader save_dir nosave model epochs).
Proof.
  unfold run, train_model.
  step. { now apply run_post_quiet. }
  destruct test_dataloader as [|sample rest] eqn:Htest.
  { step; [|discriminate]. now apply run_post_quiet. }
  rewrite <- Htest.
  step. { now apply run_post_quiet. }
  step. { now apply run_post_quiet. }
  step. { now apply run_post_quiet. }
  assert (Hgo : forall o,
            post (fit sample train_dataloader test_dataloader epochs save_dir nosave
                      (initial_state model epochs) env 5%nat)
                 (fun r' d' =>
                    run_post train_dataloader save_dir nosave model epochs r'
                      ((EvToDevice dev, None) :: (EvNextBatch, None)
                       :: (EvAdam 1e-5%float, None)
                       :: (EvLinearLR 1 0.1 (total_iters epochs), None)
                       :: [(EvMakedirs save_dir, o)] ++ d'))).
  { intros o. eapply post_weaken; [apply fit_spec|].
    cbn beta. intros r d H. unfold run_post in *. traces. exact H. }
  apply post_bind.
  unfold post at 1, try_except_FileExistsError_pass, call, perform.
  destruct (env 4%nat) as [e|]; cbn [fst snd]; [|apply Hgo].
  destruct e; try (now apply run_post_quiet).
  apply Hgo.
Qed.

End LoopFacts.

(** ** Figures: when the grid holds the samples *)

Section LoggerFacts.

Variables Image Prob Label : Type.

Import Logger.

Lemma getitem_range {A} (xs : list A) (n i : Z) :
  In i (range n) -> (n <= len xs)%Z -> exists x, getitem xs i = Some x.
Proof.
  intros Hi Hn. apply in_range in Hi. unfold getitem, len in *.
  destruct (nth_error xs (Z.to_nat i)) as [x|] eqn:Hx; [eauto|].
  apply nth_error_None in Hx. lia.
Qed.

Lemma getitem_some {A} (xs : list A) (i : Z) (x : A) :
  (0 <= i)%Z -> getitem xs i = Some x -> (i < len xs)%Z.
Proof.
  intros Hi Hx. unfold getitem, len in *.
  assert (H : nth_error xs (Z.to_nat i) <> None) by congruence.
  apply nth_error_Some in H. lia.
Qed.

Lemma len_upto {A} (n : Z) (xs : list A) :
  (0 <= n <= len xs)%Z -> len (upto n xs) = n.
Proof.
  intros Hn. unfold len, upto in *. rewrite length_firstn. lia.
Qed.

(** What the loop of [plot_classes_preds] returns, when it returns. *)
Lemma classes_preds_loop_returns (RANGE : Z) (images : list Image)
    (labels : list Label) (probs : list Prob) (idxs : list Z) :
  forall fig fig',
    classes_preds_loop RANGE 3 images labels probs idxs fig = Returns fig' ->
    exists axs, fig' = fig ++ axs
                /\ Forall2 (classes_preds_axes RANGE images labels probs)
                           idxs axs.
Proof.
  induction idxs as [|idx idxs IH]; intros fig fig' H; cbn in H.
  - injection H as <-. exists []. split; [now rewrite app_nil_r|constructor].
  - destruct (getitem probs idx) as [prob|] eqn:Hprob; [|discriminate].
    destruct (getitem labels idx) as [label|] eqn:Hlabel; [|discriminate].
    destruct (in_grid 3 (RANGE / 3) (idx + 1)) eqn:Hgrid; [|discriminate].
    destruct (getitem images idx) as [img|] eqn:Himg; [|discriminate].
    destruct (IH _ _ H) as (axs & -> & Haxs).
    eexists (_ :: axs). split; [now rewrite <- app_assoc|].
    constructor; [|exact Haxs].
    unfold classes_preds_axes. cbn. now rewrite Hgrid.
Qed.

(** With a sample for every index, the loop fails only on the grid. *)
Lemma classes_preds_loop_cases (RANGE : Z) (images : list Image)
    (labels : list Label) (probs : list Prob) (idxs : list Z) :
  (forall idx, In idx idxs ->
     (exists x, getitem probs idx = Some x)
     /\ (exists x, getitem labels idx = Some x)
     /\ (exists x, getitem images idx = Some x)) ->
  forall fig,
    if forallb (fun idx => in_grid 3 (RANGE / 3) (idx + 1)) idxs
    then returns (classes_preds_loop RANGE 3 images labels probs idxs fig)
         = true
    else classes_preds_loop RANGE 3 images labels probs idxs fig
         = Raises ValueError.
Proof.
  induction idxs as [|idx idxs IH]; intros Hall fig; cbn.
  - reflexivity.
  - destruct (Hall idx (or_introl eq_refl))
      as ((prob & ->) & (label & ->) & (img & ->)).
    destruct (in_grid 3 (RANGE / 3) (idx + 1)); [|reflexivity].
    cbn [andb]. apply IH. intros i Hi. apply Hall. now right.
Qed.

(** The grid [3 x (RANGE // 3)] holds the positions [1 .. RANGE] exactly
    when [RANGE] is a multiple of 3. *)
Lemma grid_of_three (RANGE : Z) :
  (0 <= RANGE)%Z ->
  ((RANGE mod 3 = 0)%Z
   <-> forall idx, In idx (range RANGE) ->
                   in_grid 3 (RANGE / 3) (idx + 1) = true).
Proof.
  intros Hr. pose proof (Z.div_mod RANGE 3 ltac:(lia)) as Hdm.
  pose proof (Z.mod_pos_bound RANGE 3 ltac:(lia)) as Hm.
  unfold in_grid. split.
  - intros H0 idx Hidx. apply in_range in Hidx.
    rewrite !andb_true_iff, !Z.ltb_lt, !Z.leb_le. lia.
  - intros Hall.
    destruct (Z.eq_dec RANGE 0) as [->|Hne]; [reflexivity|].
    specialize (Hall (RANGE - 1)%Z).
    rewrite in_range in Hall. specialize (Hall ltac:(lia)).
    rewrite !andb_true_iff, !Z.ltb_lt, !Z.leb_le in Hall. lia.
Qed.

Lemma Forall2_in_l {A B} (R : A -> B -> Prop) (l : list A) (l' : list B) :
  Forall2 R l l' -> forall a, In a l -> exists b, R a b.
Proof.
  induction 1 as [|a b l l' Hab _ IH]; intros x [].
  - subst. eauto.
  - now apply IH.
Qed.

End LoggerFacts.

(** What [plot_classes_preds] does, by the number of samples it shows. *)
Lemma plot_classes_preds_cases {Image Prob Label : Type}
    (net : list Image -> list Prob) (images : list Image)
    (labels : list Label) :
  (forall xs, List.length (net xs) = List.length xs) ->
  (List.length labels <= List.length images)%nat ->
  let RANGE := Z.min 12 (len labels) in
  let images' := Logger.upto RANGE images in
  let labels' := Logger.upto RANGE labels in
  ((RANGE mod 3 = 0)%Z ->
   exists fig,
     Logger.plot_classes_preds net images labels = Logger.Returns fig
     /\ Forall2 (Logger.classes_preds_axes RANGE images' labels'
                                           (net images'))
                (range RANGE) fig)
  /\ ((RANGE mod 3 <> 0)%Z ->
      Logger.plot_classes_preds net images labels = Logger.Raises ValueError).
Proof.
  intros Hnet Hlen. cbv zeta. unfold Logger.plot_classes_preds.
  set (RANGE := Z.min 12 (len labels)).
  assert (Hr : (0 <= RANGE <= len labels)%Z) by (unfold RANGE, len; lia).
  assert (Hli : (len labels <= len images)%Z) by (unfold len; lia).
  assert (Hall : forall idx, In idx (range RANGE) ->
            (exists x, Logger.getitem (net (Logger.upto RANGE images)) idx
                       = Some x)
            /\ (exists x, Logger.getitem (Logger.upto RANGE labels) idx
                          = Some x)
            /\ (exists x, Logger.getitem (Logger.upto RANGE images) idx
                          = Some x)).
  { intros idx Hidx. split; [|split];
      (eapply getitem_range; [exact Hidx|]).
    - unfold len. rewrite Hnet. fold (len (Logger.upto RANGE images)).
      rewrite len_upto; lia.
    - rewrite len_upto; lia.
    - rewrite len_upto; lia. }
  pose proof (classes_preds_loop_cases RANGE (Logger.upto RANGE images)
                (Logger.upto RANGE labels) (net (Logger.upto RANGE images))
                (range RANGE) Hall []) as Hcases.
  pose proof (grid_of_three (proj1 Hr)) as Hgrid.
  destruct (forallb (fun idx => Logger.in_grid 3 (RANGE / 3) (idx + 1))
                    (range RANGE)) eqn:Hfit.
  - assert (H0 : (RANGE mod 3 = 0)%Z).
    { apply Hgrid. now apply forallb_forall. }
    split; [intros _ | intros Hn0; contradiction].
    destruct (Logger.classes_preds_loop RANGE 3 (Logger.upto RANGE images)
                (Logger.upto RANGE labels) (net (Logger.upto RANGE images))
                (range RANGE) []) as [fig|e|] eqn:Hloop; try discriminate.
    exists fig. split; [reflexivity|].
    now destruct (classes_preds_loop_returns _ _ _ _ _ _ Hloop)
      as (axs & -> & Haxs).
  - split; [|intros _; exact Hcases].
    intros H0. exfalso.
    assert (Hyes : forallb (fun idx => Logger.in_grid 3 (RANGE / 3) (idx + 1))
                           (range RANGE) = true).
    { apply forallb_forall. now apply Hgrid. }
    congruence.
Qed.


Section PlotFacts.

Context {T : Torch}.

(** With an output per image and an image per label,
    [plot_classes_preds] returns the figure when it fits its grid and
    raises [ValueError] when it does not, whatever the parameters. *)
Lemma plot_classes_preds_result_cases (model : NNModule) (sample : Batch) :
  output_per_image -> image_per_label sample ->
  plot_classes_preds_result model sample
  = if figure_fits sample then Ok tt else Raise ValueError.
Proof.
  intros Hout Himg. destruct sample as [sample_input sample_target].
  unfold plot_classes_preds_result, figure_fits, image_per_label in *.
  cbn [fst snd] in *.
  destruct (@plot_classes_preds_cases Image float float (call_model model)
              sample_input sample_target
              (fun xs => Hout (params model) (training model) xs) Himg)
    as [Hfit Hnot].
  destruct (Z.eqb_spec (Z.min 12 (len sample_target) mod 3) 0) as [H0|H0].
  - destruct (Hfit H0) as (fig & -> & _). reflexivity.
  - now rewrite (Hnot H0).
Qed.

End PlotFacts.

(** *** A run in which nothing fails *)

Section CalmFacts.

Context {T : Torch}.

Lemma calm_step {A B} (ev : event) (a : A) (f : A -> M B) (n : nat) :
  is_ok (fst (bind (perform ev (Ok a)) f calm n))
  = is_ok (fst (f a calm (S n))).
Proof. rewrite bind_perform. reflexivity. Qed.

Lemma calm_batches (train_dataloader : list Batch) :
  forall st n, is_ok (fst (for_each train_dataloader train_batch st calm n)) = true.
Proof.
  induction train_dataloader as [|[inputs targets] rest IH];
    intros [[[model optimizer] correct] running_loss] n; [reflexivity|].
  cbn [for_each]. unfold train_batch, call.
  rewrite !bind_assoc, !calm_step, !bind_assoc, !calm_step.
  rewrite !bind_assoc, !calm_step, !bind_assoc, !calm_step.
  rewrite !bind_assoc, !calm_step, bind_ret. apply IH.
Qed.

Lemma len_nonzero {A} (xs : list A) : xs <> [] -> (len xs =? 0)%Z = false.
Proof.
  intros H. apply Z.eqb_neq. unfold len.
  destruct xs; [congruence|]. cbn [List.length]. lia.
Qed.

Variable sample : Batch.
Variables train_dataloader test_dataloader : list Batch.
Variables (save_dir : string) (nosave : bool).
Hypothesis train_batches : train_dataloader <> [].
Hypothesis test_sample : hd_error test_dataloader = Some sample.
Hypothesis test_samples : nonempty_batches test_dataloader.
Hypothesis outputs : output_per_image.
Hypothesis images : image_per_label sample.
Hypothesis fits : figure_fits sample = true.

Lemma test_batches : test_dataloader <> [].
Proof. intros H. rewrite H in test_sample. discriminate. Qed.

Lemma calm_epoch (epoch : Z) s n :
  is_ok (fst (train_epoch sample train_dataloader test_dataloader save_dir nosave
                          epoch s calm n)) = true.
Proof.
  destruct s as [model optimizer]. unfold train_epoch, call, truediv.
  rewrite calm_step, bind_run.
  pose proof (calm_batches train_dataloader
                (model_train model, optimizer, 0%float, 0%float) (S n)) as Hb.
  destruct (for_each train_dataloader train_batch
              (model_train model, optimizer, 0%float, 0%float) calm (S n))
    as [[[[[model' optimizer'] correct] running_loss]|e] d];
    [clear Hb | discriminate Hb].
  cbn [fst]. rewrite (len_nonzero train_batches), calm_step.
  unfold call_eval_model.
  pose proof (eval_model_returns model' test_batches test_samples)
    as Hev.
  destruct (eval_model model' test_dataloader) as [[[l a]|e] m];
    [clear Hev | discriminate Hev].
  rewrite !calm_step. unfold call_plot_classes_preds.
  rewrite (plot_classes_preds_result_cases _ outputs images), fits.
  rewrite !calm_step. unfold checkpoint, call.
  destruct (negb nosave && (epoch mod 3 =? 2)%Z).
  - rewrite !calm_step. reflexivity.
  - rewrite bind_ret, !calm_step. reflexivity.
Qed.

Lemma calm_epochs (es : list Z) :
  forall s n,
    is_ok (fst (for_each es
                  (train_epoch sample train_dataloader test_dataloader save_dir nosave)
                  s calm n)) = true.
Proof.
  induction es as [|e es IH]; intros s n; [reflexivity|].
  cbn [for_each]. rewrite bind_run.
  pose proof (calm_epoch e s n) as He.
  destruct (train_epoch sample train_dataloader test_dataloader save_dir nosave e s
                        calm n) as [[s'|ex] d]; [|discriminate He].
  cbn [fst]. apply IH.
Qed.

(** With batches to train on and samples to evaluate on, a run that
    meets no failure returns the model. *)
Lemma train_model_returns_when_calm (model : NNModule) (epochs : Z)
    (dev : string) :
  is_ok (fst (run (train_model model train_dataloader test_dataloader epochs
                               dev save_dir nosave) calm)) = true.
Proof.
  assert (Hnext : match test_dataloader with
                  | [] => Raise StopIteration
                  | b :: _ => Ok b
                  end = Ok sample).
  { clear test_samples. destruct test_dataloader as [|b rest];
      [discriminate | now injection test_sample as ->]. }
  unfold run, train_model. rewrite calm_step, Hnext, !calm_step, bind_run.
  unfold try_except_FileExistsError_pass, call, perform. cbn [calm fst].
  unfold fit, call. rewrite calm_step, bind_run.
  match goal with
  | |- context [for_each ?es ?body ?s calm ?n] =>
      pose proof (calm_epochs es s n) as He;
      destruct (for_each es body s calm n) as [[s'|ex] d];
      [reflexivity | discriminate He]
  end.
Qed.

End CalmFacts.

(** *** The one handler *)

Section RecoveryFacts.

Context {T : Torch}.

Variables train_dataloader test_dataloader : list Batch.
Variables (save_dir : string) (nosave : bool).

Lemma forgive_other (env : environment) (k : nat) :
  k <> makedirs_index -> forgive env k = env k.
Proof.
  intros H. unfold forgive. apply Nat.eqb_neq in H. now rewrite H.
Qed.

Lemma agree_forgive (env : environment) :
  agree_from (S makedirs_index) env (forgive env).
Proof.
  intros k Hk. symmetry. apply forgive_other. unfold makedirs_index in *. lia.
Qed.

(** A run in which [os.makedirs] finds the directory goes on as the run
    in which it creates it: same operations, same result. *)
Lemma train_model_forgives (model : NNModule) (epochs : Z) (dev : string)
    (env : environment) :
  let tm := train_model model train_dataloader test_dataloader epochs dev
                        save_dir nosave in
  fst (run tm env) = fst (run tm (forgive env))
  /\ map fst (snd (run tm env)) = map fst (snd (run tm (forgive env))).
Proof.
  cbv zeta. unfold run, train_model.
  rewrite !bind_perform.
  rewrite !(forgive_other env (k := 0)), !(forgive_other env (k := 1))
    by discriminate.
  destruct (env 0%nat); [split; reflexivity|].
  destruct (env 1%nat); [split; reflexivity|].
  destruct test_dataloader as [|sample rest] eqn:Htest;
    [split; reflexivity|].
  rewrite <- Htest.
  rewrite !bind_perform.
  rewrite !(forgive_other env (k := 2)), !(forgive_other env (k := 3))
    by discriminate.
  destruct (env 2%nat); [split; reflexivity|].
  destruct (env 3%nat); [split; reflexivity|].
  rewrite !bind_run.
  unfold try_except_FileExistsError_pass, call, perform.
  assert (Hf : forgive env 4%nat
               = match env 4%nat with
                 | Some FileExistsError => None
                 | other => other
                 end) by reflexivity.
  rewrite !Hf. clear Hf.
  pose proof (local_fit train_dataloader test_dataloader save_dir nosave
                sample epochs
                (model, LinearLR (Adam (params model) 1e-5%float) 1 0.1
                                 (total_iters epochs))
                (agree_forgive env)) as Hfit.
  unfold makedirs_index in Hfit.
  destruct (env 4%nat) as [e|]; cbn [fst snd List.length Nat.add];
    [destruct e|]; cbn [fst snd List.length Nat.add map app];
    rewrite <- ?Hfit; split; reflexivity.
Qed.

(** When [os.makedirs] finds the directory and nothing else fails, the
    run records that failure and still returns the model, provided the
    figure of the sample batch fits its grid. *)
Lemma train_model_proceeds (sample : Batch) (model : NNModule) (epochs : Z)
    (dev : string) (env : environment) :
  env makedirs_index = Some FileExistsError ->
  (forall k, k <> makedirs_index -> env k = None) ->
  train_dataloader <> [] -> hd_error test_dataloader = Some sample ->
  nonempty_batches test_dataloader ->
  output_per_image -> image_per_label sample -> figure_fits sample = true ->
  let x := run (train_model model train_dataloader test_dataloader epochs dev
                            save_dir nosave) env in
  is_ok (fst x) = true
  /\ nth_error (snd x) makedirs_index
     = Some (EvMakedirs save_dir, Some FileExistsError).
Proof.
  intros Hmk Hcalm Htrain Htest Hsamples Hout Himg Hfits. cbv zeta. split.
  - destruct (train_model_forgives model epochs dev env) as [-> _].
    assert (Hagree : agree_from 0 (forgive env) calm).
    { intros k _. unfold forgive, calm.
      destruct (Nat.eqb k makedirs_index) eqn:Hk.
      - apply Nat.eqb_eq in Hk. subst k. now rewrite Hmk.
      - apply Nat.eqb_neq in Hk. now apply Hcalm. }
    unfold run.
    rewrite (local_train_model train_dataloader test_dataloader save_dir
               nosave model epochs dev Hagree).
    exact (train_model_returns_when_calm save_dir nosave Htrain Htest
             Hsamples Hout Himg Hfits model epochs dev).
  - assert (Hnext : match test_dataloader with
                    | [] => Raise StopIteration
                    | b :: _ => Ok b
                    end = Ok sample).
    { clear Hsamples. destruct test_dataloader as [|b rest];
        [discriminate | now injection Htest as ->]. }
    unfold run, train_model. rewrite !bind_perform.
    rewrite !Hcalm by discriminate. rewrite Hnext, !bind_perform.
    rewrite !Hcalm by discriminate.
    rewrite bind_run.
    unfold try_except_FileExistsError_pass, call, perform.
    unfold makedirs_index in Hmk. rewrite Hmk. reflexivity.
Qed.

End RecoveryFacts.

(** ** The claims about the trainer *)

Example train_model_runs :
  let x := run (@train_model Toy.torch Toy.model Toy.three_right
                  Toy.three_samples 7 "cpu" "ckpt" false) calm in
  is_ok (fst x) = true
  /\ saved_paths (snd x) = ["ckpt/2.pt"; "ckpt/5.pt"]%string
  /\ map snd (scalars_of "accuracy/Train" (snd x)) = [1; 2; 3; 4; 5; 6; 7]%Z.
Proof. vm_compute. repeat split. Qed.

Example train_model_existing_directory :
  let env := fun k => if Nat.eqb k 4 then Some FileExistsError else None in
  let x := run (@train_model Toy.torch Toy.model Toy.three_right
                  Toy.three_samples 3 "cpu" "ckpt" false) env in
  is_ok (fst x) = true
  /\ nth_error (snd x) 4 = Some (EvMakedirs "ckpt", Some FileExistsError)
  /\ saved_paths (snd x) = ["ckpt/2.pt"]%string.
Proof. vm_compute. repeat split. Qed.

Example train_model_full_disk :
  let env := fun k => if Nat.eqb k 4 then Some (OSError 28) else None in
  run (@train_model Toy.torch Toy.model Toy.three_right Toy.three_right 3
         "cpu" "ckpt" false) env
  = (Raise (OSError 28),
     [(EvToDevice "cpu", None); (EvNextBatch, None);
      (EvAdam 1e-5%float, None);
      (EvLinearLR 1%float 0.1%float 2%Z, None);
      (EvMakedirs "ckpt", Some (OSError 28))]).
Proof. vm_compute. reflexivity. Qed.

Example train_model_without_test_batches :
  run (@train_model Toy.torch Toy.model Toy.three_right [] 7 "cpu" "ckpt" false)
      calm
  = (Raise StopIteration,
     [(EvToDevice "cpu", None); (EvNextBatch, Some StopIteration)]).
Proof. reflexivity. Qed.

Example train_model_without_train_batches :
  fst (run (@train_model Toy.torch Toy.model [] Toy.three_right 7 "cpu" "ckpt"
              false) calm)
  = Raise ZeroDivisionError.
Proof. reflexivity. Qed.

(** A sample batch of two: [plot_classes_preds] asks for a grid of 3
    rows and [2 // 3 = 0] columns, and the first epoch ends there. *)
Example train_model_figure_too_small :
  let x := run (@train_model Toy.torch Toy.model Toy.three_right
                  Toy.two_right 7 "cpu" "ckpt" false) calm in
  fst x = Raise ValueError
  /\ last (snd x) (EvNextBatch, None) = (EvPlotClassesPreds, Some ValueError)
  /\ map snd (scalars_of "accuracy/Eval" (snd x)) = [1%Z]
  /\ saved_paths (snd x) = [].
Proof. vm_compute. repeat split. Qed.

Example total_iters_ex :
  total_iters 10 = 7%Z /\ total_iters 300 = 210%Z /\ total_iters 1 = 0%Z
  /\ total_iters 90 = 62%Z.
Proof. vm_compute. repeat split. Qed.

(** C4: with [nosave=False] the checkpoints a run writes are, in order,
    those of the epoch indices below [epochs] with [epoch % 3 == 2], each
    at [os.path.join(save_dir, f"{epoch}.pt")]: a run that returns has
    written exactly these, a run that raises the first of them; with
    [nosave=True] a run writes none. *)
Theorem checkpoint_cadence {T : Torch} (model : NNModule)
    (train_dataloader test_dataloader : list Batch) (epochs : Z)
    (dev save_dir : string) (env : environment) :
  let run_with nosave :=
    run (train_model model train_dataloader test_dataloader epochs dev
                     save_dir nosave) env in
  let due :=
    map (checkpoint_path save_dir)
        (filter (fun epoch => (epoch mod 3 =? 2)%Z) (range epochs)) in
  prefix (saved_paths (snd (run_with false))) due
  /\ (is_ok (fst (run_with false)) = true ->
      saved_paths (snd (run_with false)) = due)
  /\ (forall path,
        In path due <->
        exists epoch, (0 <= epoch < epochs)%Z /\ (epoch mod 3 = 2)%Z
                      /\ path = Py.os_path_join save_dir
                                  (Py.str epoch ++ ".pt"))
  /\ saved_paths (snd (run_with true)) = [].
Proof.
  cbv zeta.
  pose proof (train_model_spec train_dataloader test_dataloader save_dir false
                model epochs dev env) as (Hp & _ & Hok).
  pose proof (train_model_spec train_dataloader test_dataloader save_dir true
                model epochs dev env) as ([rest Hnone] & _ & _).
  cbn [checkpoints] in Hp, Hok, Hnone.
  split; [exact Hp|]. split; [intros H; now apply Hok|]. split.
  - intros path. rewrite in_map_iff. split.
    + intros (epoch & <- & Hin). apply filter_In in Hin.
      destruct Hin as [Hin Hmod]. apply in_range in Hin.
      apply Z.eqb_eq in Hmod. now exists epoch.
    + intros (epoch & Hin & Hmod & ->). exists epoch. split; [reflexivity|].
      apply filter_In. split; [now apply in_range | now apply Z.eqb_eq].
  - symmetry in Hnone. now apply app_eq_nil in Hnone.
Qed.

(** C9: [FileExistsError] from [os.makedirs] is the one failure
    [train_model] takes back: the run goes on as the run in which the
    directory was created, and returns the model when nothing else
    fails, which includes the repository's own [plot_classes_preds]: it
    returns when the network gives an output per image and the sample
    batch has an image per label and fills the grid of the figure.  Any
    other failure of any operation is the last operation of the run and
    its exception is what [train_model] raises; [load_data] likewise
    raises what [open] and [os.listdir] raise and returns only when
    every listed image was decoded. *)
Theorem only_makedirs_is_recovered {T : Torch} (model : NNModule)
    (train_dataloader test_dataloader : list Batch) (epochs : Z)
    (dev save_dir : string) (nosave : bool) :
  let tm := train_model model train_dataloader test_dataloader epochs dev
                        save_dir nosave in
  (forall env,
     fst (run tm env) = fst (run tm (forgive env))
     /\ map fst (snd (run tm env)) = map fst (snd (run tm (forgive env))))
  /\ (forall env sample,
        env makedirs_index = Some FileExistsError ->
        (forall k, k <> makedirs_index -> env k = None) ->
        train_dataloader <> [] -> hd_error test_dataloader = Some sample ->
        nonempty_batches test_dataloader ->
        output_per_image -> image_per_label sample ->
        figure_fits sample = true ->
        is_ok (fst (run tm env)) = true
        /\ nth_error (snd (run tm env)) makedirs_index
           = Some (EvMakedirs save_dir, Some FileExistsError))
  /\ (forall env, fatal_last (run tm env))
  /\ (forall (RawImage Image : Type) (to_tensor : RawImage -> Image)
             (fs : FileSystem RawImage) (data_dir : string),
        (forall e, fs_open fs (Py.os_path_join data_dir "labels.txt") = Raise e ->
                   load_data to_tensor fs data_dir = Raise e)
        /\ (forall content e,
              fs_open fs (Py.os_path_join data_dir "labels.txt") = Ok content ->
              os_listdir fs (Py.os_path_join data_dir "files") = Raise e ->
              load_data to_tensor fs data_dir = Raise e)
        /\ (forall content listing name,
              fs_open fs (Py.os_path_join data_dir "labels.txt") = Ok content ->
              os_listdir fs (Py.os_path_join data_dir "files") = Ok listing ->
              In name listing ->
              cv2_imread fs
                (Py.os_path_join (Py.os_path_join data_dir "files") name)
              = None ->
              is_ok (load_data to_tensor fs data_dir) = false)).
Proof.
  cbv zeta. split; [|split; [|split]].
  - intros env. apply train_model_forgives.
  - intros env sample Hmk Hcalm Htrain Htest Hsamples Hout Himg Hfits.
    now apply train_model_proceeds with (sample := sample).
  - intros env. apply propagates_train_model.
  - intros RawImage Image to_tensor fs data_dir. split; [|split].
    + intros e Hopen. unfold load_data. now rewrite Hopen.
    + intros content e Hopen Hlist. unfold load_data.
      now rewrite Hopen, Hlist.
    + intros content listing name Hopen Hlist Hin Hread. unfold load_data.
      rewrite Hopen, Hlist.
      destruct (load_loop to_tensor fs (Py.os_path_join data_dir "files")
                          listing [] [] content) as [[imgs labs]|e] eqn:Hloop;
        [|reflexivity].
      apply load_loop_ok in Hloop.
      destruct Hloop as (imgs' & labs' & _ & _ & Hi & _ & _).
      exfalso. clear - Hi Hin Hread.
      induction Hi as [|name' img l l' (raw & Hraw & _) _ IH]; [contradiction|].
      destruct Hin as [-> | Hin]; [congruence | now apply IH].
Qed.

(** C10: the value a run adds under ["accuracy/Train"] for epoch [k], at
    step [k + 1], is the number of correct thresholded predictions of
    the epoch divided by the number of training batches: a run that
    returns has added exactly these values, a run that raises the first
    of them.  It is not a fraction of the samples: on one batch of two
    samples, both predicted right, it is 2 where correct over samples
    is 1. *)
Theorem train_accuracy_is_correct_per_batch :
  (forall (T : Torch) (model : NNModule)
          (train_dataloader test_dataloader : list Batch) (epochs : Z)
          (dev save_dir : string) (nosave : bool) (env : environment),
     let x := run (train_model model train_dataloader test_dataloader epochs
                               dev save_dir nosave) env in
     let logged :=
       map (fun k =>
              (correct_per_batch
                 (state_at train_dataloader (initial_state model epochs) k)
                 train_dataloader,
               (Z.of_nat k + 1)%Z))
           (seq 0 (Z.to_nat epochs)) in
     prefix (scalars_of "accuracy/Train" (snd x)) logged
     /\ (is_ok (fst x) = true -> scalars_of "accuracy/Train" (snd x) = logged))
  /\ (let x := run (@train_model Toy.torch Toy.model Toy.two_right
                      Toy.two_right 1 "cpu" "ckpt" true) calm in
      scalars_of "accuracy/Train" (snd x) = [(2%float, 1%Z)]
      /\ @correct_per_sample Toy.torch (initial_state Toy.model 1)
           Toy.two_right = 1%float
      /\ PrimFloat.ltb 1 2 = true).
Proof.
  split.
  - intros T model train_dataloader test_dataloader epochs dev save_dir nosave
      env. cbv zeta.
    pose proof (train_model_spec train_dataloader test_dataloader save_dir
                  nosave model epochs dev env) as (_ & Hp & Hok).
    unfold range in Hp, Hok. rewrite epochs_accuracy_range in Hp, Hok.
    cbn [Nat.add] in Hp, Hok.
    split; [exact Hp | intros H; now apply Hok].
  - vm_compute. repeat split.
Qed.

(** ** Dataset Splitter *)

Section SplitterFacts.

Variables X Y : Type.

Lemma take_indices_length {E} (xs : list E) (indices : list nat) :
  (forall i, In i indices -> (i < List.length xs)%nat) ->
  List.length (take_indices xs indices) = List.length indices.
Proof.
  unfold take_indices.
  induction indices as [|i indices IH]; intros Hvalid; [reflexivity|].
  cbn [flat_map]. rewrite length_app, IH by (intros j Hj; apply Hvalid; now right).
  destruct (nth_error xs i) eqn:Hnth; [reflexivity|].
  apply nth_error_None in Hnth.
  specialize (Hvalid i (or_introl eq_refl)). lia.
Qed.

Lemma NoDup_app_disjoint {E} (l1 l2 : list E) :
  NoDup (l1 ++ l2) -> forall a, In a l1 -> ~ In a l2.
Proof.
  induction l1 as [|b l1 IH]; intros Hnd a H1 H2; [contradiction|].
  cbn [app] in Hnd. inversion Hnd as [|b' l' Hnotin Hnd']; subst.
  destruct H1 as [-> | H1].
  - apply Hnotin. apply in_or_app. now right.
  - exact (IH Hnd' a H1 H2).
Qed.

Lemma nth_error_combine {A B} (l : list A) (l' : list B) :
  forall i a b,
    nth_error l i = Some a -> nth_error l' i = Some b ->
    nth_error (combine l l') i = Some (a, b).
Proof.
  revert l'. induction l as [|x l IH]; intros [|y l'] [|i] a b Ha Hb;
    cbn in *; try discriminate.
  - congruence.
  - now apply IH.
Qed.

(** Taking samples by index takes their images and their labels. *)
Lemma take_indices_combine {A B} (l : list A) (l' : list B)
    (indices : list nat) :
  List.length l = List.length l' ->
  (forall i, In i indices -> (i < List.length l)%nat) ->
  take_indices (combine l l') indices
  = combine (take_indices l indices) (take_indices l' indices).
Proof.
  intros Hlen. unfold take_indices.
  induction indices as [|i indices IH]; intros Hvalid; [reflexivity|].
  cbn [flat_map].
  assert (Hi : (i < List.length l)%nat) by (apply Hvalid; now left).
  destruct (nth_error l i) as [a|] eqn:Ha;
    [|apply nth_error_None in Ha; lia].
  destruct (nth_error l' i) as [b|] eqn:Hb;
    [|apply nth_error_None in Hb; lia].
  rewrite (nth_error_combine _ _ _ Ha Hb). cbn [app combine].
  rewrite IH by (intros j Hj; apply Hvalid; now right). reflexivity.
Qed.

Lemma take_indices_all {A} (l : list A) :
  forall before,
    take_indices (before ++ l) (seq (List.length before) (List.length l)) = l.
Proof.
  unfold take_indices.
  induction l as [|a l IH]; intros before; [reflexivity|].
  cbn [List.length seq flat_map].
  rewrite nth_error_app2, Nat.sub_diag by lia. cbn [nth_error app].
  f_equal. specialize (IH (before ++ [a])).
  rewrite <- app_assoc, length_app in IH. cbn [List.length app] in IH.
  rewrite Nat.add_1_r in IH. exact IH.
Qed.

(** Each sample taken is the sample of its index. *)
Lemma take_indices_samples (xs : list X) (ys : list Y) (indices : list nat) :
  List.length xs = List.length ys ->
  (forall i, In i indices -> (i < List.length xs)%nat) ->
  Forall2 (sample_at xs ys) indices
          (combine (take_indices xs indices) (take_indices ys indices)).
Proof.
  intros Hlen. unfold take_indices.
  induction indices as [|i indices IH]; intros Hvalid; [constructor|].
  cbn [flat_map].
  assert (Hi : (i < List.length xs)%nat) by (apply Hvalid; now left).
  destruct (nth_error xs i) as [a|] eqn:Ha;
    [|apply nth_error_None in Ha; lia].
  destruct (nth_error ys i) as [b|] eqn:Hb;
    [|apply nth_error_None in Hb; lia].
  cbn [app combine]. constructor.
  - split; assumption.
  - apply IH. intros j Hj. apply Hvalid. now right.
Qed.

(** A ratio in (0, 1) leaves the test subset within the dataset. *)
Lemma n_test_le (test_size : Q) (n : nat) :
  0 < test_size -> test_size < 1 -> (n_test test_size n <= n)%nat.
Proof.
  intros Hpos Hlt. unfold n_test.
  assert (Hle : test_size * inject_Z (Z.of_nat n) <= inject_Z (Z.of_nat n)).
  { rewrite <- (Qmult_1_l (inject_Z (Z.of_nat n))) at 2.
    apply Qmult_le_compat_r; [now apply Qlt_le_weak|].
    rewrite <- (Zle_Qle 0). lia. }
  apply Qceiling_resp_le in Hle. rewrite Qceiling_Z in Hle. lia.
Qed.

End SplitterFacts.

(** C8: for a ratio in (0, 1) the splitter gives every sample index to
    exactly one of the two subsets, so that the subsets are disjoint and
    their lengths add up to that of the dataset, images and labels
    alike; the test subset has [ceil(test_size * n)] samples, and [main]
    splits with [TEST_SIZE], 0.3: 30 for the test subset, 70 for the
    train subset.  The subsets hold the samples of their indices, each
    image with its own label, and the two together are the samples of
    the dataset, each once. *)
Theorem split_is_a_partition (X Y : Type) (xs : list X) (ys : list Y)
    (shuffle : list nat) (test_size : Q)
    (Hlen : List.length xs = List.length ys)
    (Hshuffle : Permutation shuffle (seq 0 (List.length xs)))
    (Hpos : 0 < test_size) (Hlt : test_size < 1) :
  let s := train_test_split shuffle xs ys test_size in
  (List.length (x_train s) + List.length (x_test s) = List.length xs)%nat
  /\ (List.length (y_train s) + List.length (y_test s) = List.length ys)%nat
  /\ List.length (x_train s) = List.length (y_train s)
  /\ List.length (x_test s) = List.length (y_test s)
  /\ (forall i, In i (train_indices s) -> ~ In i (test_indices s))
  /\ Permutation (test_indices s ++ train_indices s) (seq 0 (List.length xs))
  /\ List.length (x_test s) = n_test test_size (List.length xs)
  /\ split_samples shuffle xs ys = train_test_split shuffle xs ys (3 # 10)
  /\ 1 - TEST_SIZE == 7 # 10
  /\ Forall2 (sample_at xs ys) (test_indices s)
             (combine (x_test s) (y_test s))
  /\ Forall2 (sample_at xs ys) (train_indices s)
             (combine (x_train s) (y_train s))
  /\ Permutation (combine (x_test s) (y_test s)
                  ++ combine (x_train s) (y_train s))
                 (combine xs ys).
Proof.
  cbv zeta. unfold train_test_split; cbn [x_train x_test y_train y_test
    train_indices test_indices].
  set (k := n_test test_size (List.length xs)).
  assert (Hk : (k <= List.length xs)%nat) by now apply n_test_le.
  assert (Hn : List.length shuffle = List.length xs).
  { rewrite (Permutation_length Hshuffle). apply length_seq. }
  assert (Hvalid : forall i, In i shuffle -> (i < List.length xs)%nat).
  { intros i Hi. apply (Permutation_in _ Hshuffle) in Hi.
    apply in_seq in Hi. lia. }
  assert (Hfirst : forall i, In i (firstn k shuffle) -> (i < List.length xs)%nat).
  { intros i Hi. apply Hvalid.
    rewrite <- (firstn_skipn k shuffle). apply in_or_app. now left. }
  assert (Hskip : forall i, In i (skipn k shuffle) -> (i < List.length xs)%nat).
  { intros i Hi. apply Hvalid.
    rewrite <- (firstn_skipn k shuffle). apply in_or_app. now right. }
  assert (Hnodup : NoDup (firstn k shuffle ++ skipn k shuffle)).
  { rewrite firstn_skipn. apply (Permutation_NoDup (Permutation_sym Hshuffle)).
    apply seq_NoDup. }
  assert (Hties :
            Forall2 (sample_at xs ys) (firstn k shuffle)
                    (combine (take_indices xs (firstn k shuffle))
                             (take_indices ys (firstn k shuffle)))
            /\ Forall2 (sample_at xs ys) (skipn k shuffle)
                       (combine (take_indices xs (skipn k shuffle))
                                (take_indices ys (skipn k shuffle)))
            /\ Permutation
                 (combine (take_indices xs (firstn k shuffle))
                          (take_indices ys (firstn k shuffle))
                  ++ combine (take_indices xs (skipn k shuffle))
                             (take_indices ys (skipn k shuffle)))
                 (combine xs ys)).
  { split; [now apply take_indices_samples|].
    split; [now apply take_indices_samples|].
    rewrite <- !take_indices_combine by assumption.
    unfold take_indices at 1 2. rewrite <- flat_map_app, firstn_skipn.
    fold (take_indices (combine xs ys) shuffle).
    assert (Hall : take_indices (combine xs ys)
                     (seq 0 (List.length (combine xs ys)))
                   = combine xs ys)
      by exact (take_indices_all (combine xs ys) []).
    rewrite <- Hall at 2.
    unfold take_indices. apply Permutation_flat_map.
    rewrite length_combine, <- Hlen, Nat.min_id. exact Hshuffle. }
  destruct Hties as (Htest & Htrain & Hperm).
  rewrite !take_indices_length by (try rewrite <- Hlen; assumption).
  rewrite length_firstn, length_skipn, Hn.
  split; [lia|]. split; [lia|]. split; [lia|]. split; [lia|].
  split.
  { intros i Hitrain Hitest.
    exact (NoDup_app_disjoint _ _ Hnodup i Hitest Hitrain). }
  split; [now rewrite firstn_skipn|].
  split; [lia|]. split; [reflexivity|]. split; [reflexivity|].
  split; [exact Htest|]. split; [exact Htrain | exact Hperm].
Qed.

Lemma split_is_a_partition_witness :
  let s := train_test_split [2; 0; 3; 1]%nat [10; 11; 12; 13]%Z
             [true; false; true; false] (3 # 10) in
  (List.length (x_train s) + List.length (x_test s) = 4)%nat
  /\ (List.length (y_train s) + List.length (y_test s) = 4)%nat
  /\ List.length (x_train s) = List.length (y_train s)
  /\ List.length (x_test s) = List.length (y_test s)
  /\ (forall i, In i (train_indices s) -> ~ In i (test_indices s))
  /\ Permutation (test_indices s ++ train_indices s) (seq 0 4)
  /\ List.length (x_test s) = n_test (3 # 10) 4
  /\ split_samples [2; 0; 3; 1]%nat [10; 11; 12; 13]%Z
       [true; false; true; false]
     = train_test_split [2; 0; 3; 1]%nat [10; 11; 12; 13]%Z
         [true; false; true; false] (3 # 10)
  /\ 1 - TEST_SIZE == 7 # 10
  /\ Forall2 (sample_at [10; 11; 12; 13]%Z [true; false; true; false])
             (test_indices s) (combine (x_test s) (y_test s))
  /\ Forall2 (sample_at [10; 11; 12; 13]%Z [true; false; true; false])
             (train_indices s) (combine (x_train s) (y_train s))
  /\ Permutation (combine (x_test s) (y_test s)
                  ++ combine (x_train s) (y_train s))
                 (combine [10; 11; 12; 13]%Z [true; false; true; false]).
Proof.
  apply (@split_is_a_partition Z bool [10; 11; 12; 13]%Z
           [true; false; true; false] [2; 0; 3; 1]%nat (3 # 10)).
  - reflexivity.
  - cbn [List.length seq].
    apply (perm_trans (l' := [0; 2; 3; 1]%nat)); [apply perm_swap|].
    apply perm_skip.
    apply (perm_trans (l' := [2; 1; 3]%nat)); [apply perm_skip, perm_swap|].
    apply perm_swap.
  - reflexivity.
  - reflexivity.
Defined.

Example split_ex :
  let s := split_samples [2; 0; 3; 1; 9; 5; 7; 4; 8; 6]%nat
             [10; 11; 12; 13; 14; 15; 16; 17; 18; 19]%Z
             [0; 1; 0; 1; 0; 1; 0; 1; 0; 1]%Z in
  x_test s = [12; 10; 13]%Z /\ y_test s = [0; 0; 1]%Z
  /\ x_train s = [11; 19; 15; 17; 14; 18; 16]%Z.
Proof. vm_compute. repeat split. Qed.

(** ** Shapes *)

(** An input of shape (B, 3, 192, 180) leaves [forward] with shape
    (B, 1): the two pooled convolutions give (B, 64, 48, 45), which is
    what the constant [64 * 45 * 48] of [view] and [fc1] expects. *)
Lemma forward_shape_configured (b : Z) :
  (0 < b)%Z ->
  Shape.forward_shape (b, 3, IMG_HEIGHT, IMG_WIDTH)%Z = Some (b, 1%Z).
Proof.
  intros Hb. unfold Shape.forward_shape.
  change (Shape.conv2d 3 32 (b, 3, IMG_HEIGHT, IMG_WIDTH)%Z)
    with (Some (b, 32, 192, 180)%Z).
  cbn [Shape.and_then].
  change (Shape.pool (b, 32, 192, 180)%Z) with (b, 32, 96, 90)%Z.
  change (Shape.conv2d 32 64 (b, 32, 96, 90)%Z) with (Some (b, 64, 96, 90)%Z).
  cbn [Shape.and_then].
  change (Shape.pool (b, 64, 96, 90)%Z) with (b, 64, 48, 45)%Z.
  unfold Shape.view.
  replace (b * 64 * 48 * 45)%Z with (b * (64 * 45 * 48))%Z by lia.
  rewrite Z_mod_mult, Z_div_mult by lia. reflexivity.
Qed.

(** * Further properties *)

(** ** Image Loader: when it returns, and which failure comes first *)

Section LoaderMore.

Variables RawImage Image : Type.
Variable to_tensor : RawImage -> Image.
Variable fs : FileSystem RawImage.

Lemma file_lines_empty_iff (s : string) :
  Py.file_lines s = [] <-> s = EmptyString.
Proof.
  split; [|intros ->; reflexivity].
  destruct s as [|c r]; [reflexivity|]. intros H.
  assert (Hne : String c r <> EmptyString) by discriminate.
  rewrite (readline_file_lines Hne) in H. discriminate.
Qed.

(** [readline] returns the first line, or the empty string at the end,
    and leaves the other lines. *)
Lemma readline_line (s : string) :
  fst (Py.readline s) = line_read 0 s
  /\ Py.file_lines (snd (Py.readline s)) = tl (Py.file_lines s).
Proof.
  unfold line_read. destruct s as [|c r]; [split; reflexivity|].
  assert (Hne : String c r <> EmptyString) by discriminate.
  rewrite (readline_file_lines Hne). split; reflexivity.
Qed.

Lemma file_lines_drop (n : nat) :
  forall s, Py.file_lines (drop_lines n s) = skipn n (Py.file_lines s).
Proof.
  induction n as [|n IH]; intros s; [reflexivity|].
  cbn [drop_lines]. rewrite IH.
  destruct (readline_line s) as [_ ->].
  destruct (Py.file_lines s); [now rewrite skipn_nil | reflexivity].
Qed.

Lemma line_read_drop (n k : nat) (s : string) :
  line_read k (drop_lines n s) = line_read (n + k) s.
Proof.
  unfold line_read. rewrite file_lines_drop.
  revert n. generalize (Py.file_lines s) as l.
  induction l as [|a l IH]; intros [|n]; cbn [skipn Nat.add nth];
    try reflexivity.
  - now destruct k.
  - apply IH.
Qed.

(** Over files that decode and lines that start with an integer the
    loop goes on with the rest of the listing and of the labels file. *)
Lemma load_loop_app (data_path : string) (good : list string) :
  forall (raws : list RawImage) (labs : list Z) (more : list string)
         (images : list Image) (labels : list Z) (label_file : string),
    Forall2 (decode fs data_path) good raws ->
    List.length labs = List.length good ->
    labels_from label_file 0 labs ->
    load_loop to_tensor fs data_path (good ++ more) images labels label_file
    = load_loop to_tensor fs data_path more
                (images ++ map to_tensor raws) (labels ++ labs)
                (drop_lines (List.length good) label_file).
Proof.
  induction good as [|name good IH];
    intros raws labs more images labels label_file Hdec Hlen Hlabs.
  - inversion Hdec; subst. destruct labs; [|discriminate].
    cbn. now rewrite !app_nil_r.
  - inversion Hdec as [|name' raw good' raws' Hraw Hdec']; subst.
    destruct labs as [|lab labs]; [discriminate|].
    cbn [app load_loop]. unfold decode in Hraw. rewrite Hraw.
    destruct (readline_line label_file) as [Hline _].
    destruct (Py.readline label_file) as [line rest] eqn:Hrl.
    cbn [fst] in Hline.
    pose proof (Hlabs 0%nat lab eq_refl) as Hlab0.
    unfold label_of_line in Hlab0. cbn [Nat.add] in Hlab0.
    rewrite <- Hline in Hlab0. rewrite Hlab0.
    rewrite (IH raws' labs more (images ++ [to_tensor raw]) (labels ++ [lab]) rest).
    + cbn [map List.length drop_lines]. rewrite Hrl. cbn [snd].
      now rewrite <- !app_assoc.
    + exact Hdec'.
    + cbn in Hlen. lia.
    + intros k label Hk.
      pose proof (Hlabs (S k) label Hk) as H.
      cbn [Nat.add] in *.
      replace rest with (drop_lines 1 label_file)
        by (cbn [drop_lines]; now rewrite Hrl).
      rewrite line_read_drop. exact H.
Qed.

(** X1: on a labels file of ASCII text, [load_data] returns whenever
    every listed file decodes and each of the first [n] lines of the
    labels file, [n] the number of files, starts with an integer: what
    it returns are the decoded images and those integers.  Lines after
    the [n]-th are never read, so a labels file with too many lines is
    accepted. *)
Theorem load_data_returns
    (data_dir content : string) (listing : list string)
    (raws : list RawImage) (labels : list Z)
    (Hopen : fs_open fs (Py.os_path_join data_dir "labels.txt") = Ok content)
    (Hlist : os_listdir fs (Py.os_path_join data_dir "files") = Ok listing)
    (Hdecode : Forall2 (decode fs (Py.os_path_join data_dir "files")) listing raws)
    (Hcount : List.length labels = List.length listing)
    (Hascii : Py.isascii content = true)
    (Hlabels : labels_from content 0 labels) :
  load_data to_tensor fs data_dir = Ok (map to_tensor raws, labels).
Proof.
  unfold load_data. rewrite Hopen, Hlist.
  rewrite <- (app_nil_r listing).
  rewrite (@load_loop_app _ _ _ _ [] [] [] content Hdecode Hcount Hlabels).
  reflexivity.
Qed.

(** X2: the first listed file that does not decode makes [load_data]
    raise the error of [cv2.cvtColor], when the files before it decode
    and their lines, in a labels file of ASCII text, start with
    integers; neither the line of that file nor anything after it is
    looked at. *)
Theorem load_data_first_unreadable
    (data_dir content : string) (good rest : list string) (bad : string)
    (raws : list RawImage) (labels : list Z)
    (Hopen : fs_open fs (Py.os_path_join data_dir "labels.txt") = Ok content)
    (Hlist : os_listdir fs (Py.os_path_join data_dir "files")
             = Ok (good ++ bad :: rest))
    (Hdecode : Forall2 (decode fs (Py.os_path_join data_dir "files")) good raws)
    (Hcount : List.length labels = List.length good)
    (Hascii : Py.isascii content = true)
    (Hlabels : labels_from content 0 labels)
    (Hbad : cv2_imread fs
              (Py.os_path_join (Py.os_path_join data_dir "files") bad) = None) :
  load_data to_tensor fs data_dir = Raise Cv2Error.
Proof.
  unfold load_data. rewrite Hopen, Hlist.
  rewrite (@load_loop_app _ _ _ _ (bad :: rest) [] [] content Hdecode Hcount Hlabels).
  cbn [load_loop]. now rewrite Hbad.
Qed.

(** X3: in a labels file of ASCII text, the first line that does not
    start with an integer, or the end of the file, makes [load_data]
    raise [ValueError], when the files up to and including the one of
    that line decode and the lines before it start with integers. *)
Theorem load_data_first_bad_label
    (data_dir content : string) (good rest : list string) (name : string)
    (raws : list RawImage) (raw : RawImage) (labels : list Z)
    (Hopen : fs_open fs (Py.os_path_join data_dir "labels.txt") = Ok content)
    (Hlist : os_listdir fs (Py.os_path_join data_dir "files")
             = Ok (good ++ name :: rest))
    (Hdecode : Forall2 (decode fs (Py.os_path_join data_dir "files")) good raws)
    (Hname : decode fs (Py.os_path_join data_dir "files") name raw)
    (Hcount : List.length labels = List.length good)
    (Hascii : Py.isascii content = true)
    (Hlabels : labels_from content 0 labels)
    (Hbad : Py.int (Py.split_space_first (line_read (List.length good) content))
            = None) :
  load_data to_tensor fs data_dir = Raise ValueError.
Proof.
  unfold load_data. rewrite Hopen, Hlist.
  rewrite (@load_loop_app _ _ _ _ (name :: rest) [] [] content Hdecode Hcount Hlabels).
  cbn [load_loop]. unfold decode in Hname. rewrite Hname.
  destruct (readline_line (drop_lines (List.length good) content)) as [Hline _].
  destruct (Py.readline (drop_lines (List.length good) content)) as [line r].
  cbn [fst] in Hline. rewrite Hline, line_read_drop, Nat.add_0_r, Hbad.
  reflexivity.
Qed.

End LoaderMore.

Lemma load_data_returns_witness :
  load_data (fun raw : nat => raw) (Toy.disk Damaged.three_labels) "data"
  = Ok ([1; 2]%nat, [1; 0]%Z).
Proof.
  apply (@load_data_returns nat nat (fun raw => raw)
           (Toy.disk Damaged.three_labels) "data" Damaged.three_labels
           ["a.jpg"; "b.jpg"]%string [1; 2]%nat [1; 0]%Z).
  - reflexivity.
  - reflexivity.
  - repeat constructor.
  - reflexivity.
  - reflexivity.
  - intros [|[|k]] label H; cbn in H;
      [injection H as <-; reflexivity | injection H as <-; reflexivity
      | destruct k; discriminate].
Defined.

Lemma load_data_first_unreadable_witness :
  load_data (fun raw : nat => raw) (Damaged.disk Toy.two_labels) "data"
  = Raise Cv2Error.
Proof.
  apply (@load_data_first_unreadable nat nat (fun raw => raw)
           (Damaged.disk Toy.two_labels) "data" Toy.two_labels
           ["a.jpg"]%string [] "b.jpg" [1%nat] [1%Z]).
  - reflexivity.
  - reflexivity.
  - repeat constructor.
  - reflexivity.
  - reflexivity.
  - intros [|k] label H; cbn in H;
      [injection H as <-; reflexivity | destruct k; discriminate].
  - reflexivity.
Defined.

Lemma load_data_first_bad_label_witness :
  load_data (fun raw : nat => raw) (Toy.disk Toy.one_label) "data"
  = Raise ValueError.
Proof.
  apply (@load_data_first_bad_label nat nat (fun raw => raw)
           (Toy.disk Toy.one_label) "data" Toy.one_label
           ["a.jpg"]%string [] "b.jpg" [1%nat] 2%nat [1%Z]).
  - reflexivity.
  - reflexivity.
  - repeat constructor.
  - reflexivity.
  - reflexivity.
  - reflexivity.
  - intros [|k] label H; cbn in H;
      [injection H as <-; reflexivity | destruct k; discriminate].
  - reflexivity.
Defined.

(** ** Trainer: the operations of a run, in order *)

Arguments epoch_operations : simpl never.
Arguments eval_values : simpl never.
Arguments running_loss_of : simpl never.
Arguments count_correct : simpl never.

(** Closes [prefix l1 l2] for lists that begin alike. *)
Ltac prefix_solve :=
  repeat first
    [ apply prefix_refl
    | apply prefix_nil
    | apply prefix_cons
    | apply prefix_app ].

Section OperationFacts.

Context {T : Torch}.

(** [eval_model] raises on batches without samples, and nothing else. *)
Lemma eval_model_cases (model : NNModule) (test_dataloader : list Batch) :
  fst (eval_model model test_dataloader)
  = if has_samples test_dataloader
    then Ok (eval_values model test_dataloader)
    else Raise ZeroDivisionError.
Proof.
  unfold eval_model, has_samples, eval_values. rewrite eval_loop_spec.
  cbn [Z.add].
  destruct (len test_dataloader =? 0)%Z; [reflexivity|].
  destruct (total_samples test_dataloader =? 0)%Z; reflexivity.
Qed.

(** The loop over the batches performs the five calls of each batch in
    turn; when it ends, the state, the count and the loss are those of
    the reference. *)
Lemma train_batches_operations (train_dataloader : list Batch) :
  forall model optimizer correct running_loss env n,
    post (for_each train_dataloader train_batch
                   (model, optimizer, correct, running_loss) env n)
         (fun r d =>
            prefix (map fst d)
                   (flat_map (fun _ => batch_operations) train_dataloader)
            /\ forall st, r = Ok st ->
                 map fst d
                 = flat_map (fun _ => batch_operations) train_dataloader
                 /\ st
                    = (fst (after_batches model optimizer train_dataloader),
                       snd (after_batches model optimizer train_dataloader),
                       fold_left PyFloat.add_int
                         (correct_counts
                            (epoch_outputs model optimizer train_dataloader))
                         correct,
                       sum_floats running_loss
                         (map (fun ot => BCELoss (fst ot) (snd ot))
                              (epoch_outputs model optimizer
                                             train_dataloader)))).
Proof.
  induction train_dataloader as [|[inputs targets] rest IH];
    intros model optimizer correct running_loss env n.
  - apply post_ret. split; [apply prefix_nil|].
    intros st [= <-]. split; reflexivity.
  - cbn [for_each flat_map]. unfold train_batch, call, batch_operations.
    cbn [app].
    rewrite !bind_assoc.
    step. { split; [cbn; prefix_solve | discriminate]. }
    rewrite !bind_assoc.
    step. { split; [cbn; prefix_solve | discriminate]. }
    rewrite !bind_assoc.
    step. { split; [cbn; prefix_solve | discriminate]. }
    rewrite !bind_assoc.
    step. { split; [cbn; prefix_solve | discriminate]. }
    rewrite !bind_assoc.
    step. { split; [cbn; prefix_solve | discriminate]. }
    rewrite bind_ret.
    eapply post_weaken; [apply IH|].
    cbn beta. intros r d [Hp Hst]. split.
    + cbn [map fst]. now prefix_solve.
    + intros st Hr. destruct (Hst st Hr) as [H1 H2].
      cbn [map fst]. rewrite H1. split; [reflexivity|].
      rewrite H2. reflexivity.
Qed.

(** One epoch performs the beginning of its operations, and all of them
    when it ends, which it only does when it runs to its end; the state
    it leaves is that of the reference. *)
Lemma train_epoch_operations (sample : Batch)
    (train_dataloader test_dataloader : list Batch)
    (save_dir : string) (nosave : bool) (epoch : Z)
    (s : NNModule * Optimizer) (env : environment) (n : nat) :
  post (train_epoch sample train_dataloader test_dataloader save_dir nosave
                    epoch s env n)
       (fun r d =>
          prefix (map fst d)
                 (epoch_operations sample train_dataloader test_dataloader
                                   save_dir nosave epoch s)
          /\ forall s', r = Ok s' ->
               map fst d
               = epoch_operations sample train_dataloader test_dataloader
                                  save_dir nosave epoch s
               /\ s' = after_epoch train_dataloader s
               /\ epoch_runs sample train_dataloader test_dataloader s
                  = true).
Proof.
  destruct s as [model optimizer]. unfold train_epoch, call.
  unfold epoch_operations, epoch_runs, epoch_error. cbn [fst snd].
  step. { split; [cbn; prefix_solve | discriminate]. }
  apply post_bind.
  eapply post_weaken; [apply train_batches_operations|].
  cbn beta. intros r d [Hp Hst].
  destruct r as [[[[model' optimizer'] correct] running_loss]|e].
  2:{ split; [cbn [map fst]; apply prefix_cons, prefix_app_r, Hp
             | discriminate]. }
  destruct (Hst _ eq_refl) as [Hd Hstate]. clear Hst Hp.
  injection Hstate as Hm Ho Hc Hl.
  unfold truediv.
  destruct (len train_dataloader =? 0)%Z eqn:Hlen.
  { step; [|discriminate].
    split; [|discriminate].
    cbn [map fst]. rewrite map_app, Hd. cbn [map fst]. prefix_solve. }
  step. { split; [|discriminate].
          cbn [map fst]. rewrite map_app, Hd. cbn [map fst]. prefix_solve. }
  unfold call_eval_model.
  pose proof (eval_model_cases model' test_dataloader) as Hcases.
  pose proof (eval_model_leaves model' test_dataloader) as Hleaves.
  destruct (eval_model model' test_dataloader) as [[la|e] model0].
  2:{ cbn [fst] in Hcases.
      destruct (has_samples test_dataloader); [discriminate|].
      step; [|discriminate].
      split; [|discriminate].
      cbn [map fst]. rewrite map_app, Hd. cbn [map fst]. prefix_solve. }
  cbn [fst snd] in Hcases, Hleaves. subst model0.
  destruct (has_samples test_dataloader); [|discriminate].
  injection Hcases as ->. cbn [negb].
  unfold count_correct, running_loss_of, sum_floats in *.
  subst model' optimizer' correct running_loss.
  set (s' := after_batches (model_train model) optimizer train_dataloader).
  set (outs := epoch_outputs (model_train model) optimizer train_dataloader).
  assert (Hgo : forall (P : Prop) r tail ideal,
            prefix (map fst tail) ideal ->
            (forall s0, r = Ok s0 ->
               map fst tail = ideal
               /\ s0 = after_epoch train_dataloader (model, optimizer)
               /\ P) ->
            prefix
              (map fst ((EvModelTrain, None) :: d ++ (EvTrueDiv, None) :: tail))
              (EvModelTrain
               :: flat_map (fun _ => batch_operations) train_dataloader
               ++ EvTrueDiv :: ideal)
            /\ (forall s0 : NNModule * Optimizer, r = Ok s0 ->
                  map fst ((EvModelTrain, None)
                           :: d ++ (EvTrueDiv, None) :: tail)
                  = EvModelTrain
                    :: flat_map (fun _ => batch_operations) train_dataloader
                    ++ EvTrueDiv :: ideal
                  /\ s0 = after_epoch train_dataloader (model, optimizer)
                  /\ P)).
  { intros P r tail ideal Hpre Hok. cbn [map fst]. rewrite map_app, Hd.
    cbn [map fst]. split; [now prefix_solve|].
    intros s0 Hr. destruct (Hok s0 Hr) as (-> & -> & HP). repeat split.
    exact HP. }
  step. { apply Hgo; [cbn; prefix_solve | discriminate]. }
  step. { apply Hgo; [cbn; prefix_solve | discriminate]. }
  step. { apply Hgo; [cbn; prefix_solve | discriminate]. }
  step. { apply Hgo; [cbn; prefix_solve | discriminate]. }
  step. { apply Hgo; [cbn; prefix_solve | discriminate]. }
  unfold call_plot_classes_preds.
  step. { apply Hgo; [cbn; prefix_solve | discriminate]. }
  rewrite Ha. cbn [is_ok].
  step. { apply Hgo; [cbn; prefix_solve | discriminate]. }
  assert (Hdone : after_epoch train_dataloader (model, optimizer)
                  = (model_eval (fst s'), scheduler_step (snd s')))
    by reflexivity.
  unfold checkpoint, call.
  destruct (negb nosave && (epoch mod 3 =? 2)%Z).
  - step. { apply Hgo; [cbn; prefix_solve | discriminate]. }
    step. { apply Hgo; [cbn; prefix_solve | discriminate]. }
    step. { apply Hgo; [cbn; prefix_solve | discriminate]. }
    step. { apply Hgo; [cbn; prefix_solve | discriminate]. }
    apply post_ret. apply Hgo; [cbn; prefix_solve|].
    intros s0 [= <-]. split; [reflexivity|]. split; [|reflexivity].
    now rewrite Hdone.
  - rewrite bind_ret.
    step. { apply Hgo; [cbn; prefix_solve | discriminate]. }
    step. { apply Hgo; [cbn; prefix_solve | discriminate]. }
    step. { apply Hgo; [cbn; prefix_solve | discriminate]. }
    apply post_ret. apply Hgo; [cbn; prefix_solve|].
    intros s0 [= <-]. split; [reflexivity|]. split; [|reflexivity].
    now rewrite Hdone.
Qed.

(** What the epochs leave when they all run to their end. *)
Lemma calm_epochs_result_ok (sample : Batch)
    (train_dataloader test_dataloader : list Batch) (es : list Z) :
  forall s s',
    calm_epochs_result sample train_dataloader test_dataloader es s = Ok s' ->
    s' = state_at train_dataloader s (List.length es).
Proof.
  induction es as [|e es IH]; intros s s' H; cbn in H.
  - now injection H as <-.
  - destruct (epoch_error sample train_dataloader test_dataloader s);
      [discriminate|].
    apply IH in H. subst s'. unfold state_at. cbn [List.length].
    now rewrite Nat.iter_succ_r.
Qed.

(** The loop over the epochs performs the beginning of the operations of
    its epochs, and all of them when it ends; the state it leaves is the
    state after that many epochs. *)
Lemma epochs_operations_spec (sample : Batch)
    (train_dataloader test_dataloader : list Batch)
    (save_dir : string) (nosave : bool) (es : list Z) :
  forall s env n,
    post (for_each es
            (train_epoch sample train_dataloader test_dataloader save_dir
                         nosave)
            s env n)
         (fun r d =>
            prefix (map fst d)
                   (epochs_operations sample train_dataloader test_dataloader
                                      save_dir nosave es s)
            /\ forall s', r = Ok s' ->
                 map fst d
                 = epochs_operations sample train_dataloader test_dataloader
                                     save_dir nosave es s
                 /\ calm_epochs_result sample train_dataloader
                                       test_dataloader es s = Ok s').
Proof.
  induction es as [|e es IH]; intros s env n;
    cbn [for_each epochs_operations calm_epochs_result].
  - apply post_ret. split; [apply prefix_nil|].
    intros s' [= <-]. split; reflexivity.
  - apply post_bind.
    eapply post_weaken; [apply train_epoch_operations|].
    cbn beta. intros r d [Hp Hok].
    destruct r as [s1|ex].
    + destruct (Hok s1 eq_refl) as (Hd & -> & Hruns). rewrite Hruns.
      unfold epoch_runs in Hruns.
      destruct (epoch_error sample train_dataloader test_dataloader s);
        [discriminate|].
      eapply post_weaken; [apply IH|].
      cbn beta. intros r' d' [Hp' Hok']. rewrite map_app, Hd.
      split; [now apply prefix_app|].
      intros s' Hr. destruct (Hok' s' Hr) as (-> & Hres).
      split; [reflexivity | exact Hres].
    + split; [now apply prefix_app_r | discriminate].
Qed.

Lemma range_length (n : Z) : List.length (range n) = Z.to_nat n.
Proof. unfold range. now rewrite length_map, length_seq. Qed.

(** A run performs the beginning of [run_operations], whatever fails,
    and all of them when it returns; it then returns the module after
    [epochs] epochs, as the run in which nothing is made to fail does. *)
Lemma train_model_operations_spec (model : NNModule)
    (train_dataloader test_dataloader : list Batch) (epochs : Z)
    (dev save_dir : string) (nosave : bool) (env : environment) :
  post (run (train_model model train_dataloader test_dataloader epochs dev
                         save_dir nosave) env)
       (fun r d =>
          prefix (map fst d)
                 (run_operations model train_dataloader test_dataloader
                                 epochs dev save_dir nosave)
          /\ forall model', r = Ok model' ->
               map fst d
               = run_operations model train_dataloader test_dataloader
                                epochs dev save_dir nosave
               /\ model'
                  = fst (state_at train_dataloader
                                  (initial_state model epochs)
                                  (Z.to_nat epochs))
               /\ calm_result model train_dataloader test_dataloader epochs
                  = Ok model').
Proof.
  unfold run, train_model, run_operations, calm_result.
  step. { split; [cbn; prefix_solve | discriminate]. }
  destruct test_dataloader as [|sample rest] eqn:Htest.
  { step; [|discriminate]. split; [cbn; prefix_solve | discriminate]. }
  rewrite <- Htest.
  step. { split; [cbn; prefix_solve | discriminate]. }
  step. { split; [cbn; prefix_solve | discriminate]. }
  step. { split; [cbn; prefix_solve | discriminate]. }
  assert (Hfit : forall o,
            post (fit sample train_dataloader test_dataloader epochs save_dir
                      nosave (initial_state model epochs) env 5%nat)
                 (fun r' d' =>
                    prefix
                      (map fst
                         ((EvToDevice dev, None) :: (EvNextBatch, None)
                          :: (EvAdam 1e-5%float, None)
                          :: (EvLinearLR 1 0.1 (total_iters epochs), None)
                          :: [(EvMakedirs save_dir, o)] ++ d'))
                      (EvToDevice dev :: EvNextBatch :: EvAdam 1e-5%float
                       :: EvLinearLR 1 0.1 (total_iters epochs)
                       :: EvMakedirs save_dir :: EvTqdm epochs
                       :: epochs_operations sample train_dataloader
                            test_dataloader save_dir nosave (range epochs)
                            (initial_state model epochs))
                    /\ forall model', r' = Ok model' ->
                         map fst
                           ((EvToDevice dev, None) :: (EvNextBatch, None)
                            :: (EvAdam 1e-5%float, None)
                            :: (EvLinearLR 1 0.1 (total_iters epochs), None)
                            :: [(EvMakedirs save_dir, o)] ++ d')
                         = EvToDevice dev :: EvNextBatch :: EvAdam 1e-5%float
                           :: EvLinearLR 1 0.1 (total_iters epochs)
                           :: EvMakedirs save_dir :: EvTqdm epochs
                           :: epochs_operations sample train_dataloader
                                test_dataloader save_dir nosave (range epochs)
                                (initial_state model epochs)
                         /\ model'
                            = fst (state_at train_dataloader
                                            (initial_state model epochs)
                                            (Z.to_nat epochs))
                         /\ match calm_epochs_result sample train_dataloader
                                    test_dataloader (range epochs)
                                    (initial_state model epochs) with
                            | Ok s => Ok (fst s)
                            | Raise e => Raise e
                            end = Ok model')).
  { intros o. unfold fit, call.
    step. { split; [cbn; prefix_solve | discriminate]. }
    apply post_bind.
    eapply post_weaken; [apply epochs_operations_spec|].
    cbn beta. intros r d [Hp Hok].
    destruct r as [s'|ex].
    - apply post_ret. destruct (Hok s' eq_refl) as (Hd & Hres).
      rewrite app_nil_r. cbn [map fst app]. rewrite Hd.
      split; [prefix_solve|].
      intros model' [= <-]. split; [reflexivity|].
      rewrite Hres. split; [|reflexivity].
      apply calm_epochs_result_ok in Hres. rewrite Hres.
      now rewrite range_length.
    - split; [|discriminate]. cbn [map fst app]. now prefix_solve. }
  apply post_bind.
  unfold post at 1, try_except_FileExistsError_pass, call, perform.
  destruct (env 4%nat) as [e|]; cbn [fst snd]; [|apply Hfit].
  destruct e;
    try (split; [cbn; prefix_solve | discriminate]).
  apply Hfit.
Qed.

End OperationFacts.

(** ** Trainer: the run in which nothing is made to fail *)

Section CalmOperationFacts.

Context {T : Torch}.

Lemma post_calm_ok {A B} (ev : event) (a : A) (f : A -> M B) (n : nat)
    (Q : result B -> list entry -> Prop) :
  post (f a calm (S n)) (fun r' d' => Q r' ((ev, None) :: d')) ->
  post (bind (perform ev (Ok a)) f calm n) Q.
Proof.
  intros H. apply post_bind. unfold post at 1, perform, calm.
  cbn [fst snd List.length]. now rewrite Nat.add_1_r.
Qed.

Lemma post_calm_raise {A B} (ev : event) (e : exn) (f : A -> M B) (n : nat)
    (Q : result B -> list entry -> Prop) :
  Q (Raise e) [(ev, Some e)] ->
  post (bind (perform ev (Raise e)) f calm n) Q.
Proof. intros H. apply post_bind. exact H. Qed.

Lemma calm_batches_operations (train_dataloader : list Batch) :
  forall model optimizer correct running_loss n,
    post (for_each train_dataloader train_batch
                   (model, optimizer, correct, running_loss) calm n)
         (fun r d =>
            map fst d = flat_map (fun _ => batch_operations) train_dataloader
            /\ r = Ok (fst (after_batches model optimizer train_dataloader),
                       snd (after_batches model optimizer train_dataloader),
                       fold_left PyFloat.add_int
                         (correct_counts
                            (epoch_outputs model optimizer train_dataloader))
                         correct,
                       sum_floats running_loss
                         (map (fun ot => BCELoss (fst ot) (snd ot))
                              (epoch_outputs model optimizer
                                             train_dataloader)))).
Proof.
  induction train_dataloader as [|[inputs targets] rest IH];
    intros model optimizer correct running_loss n.
  - apply post_ret. split; reflexivity.
  - cbn [for_each flat_map]. unfold train_batch, call, batch_operations.
    cbn [app].
    rewrite !bind_assoc. apply post_calm_ok.
    rewrite !bind_assoc. apply post_calm_ok.
    rewrite !bind_assoc. apply post_calm_ok.
    rewrite !bind_assoc. apply post_calm_ok.
    rewrite !bind_assoc. apply post_calm_ok.
    rewrite bind_ret.
    eapply post_weaken; [apply IH|].
    cbn beta. intros r d [Hd Hr]. cbn [map fst]. rewrite Hd, Hr.
    split; reflexivity.
Qed.

Lemma calm_epoch_operations (sample : Batch)
    (train_dataloader test_dataloader : list Batch)
    (save_dir : string) (nosave : bool) (epoch : Z)
    (s : NNModule * Optimizer) (n : nat) :
  post (train_epoch sample train_dataloader test_dataloader save_dir nosave
                    epoch s calm n)
       (fun r d =>
          map fst d
          = epoch_operations sample train_dataloader test_dataloader save_dir
                             nosave epoch s
          /\ r = match epoch_error sample train_dataloader test_dataloader s
                 with
                 | None => Ok (after_epoch train_dataloader s)
                 | Some e => Raise e
                 end).
Proof.
  destruct s as [model optimizer]. unfold train_epoch, call.
  unfold epoch_operations, epoch_error. cbn [fst snd].
  apply post_calm_ok.
  apply post_bind.
  eapply post_weaken; [apply calm_batches_operations|].
  cbn beta. intros r d [Hd ->].
  unfold truediv.
  destruct (len train_dataloader =? 0)%Z eqn:Hlen.
  { apply post_calm_raise. cbn [map fst]. rewrite map_app, Hd.
    split; reflexivity. }
  apply post_calm_ok.
  unfold call_eval_model.
  pose proof (eval_model_cases
                (fst (after_batches (model_train model) optimizer
                                    train_dataloader)) test_dataloader)
    as Hcases.
  pose proof (eval_model_leaves
                (fst (after_batches (model_train model) optimizer
                                    train_dataloader)) test_dataloader)
    as Hleaves.
  destruct (eval_model
              (fst (after_batches (model_train model) optimizer
                                  train_dataloader)) test_dataloader)
    as [[la|e] model0].
  2:{ cbn [fst] in Hcases.
      destruct (has_samples test_dataloader); [discriminate|].
      injection Hcases as ->.
      apply post_calm_raise. cbn [map fst]. rewrite map_app, Hd.
      split; reflexivity. }
  cbn [fst snd] in Hcases, Hleaves. subst model0.
  destruct (has_samples test_dataloader); [|discriminate].
  injection Hcases as ->. cbn [negb].
  do 5 apply post_calm_ok.
  unfold call_plot_classes_preds.
  destruct (plot_classes_preds_result
              (model_eval
                 (fst (after_batches (model_train model) optimizer
                                     train_dataloader))) sample)
    as [[]|e].
  2:{ apply post_calm_raise. cbn [map fst]. rewrite map_app, Hd.
      split; reflexivity. }
  cbn [is_ok].
  do 2 apply post_calm_ok.
  unfold checkpoint, call.
  destruct (negb nosave && (epoch mod 3 =? 2)%Z).
  - do 4 apply post_calm_ok. apply post_ret.
    cbn [map fst]. rewrite !map_app, Hd. split; reflexivity.
  - rewrite bind_ret. do 3 apply post_calm_ok. apply post_ret.
    cbn [map fst]. rewrite !map_app, Hd. split; reflexivity.
Qed.

Lemma calm_epochs_operations (sample : Batch)
    (train_dataloader test_dataloader : list Batch)
    (save_dir : string) (nosave : bool) (es : list Z) :
  forall s n,
    post (for_each es
            (train_epoch sample train_dataloader test_dataloader save_dir
                         nosave)
            s calm n)
         (fun r d =>
            map fst d
            = epochs_operations sample train_dataloader test_dataloader
                                save_dir nosave es s
            /\ r = calm_epochs_result sample train_dataloader test_dataloader
                                      es s).
Proof.
  induction es as [|e es IH]; intros s n;
    cbn [for_each epochs_operations calm_epochs_result].
  - apply post_ret. split; reflexivity.
  - apply post_bind.
    eapply post_weaken; [apply calm_epoch_operations|].
    cbn beta. intros r d [Hd ->]. unfold epoch_runs.
    destruct (epoch_error sample train_dataloader test_dataloader s) as [ex|].
    + rewrite app_nil_r. split; [exact Hd | reflexivity].
    + eapply post_weaken; [apply IH|].
      cbn beta. intros r' d' [Hd' ->]. rewrite map_app, Hd, Hd'.
      split; reflexivity.
Qed.

(** What [train_model] does when nothing is made to fail. *)
Lemma calm_run_operations (model : NNModule)
    (train_dataloader test_dataloader : list Batch) (epochs : Z)
    (dev save_dir : string) (nosave : bool) :
  post (run (train_model model train_dataloader test_dataloader epochs dev
                         save_dir nosave) calm)
       (fun r d =>
          map fst d
          = run_operations model train_dataloader test_dataloader epochs dev
                           save_dir nosave
          /\ r = calm_result model train_dataloader test_dataloader epochs).
Proof.
  unfold run, train_model, run_operations, calm_result, fit.
  apply post_calm_ok.
  destruct test_dataloader as [|sample rest] eqn:Htest.
  { apply post_calm_raise. split; reflexivity. }
  rewrite <- Htest.
  do 3 apply post_calm_ok.
  apply post_bind.
  unfold post at 1, try_except_FileExistsError_pass, call, perform, calm.
  cbn [fst snd]. unfold fit, call.
  apply post_calm_ok.
  apply post_bind.
  eapply post_weaken; [apply calm_epochs_operations|].
  cbn beta. intros r d [Hd ->].
  assert (Hops : forall d',
            map fst
              ((EvToDevice dev, None) :: (EvNextBatch, None)
               :: (EvAdam 1e-5%float, None)
               :: (EvLinearLR 1 0.1 (total_iters epochs), None)
               :: [(EvMakedirs save_dir, None)]
                  ++ (EvTqdm epochs, None) :: d ++ d')
            = EvToDevice dev :: EvNextBatch :: EvAdam 1e-5%float
              :: EvLinearLR 1 0.1 (total_iters epochs)
              :: EvMakedirs save_dir :: EvTqdm epochs
              :: epochs_operations sample train_dataloader test_dataloader
                   save_dir nosave (range epochs)
                   (initial_state model epochs) ++ map fst d').
  { intros d'. cbn [map fst app]. now rewrite map_app, Hd. }
  unfold initial_state in *.
  match goal with
  | |- context [calm_epochs_result ?a ?b ?c ?es ?s0] =>
      destruct (calm_epochs_result a b c es s0) as [s'|ex]
  end.
  - apply post_ret. rewrite Hops. cbn [map]. rewrite app_nil_r.
    split; reflexivity.
  - rewrite <- (app_nil_r d), Hops. cbn [map]. rewrite app_nil_r.
    split; reflexivity.
Qed.

End CalmOperationFacts.

(** ** Trainer: what a run has produced *)

Section ProjectionFacts.

Context {T : Torch}.

Lemma prefix_trans {A} (l1 l2 l3 : list A) :
  prefix l1 l2 -> prefix l2 l3 -> prefix l1 l3.
Proof.
  intros [r1 ->] [r2 ->]. exists (r1 ++ r2). now rewrite app_assoc.
Qed.

Lemma prefix_flat_map {A B} (f : A -> list B) (l1 l2 : list A) :
  prefix l1 l2 -> prefix (flat_map f l1) (flat_map f l2).
Proof. intros [r ->]. exists (flat_map f r). apply flat_map_app. Qed.

Lemma flat_map_of_map {A B C} (f : B -> list C) (g : A -> B) (l : list A) :
  flat_map f (map g l) = flat_map (fun a => f (g a)) l.
Proof.
  induction l as [|a l IH]; [reflexivity|]. cbn [map flat_map]. now rewrite IH.
Qed.

Lemma prefix_length {A} (l1 l2 : list A) :
  prefix l1 l2 -> (List.length l1 <= List.length l2)%nat.
Proof. intros [r ->]. rewrite length_app. lia. Qed.

Lemma prefix_NoDup {A} (l1 l2 : list A) :
  prefix l1 l2 -> NoDup l2 -> NoDup l1.
Proof. intros [r ->] H. exact (NoDup_app_remove_r _ _ H). Qed.

Lemma done_by_app {X} (p : event -> list X) (d1 d2 : list entry) :
  done_by p (d1 ++ d2) = done_by p d1 ++ done_by p d2.
Proof. apply flat_map_app. Qed.

(** Operations that did not fail, or failed and were recovered, produce
    what their events say. *)
Lemma done_by_unharmed {X} (p : event -> list X) (d : list entry) :
  (forall path, p (EvMakedirs path) = []) ->
  unharmed d -> done_by p d = flat_map p (map fst d).
Proof.
  intros Hmk H. induction H as [|[ev o] d Hen _ IH]; [reflexivity|].
  cbn [map fst]. change (done_by p ((ev, o) :: d))
    with (match o with None => p ev | Some _ => [] end ++ done_by p d).
  cbn [flat_map]. rewrite IH. f_equal.
  destruct o as [e|]; [|reflexivity].
  destruct Hen as [Hf | Hr]; [discriminate|].
  destruct ev; try discriminate. now rewrite Hmk.
Qed.

(** What a computation produced is the beginning of what its operations
    produce when none fails, and all of it when the computation returns
    having performed them all. *)
Lemma done_by_run {A X} (p : event -> list X) (r : result A)
    (d : list entry) (ideal : list event) :
  (forall path, p (EvMakedirs path) = []) ->
  fatal_last (r, d) -> prefix (map fst d) ideal ->
  prefix (done_by p d) (flat_map p ideal)
  /\ (is_ok r = true -> map fst d = ideal -> done_by p d = flat_map p ideal).
Proof.
  intros Hmk Hfl Hp. destruct r as [a|e]; cbn [fatal_last] in Hfl.
  - rewrite (done_by_unharmed p Hmk Hfl).
    split; [now apply prefix_flat_map | now intros _ ->].
  - destruct Hfl as (d0 & ev & -> & _ & Hd0).
    split; [|discriminate].
    rewrite done_by_app. cbn. rewrite app_nil_r.
    rewrite (done_by_unharmed p Hmk Hd0).
    apply prefix_flat_map. apply (prefix_trans (l2 := map fst (d0 ++ [(ev, Some e)]))).
    + rewrite map_app. now exists (map fst [(ev, Some e)]).
    + exact Hp.
Qed.

Lemma saved_states_done (d : list entry) :
  saved_states d = done_by state_saved d.
Proof.
  unfold saved_states, done_by. apply flat_map_ext.
  intros [ev [e|]]; destruct ev; reflexivity.
Qed.

Lemma scalars_of_done (tag : string) (d : list entry) :
  scalars_of tag d = done_by (scalar_added tag) d.
Proof.
  unfold scalars_of, done_by. apply flat_map_ext.
  intros [ev [e|]]; destruct ev; reflexivity.
Qed.

Lemma losses_added_done (d : list entry) :
  losses_added d = done_by losses_of d.
Proof.
  unfold losses_added, done_by. apply flat_map_ext.
  intros [ev [e|]]; destruct ev; reflexivity.
Qed.

Lemma count_done_done (p : event -> bool) (d : list entry) :
  count_done p d = List.length (done_by (one_if p) d).
Proof.
  unfold count_done, done_by, one_if, failed.
  induction d as [|[ev [e|]] d IH]; cbn [filter flat_map fst snd];
    [reflexivity| |].
  - rewrite andb_false_r. exact IH.
  - rewrite andb_true_r, length_app, <- IH.
    destruct (p ev); reflexivity.
Qed.

Variables train_dataloader test_dataloader : list Batch.
Variables (save_dir : string) (nosave : bool).

(** What a run of [train_model] has produced, through [p], against the
    operations of the run in which nothing fails. *)
Lemma train_model_done_by {X} (p : event -> list X) (model : NNModule)
    (epochs : Z) (dev : string) (env : environment) :
  (forall path, p (EvMakedirs path) = []) ->
  let x := run (train_model model train_dataloader test_dataloader epochs dev
                            save_dir nosave) env in
  let ops := run_operations model train_dataloader test_dataloader epochs dev
                            save_dir nosave in
  prefix (done_by p (snd x)) (flat_map p ops)
  /\ (is_ok (fst x) = true -> done_by p (snd x) = flat_map p ops).
Proof.
  intros Hmk. cbv zeta.
  pose proof (propagates_train_model train_dataloader test_dataloader save_dir
                nosave model epochs dev env 0%nat) as Hfl.
  pose proof (train_model_operations_spec model train_dataloader
                test_dataloader epochs dev save_dir nosave env) as [Hp Hok].
  unfold run in *.
  destruct (train_model model train_dataloader test_dataloader epochs dev
                        save_dir nosave env 0%nat) as [r d].
  cbn [fst snd] in *.
  destruct (done_by_run p r d Hmk Hfl Hp) as [H1 H2].
  split; [exact H1|]. intros Hr. apply H2; [exact Hr|].
  destruct r as [m|e]; [|discriminate]. now destruct (Hok m eq_refl).
Qed.

(** The epochs produce, through [p], the beginning of what [q] says for
    each, and all of it when they all run to their end. *)
Lemma epochs_produce {X} (sample : Batch) (p : event -> list X)
    (q : Z -> NNModule * Optimizer -> list X) :
  (forall e s,
     prefix (flat_map p (epoch_operations sample train_dataloader
                           test_dataloader save_dir nosave e s)) (q e s)) ->
  (forall e s,
     epoch_runs sample train_dataloader test_dataloader s = true ->
     flat_map p (epoch_operations sample train_dataloader test_dataloader
                                  save_dir nosave e s) = q e s) ->
  forall es s,
    prefix (flat_map p (epochs_operations sample train_dataloader
                          test_dataloader save_dir nosave es s))
           (dues train_dataloader q es s)
    /\ (is_ok (calm_epochs_result sample train_dataloader test_dataloader
                                  es s) = true ->
        flat_map p (epochs_operations sample train_dataloader
                      test_dataloader save_dir nosave es s)
        = dues train_dataloader q es s).
Proof.
  intros Hpre Heq es. induction es as [|e es IH]; intros s;
    cbn [epochs_operations dues calm_epochs_result].
  - split; [apply prefix_nil | reflexivity].
  - rewrite flat_map_app.
    pose proof (Heq e s) as Heq'. unfold epoch_runs in *.
    destruct (epoch_error sample train_dataloader test_dataloader s) as [ex|].
    + cbn [flat_map]. rewrite app_nil_r.
      split; [now apply prefix_app_r | discriminate].
    + rewrite (Heq' eq_refl).
      destruct (IH (after_epoch train_dataloader s)) as [H1 H2].
      split; [now apply prefix_app | intros Hr; now rewrite H2].
Qed.

(** Over [range(epochs)], epoch [k] starts from the state [k] epochs
    leave. *)
Lemma dues_range {X} (q : Z -> NNModule * Optimizer -> list X) (count : nat) :
  forall first s,
    dues train_dataloader q (map Z.of_nat (seq first count)) s
    = flat_map (fun k => q (Z.of_nat (first + k))
                           (state_at train_dataloader s k))
               (seq 0 count).
Proof.
  induction count as [|count IH]; intros first s; [reflexivity|].
  cbn [seq map dues flat_map]. rewrite Nat.add_0_r. f_equal.
  rewrite IH, <- seq_shift, flat_map_of_map.
  apply flat_map_ext. intros k. unfold state_at.
  rewrite Nat.iter_succ_r. do 2 f_equal. lia.
Qed.

End ProjectionFacts.

Section ProductFacts.

Context {T : Torch}.

Variables train_dataloader test_dataloader : list Batch.
Variables (save_dir : string) (nosave : bool).

Lemma flat_map_batches {X} (p : event -> list X) (xs : list X) :
  flat_map p batch_operations = xs ->
  flat_map p (flat_map (fun _ : Batch => batch_operations) train_dataloader)
  = flat_map (fun _ => xs) train_dataloader.
Proof.
  intros H. induction train_dataloader as [|b l IH]; [reflexivity|].
  cbn [flat_map]. now rewrite flat_map_app, H, IH.
Qed.

Lemma flat_map_nothing {A X} (l : list A) :
  flat_map (fun _ => @nil X) l = [].
Proof. induction l; [reflexivity | assumption]. Qed.

(** What an epoch produces through a [p] that the calls of a batch, the
    divisions, the evaluation and the plot do not feed: the beginning of
    its products, and all of them when it runs to its end. *)
Lemma epoch_produces {X} (sample : Batch) (p : event -> list X) (e : Z)
    (s : NNModule * Optimizer) :
  flat_map p batch_operations = [] ->
  p EvModelTrain = [] -> p EvTrueDiv = [] -> p EvEvalModel = [] ->
  p EvPlotClassesPreds = [] ->
  let ops := flat_map p (epoch_operations sample train_dataloader
                           test_dataloader save_dir nosave e s) in
  let due := epoch_products p train_dataloader test_dataloader save_dir
                            nosave e s in
  prefix ops due
  /\ (epoch_runs sample train_dataloader test_dataloader s = true ->
      ops = due).
Proof.
  intros Hb Ht Hd He Hp. cbv zeta.
  unfold epoch_operations, epoch_runs, epoch_error, epoch_products.
  cbn [flat_map]. rewrite flat_map_app, (flat_map_batches p Hb),
    flat_map_nothing, Ht.
  cbn [flat_map app]. rewrite Hd.
  destruct (len train_dataloader =? 0)%Z;
    [split; [apply prefix_nil | discriminate]|].
  cbn [flat_map app]. rewrite He.
  destruct (has_samples test_dataloader);
    [|split; [apply prefix_nil | discriminate]].
  cbv zeta. cbn [negb flat_map app]. rewrite Hd, Hp. cbn [app].
  destruct (plot_classes_preds_result
              (model_eval
                 (fst (after_batches (model_train (fst s)) (snd s)
                                     train_dataloader))) sample)
    as [[]|ex]; cbn [is_ok flat_map].
  - rewrite !flat_map_app.
    assert (Heq : forall l1 l2 : list X, l1 = l2 ->
              prefix l1 l2 /\ (true = true -> l1 = l2))
      by (intros l1 l2 ->; split; [apply prefix_refl | reflexivity]).
    apply Heq.
    destruct (negb nosave && (e mod 3 =? 2)%Z); cbn [flat_map app];
      rewrite ?app_nil_r; reflexivity.
  - split; [|discriminate]. rewrite app_nil_r.
    apply prefix_app, prefix_app. apply prefix_app_r, prefix_refl.
Qed.

(** What the operations of the run in which nothing fails produce. *)
Lemma run_operations_produce {X} (p : event -> list X) (model : NNModule)
    (epochs : Z) (dev : string) :
  reports_only p ->
  let due :=
    flat_map (fun k =>
                epoch_products p train_dataloader test_dataloader save_dir
                  nosave (Z.of_nat k)
                  (state_at train_dataloader (initial_state model epochs) k))
             (seq 0 (Z.to_nat epochs)) in
  let ops := run_operations model train_dataloader test_dataloader epochs dev
                            save_dir nosave in
  prefix (flat_map p ops) due
  /\ (run_returns model train_dataloader test_dataloader epochs = true ->
      flat_map p ops = due).
Proof.
  intros (Hb & Ht & Hd & He & Hp & Hn & Hdev & Hadam & Hlr & Hmk & Htq).
  cbv zeta. unfold run_operations, run_returns, calm_result.
  cbn [flat_map]. rewrite Hdev, Hn. cbn [app].
  destruct test_dataloader as [|sample rest] eqn:Htest.
  { split; [apply prefix_nil | discriminate]. }
  rewrite <- Htest.
  destruct (@epochs_produce _ train_dataloader test_dataloader save_dir
              nosave _ sample p
              (epoch_products p train_dataloader test_dataloader save_dir
                              nosave))
    with (es := range epochs) (s := initial_state model epochs)
    as [Hpre Heq].
  - intros e s.
    now destruct (@epoch_produces _ sample p e s Hb Ht Hd He Hp).
  - intros e s Hruns.
    destruct (@epoch_produces _ sample p e s Hb Ht Hd He Hp) as [_ H].
    now apply H.
  - cbn [flat_map]. rewrite Hadam, Hlr, Hmk, Htq. cbn [app].
    unfold range in *. rewrite dues_range in Hpre, Heq.
    cbn [Nat.add] in Hpre, Heq.
    split; [exact Hpre|]. intros Hr. apply Heq.
    destruct (calm_epochs_result sample train_dataloader test_dataloader
                (map Z.of_nat (seq 0 (Z.to_nat epochs)))
                (initial_state model epochs)); [reflexivity | discriminate].
Qed.

(** What a run of [train_model] has produced through such a [p]: the
    beginning of the products of its epochs, epoch [k] from the state
    [k] epochs leave, and all of them when the run returns. *)
Lemma train_model_produces {X} (p : event -> list X) (model : NNModule)
    (epochs : Z) (dev : string) (env : environment) :
  reports_only p ->
  let x := run (train_model model train_dataloader test_dataloader epochs dev
                            save_dir nosave) env in
  let due :=
    flat_map (fun k =>
                epoch_products p train_dataloader test_dataloader save_dir
                  nosave (Z.of_nat k)
                  (state_at train_dataloader (initial_state model epochs) k))
             (seq 0 (Z.to_nat epochs)) in
  prefix (done_by p (snd x)) due
  /\ (is_ok (fst x) = true -> done_by p (snd x) = due).
Proof.
  intros Hrep. cbv zeta.
  destruct (@run_operations_produce _ p model epochs dev Hrep) as [Hpre Heq].
  destruct Hrep as (_ & _ & _ & _ & _ & _ & _ & _ & _ & Hmk & _).
  destruct (@train_model_done_by _ train_dataloader test_dataloader save_dir
              nosave _ p model epochs dev env Hmk) as [H1 H2].
  pose proof (train_model_operations_spec model train_dataloader
                test_dataloader epochs dev save_dir nosave env) as [_ Hok].
  split.
  - exact (prefix_trans H1 Hpre).
  - intros Hr. rewrite (H2 Hr). apply Heq.
    unfold run in *.
    destruct (fst (train_model model train_dataloader test_dataloader epochs
                               dev save_dir nosave env 0%nat)) as [m|e];
      [|discriminate].
    destruct (Hok m eq_refl) as (_ & _ & Hres).
    unfold run_returns. now rewrite Hres.
Qed.

End ProductFacts.

(** ** Trainer: further properties of [train_model] *)

Lemma flat_map_singleton {A B} (f : A -> B) (l : list A) :
  flat_map (fun a => [f a]) l = map f l.
Proof. induction l as [|a l IH]; [reflexivity|]. cbn. now rewrite IH. Qed.

Lemma flat_map_if_filter {A B} (c : A -> bool) (f : A -> B) (l : list A) :
  flat_map (fun a => if c a then [f a] else []) l = map f (filter c l).
Proof.
  induction l as [|a l IH]; [reflexivity|]. cbn [flat_map filter].
  destruct (c a); cbn [map app]; now rewrite IH.
Qed.

(** X4: whatever fails, a run of [train_model] performs the beginning of
    one sequence of operations, which its arguments fix, and the whole
    sequence when it returns; the run in which no call is made to fail
    performs exactly that sequence, which ends with the division, the
    evaluation or the figure that raises by itself, if one does.  So a
    failure only cuts a run short: nothing is retried, skipped or done
    in its place. *)
Theorem train_model_performs_run_operations {T : Torch} (model : NNModule)
    (train_dataloader test_dataloader : list Batch) (epochs : Z)
    (dev save_dir : string) (nosave : bool) :
  let tm := train_model model train_dataloader test_dataloader epochs dev
                        save_dir nosave in
  let ops := run_operations model train_dataloader test_dataloader epochs dev
                            save_dir nosave in
  (forall env,
     prefix (map fst (snd (run tm env))) ops
     /\ (is_ok (fst (run tm env)) = true -> map fst (snd (run tm env)) = ops))
  /\ map fst (snd (run tm calm)) = ops.
Proof.
  cbv zeta. split.
  - intros env.
    pose proof (train_model_operations_spec model train_dataloader
                  test_dataloader epochs dev save_dir nosave env) as [Hp Hok].
    split; [exact Hp|]. intros Hr.
    destruct (fst (run (train_model model train_dataloader test_dataloader
                                    epochs dev save_dir nosave) env))
      as [m|e]; [|discriminate].
    exact (proj1 (Hok m eq_refl)).
  - now destruct (calm_run_operations model train_dataloader test_dataloader
                    epochs dev save_dir nosave).
Qed.

Lemma state_at_succ {T : Torch} (train_dataloader : list Batch)
    (s : NNModule * Optimizer) (k : nat) :
  state_at train_dataloader s (S k)
  = after_epoch train_dataloader (state_at train_dataloader s k).
Proof. reflexivity. Qed.

Section ResultFacts.

Context {T : Torch}.

Variable sample : Batch.
Variables train_dataloader test_dataloader : list Batch.
Hypothesis outputs : output_per_image.
Hypothesis images : image_per_label sample.

(** With an output per image and an image per label, what ends an epoch
    does not depend on the state the epoch starts from. *)
Lemma epoch_error_cases (s : NNModule * Optimizer) :
  epoch_error sample train_dataloader test_dataloader s
  = if (len train_dataloader =? 0)%Z || negb (has_samples test_dataloader)
    then Some ZeroDivisionError
    else if figure_fits sample then None else Some ValueError.
Proof.
  unfold epoch_error.
  rewrite (plot_classes_preds_result_cases _ outputs images).
  destruct (len train_dataloader =? 0)%Z; [reflexivity|].
  destruct (has_samples test_dataloader); [|reflexivity].
  destruct (figure_fits sample); reflexivity.
Qed.

Lemma calm_epochs_result_cases (es : list Z) :
  forall s,
    calm_epochs_result sample train_dataloader test_dataloader es s
    = match es with
      | [] => Ok s
      | _ :: _ =>
          if (len train_dataloader =? 0)%Z
             || negb (has_samples test_dataloader)
          then Raise ZeroDivisionError
          else if figure_fits sample
               then Ok (state_at train_dataloader s (List.length es))
               else Raise ValueError
      end.
Proof.
  induction es as [|e es IH]; intros s; [reflexivity|].
  cbn [calm_epochs_result]. rewrite epoch_error_cases, IH.
  destruct ((len train_dataloader =? 0)%Z
            || negb (has_samples test_dataloader)); [reflexivity|].
  destruct (figure_fits sample); [|reflexivity].
  destruct es as [|e' es']; [reflexivity|].
  unfold state_at. cbn [List.length]. now rewrite <- Nat.iter_succ_r.
Qed.

End ResultFacts.

(** X5: when the network gives an output per image and the sample batch
    has an image per label, the run of [train_model] in which no call
    is made to fail raises [StopIteration] on a test loader without
    batches; otherwise, with no epoch to run, it returns the module it
    was given; otherwise it raises [ZeroDivisionError] when there is no
    training batch or no test sample, [ValueError] when the figure of
    the sample batch does not fit its grid ([min(12, len(sample_target))]
    is not a multiple of 3), and else returns the module after [epochs]
    epochs, left in evaluation mode.  A run that returns in spite of
    failures returns the same module. *)
Theorem train_model_result {T : Torch} (model : NNModule)
    (train_dataloader test_dataloader : list Batch) (epochs : Z)
    (dev save_dir : string) (nosave : bool) :
  output_per_image ->
  (forall sample, hd_error test_dataloader = Some sample ->
                  image_per_label sample) ->
  let tm := train_model model train_dataloader test_dataloader epochs dev
                        save_dir nosave in
  let expected :=
    match test_dataloader with
    | [] => Raise StopIteration
    | sample :: _ =>
        if (epochs <=? 0)%Z then Ok model
        else if (len train_dataloader =? 0)%Z
                || negb (has_samples test_dataloader)
             then Raise ZeroDivisionError
             else if figure_fits sample
                  then Ok (fst (state_at train_dataloader
                                         (initial_state model epochs)
                                         (Z.to_nat epochs)))
                  else Raise ValueError
    end in
  fst (run tm calm) = expected
  /\ (forall env, is_ok (fst (run tm env)) = true -> fst (run tm env) = expected)
  /\ (forall model', expected = Ok model' ->
        training model' = if (0 <? epochs)%Z then false else training model).
Proof.
  intros Hout Himg. cbv zeta.
  assert (Hcalm :
            calm_result model train_dataloader test_dataloader epochs
            = match test_dataloader with
              | [] => Raise StopIteration
              | sample :: _ =>
                  if (epochs <=? 0)%Z then Ok model
                  else if (len train_dataloader =? 0)%Z
                          || negb (has_samples test_dataloader)
                       then Raise ZeroDivisionError
                       else if figure_fits sample
                            then Ok (fst (state_at train_dataloader
                                            (initial_state model epochs)
                                            (Z.to_nat epochs)))
                            else Raise ValueError
              end).
  { unfold calm_result.
    destruct test_dataloader as [|sample rest] eqn:Htest; [reflexivity|].
    rewrite <- Htest.
    rewrite (@calm_epochs_result_cases T sample train_dataloader
               test_dataloader Hout (Himg sample eq_refl)).
    pose proof (range_length epochs) as Hlen.
    destruct (Z.leb_spec epochs 0) as [Hle|Hgt].
    - unfold range. replace (Z.to_nat epochs) with 0%nat by lia.
      reflexivity.
    - destruct (range epochs) as [|e es]; [cbn in Hlen; lia|].
      rewrite Hlen.
      destruct ((len train_dataloader =? 0)%Z
                || negb (has_samples test_dataloader)); [reflexivity|].
      destruct (figure_fits sample); reflexivity. }
  rewrite <- Hcalm. split; [|split].
  - now destruct (calm_run_operations model train_dataloader test_dataloader
                    epochs dev save_dir nosave).
  - intros env Hr.
    pose proof (train_model_operations_spec model train_dataloader
                  test_dataloader epochs dev save_dir nosave env) as [_ Hok].
    destruct (fst (run (train_model model train_dataloader test_dataloader
                                    epochs dev save_dir nosave) env))
      as [m|e]; [|discriminate].
    destruct (Hok m eq_refl) as (_ & _ & Hres). now rewrite Hres.
  - intros model' Hexp. rewrite Hcalm in Hexp.
    destruct test_dataloader as [|sample rest]; [discriminate|].
    destruct (Z.leb_spec epochs 0) as [Hle|Hgt].
    + injection Hexp as <-.
      assert (H : (0 <? epochs)%Z = false) by (apply Z.ltb_ge; lia).
      now rewrite H.
    + assert (H : (0 <? epochs)%Z = true) by (apply Z.ltb_lt; lia).
      rewrite H.
      destruct ((len train_dataloader =? 0)%Z
                || negb (has_samples (sample :: rest))); [discriminate|].
      destruct (figure_fits sample); [|discriminate].
      injection Hexp as <-.
      destruct (Z.to_nat epochs) as [|n] eqn:Hn; [lia|]. reflexivity.
Qed.

Lemma toy_output_per_image : @output_per_image Toy.torch.
Proof. intros w t xs. apply length_map. Qed.

Lemma train_model_result_witness :
  fst (run (@train_model Toy.torch Toy.model Toy.three_right Toy.two_right 7
              "cpu" "ckpt" false) calm)
  = Raise ValueError.
Proof.
  refine (proj1 (@train_model_result Toy.torch Toy.model Toy.three_right
                   Toy.two_right 7 "cpu" "ckpt" false toy_output_per_image
                   _)).
  intros sample [= <-]. unfold image_per_label. cbn. lia.
Defined.

(** X6: with [nosave=False], the state dictionary written for epoch
    [epoch] holds the parameters as [epoch + 1] epochs of training leave
    them, under the path of that epoch; a run that returns has written
    these for every [epoch % 3 == 2] below [epochs], in order, a run
    that raises the first of them. *)
Theorem checkpoint_contents {T : Torch} (model : NNModule)
    (train_dataloader test_dataloader : list Batch) (epochs : Z)
    (dev save_dir : string) (env : environment) :
  let x := run (train_model model train_dataloader test_dataloader epochs dev
                            save_dir false) env in
  let due :=
    map (checkpoint_of model train_dataloader epochs save_dir)
        (filter (fun epoch => (epoch mod 3 =? 2)%Z) (range epochs)) in
  prefix (saved_states (snd x)) due
  /\ (is_ok (fst x) = true -> saved_states (snd x) = due).
Proof.
  cbv zeta. rewrite saved_states_done.
  assert (Hrep : reports_only state_saved)
    by (repeat split; intros; reflexivity).
  pose proof (@train_model_produces T train_dataloader test_dataloader
                save_dir false _ state_saved model epochs dev env Hrep) as H.
  cbv zeta in H.
  assert (Hdue :
            flat_map (fun k =>
                epoch_products state_saved train_dataloader test_dataloader
                  save_dir false (Z.of_nat k)
                  (state_at train_dataloader (initial_state model epochs) k))
              (seq 0 (Z.to_nat epochs))
            = map (checkpoint_of model train_dataloader epochs save_dir)
                  (filter (fun epoch => (epoch mod 3 =? 2)%Z) (range epochs))).
  { unfold range. rewrite <- flat_map_if_filter, flat_map_of_map.
    apply flat_map_ext. intros k. unfold epoch_products, checkpoint_of.
    cbn [state_saved app negb andb].
    rewrite Nat2Z.id, state_at_succ.
    destruct (Z.of_nat k mod 3 =? 2)%Z; reflexivity. }
  rewrite Hdue in H. exact H.
Qed.

(** X7: the scalar ["accuracy/Eval"] of epoch [k], at step [k + 1], is
    the accuracy [eval_model] computes for the module as epoch [k]
    leaves it: [100 * correct / total] over the test samples.  A run
    that returns has added one for every epoch, in order; a run that
    raises the first of them. *)
Theorem eval_accuracy_scalars {T : Torch} (model : NNModule)
    (train_dataloader test_dataloader : list Batch) (epochs : Z)
    (dev save_dir : string) (nosave : bool) (env : environment) :
  let x := run (train_model model train_dataloader test_dataloader epochs dev
                            save_dir nosave) env in
  let due :=
    map (eval_accuracy_of model train_dataloader test_dataloader epochs)
        (seq 0 (Z.to_nat epochs)) in
  prefix (scalars_of "accuracy/Eval" (snd x)) due
  /\ (is_ok (fst x) = true -> scalars_of "accuracy/Eval" (snd x) = due).
Proof.
  cbv zeta. rewrite scalars_of_done.
  assert (Hrep : reports_only (scalar_added "accuracy/Eval"))
    by (repeat split; intros; reflexivity).
  pose proof (@train_model_produces T train_dataloader test_dataloader
                save_dir nosave _ (scalar_added "accuracy/Eval") model epochs
                dev env Hrep) as H.
  cbv zeta in H.
  rewrite <- flat_map_singleton.
  erewrite flat_map_ext in H; [exact H|].
  intros k. unfold epoch_products, eval_accuracy_of.
  cbn [scalar_added app String.eqb Ascii.eqb Bool.eqb].
  rewrite state_at_succ.
  destruct (negb nosave && (Z.of_nat k mod 3 =? 2)%Z); reflexivity.
Qed.

(** X8: the losses [add_scalars] receives for epoch [k], at step
    [k + 1], are the sum of the batch losses of the epoch over the
    number of training batches, and the evaluation loss of the module as
    the epoch leaves it.  A run that returns has added them for every
    epoch, in order; a run that raises the first of them. *)
Theorem loss_scalars {T : Torch} (model : NNModule)
    (train_dataloader test_dataloader : list Batch) (epochs : Z)
    (dev save_dir : string) (nosave : bool) (env : environment) :
  let x := run (train_model model train_dataloader test_dataloader epochs dev
                            save_dir nosave) env in
  let due :=
    map (losses_at model train_dataloader test_dataloader epochs)
        (seq 0 (Z.to_nat epochs)) in
  prefix (losses_added (snd x)) due
  /\ (is_ok (fst x) = true -> losses_added (snd x) = due).
Proof.
  cbv zeta. rewrite losses_added_done.
  assert (Hrep : reports_only losses_of)
    by (repeat split; intros; reflexivity).
  pose proof (@train_model_produces T train_dataloader test_dataloader
                save_dir nosave _ losses_of model epochs dev env Hrep) as H.
  cbv zeta in H.
  rewrite <- flat_map_singleton.
  erewrite flat_map_ext in H; [exact H|].
  intros k. unfold epoch_products, losses_at.
  cbn [losses_of app]. rewrite state_at_succ.
  destruct (negb nosave && (Z.of_nat k mod 3 =? 2)%Z); reflexivity.
Qed.

(** ** Checkpoint paths *)

Lemma append_cancel_l (a b c : string) :
  (a ++ b)%string = (a ++ c)%string -> b = c.
Proof.
  induction a as [|x a IH]; cbn; [trivial|]. intros H. apply IH. congruence.
Qed.

Lemma string_length_append (a b : string) :
  String.length (a ++ b) = (String.length a + String.length b)%nat.
Proof. induction a as [|x a IH]; cbn; [reflexivity | now rewrite IH]. Qed.

Lemma append_cancel_r (s a b : string) :
  (a ++ s)%string = (b ++ s)%string -> a = b.
Proof.
  revert b. induction a as [|x a IH]; intros [|y b] H.
  - reflexivity.
  - apply (f_equal String.length) in H.
    rewrite (string_length_append (String y b)) in H. cbn in H. lia.
  - apply (f_equal String.length) in H.
    rewrite (string_length_append (String x a)) in H. cbn in H. lia.
  - cbn in H. injection H as -> H. f_equal. now apply IH.
Qed.

Lemma to_int_not_nil (n : Z) : Z.to_int n <> Decimal.Pos Decimal.Nil
  /\ Z.to_int n <> Decimal.Neg Decimal.Nil.
Proof.
  destruct n as [|p|p]; cbn; split; try discriminate;
    intros H; injection H as H; exact (DecimalPos.Unsigned.to_uint_nonnil p H).
Qed.

(** [str] tells integers apart. *)
Lemma str_inj (n m : Z) : Py.str n = Py.str m -> n = m.
Proof.
  unfold Py.str. intros H. apply DecimalZ.to_int_inj.
  destruct (to_int_not_nil n) as [Hn1 Hn2].
  destruct (to_int_not_nil m) as [Hm1 Hm2].
  pose proof (NilZero.isi _ Hn1 Hn2) as E1.
  pose proof (NilZero.isi _ Hm1 Hm2) as E2.
  rewrite H in E1. congruence.
Qed.

Lemma string_of_uint_head (u : Decimal.uint) :
  u <> Decimal.Nil ->
  exists c r, NilZero.string_of_uint u = String c r /\ c <> Py.sep.
Proof.
  intros Hu. destruct u; [contradiction|..]; cbn;
    eexists; eexists; (split; [reflexivity | discriminate]).
Qed.

(** [str(n)] begins with a digit or a sign, never with the separator. *)
Lemma str_head (n : Z) (s : string) :
  exists c r, (Py.str n ++ s)%string = String c r /\ c <> Py.sep.
Proof.
  unfold Py.str.
  destruct n as [|p|p]; cbn [Z.to_int NilZero.string_of_int].
  - cbn. eexists; eexists; (split; [reflexivity | discriminate]).
  - destruct (string_of_uint_head (DecimalPos.Unsigned.to_uint_nonnil p))
      as (c & r & -> & Hc).
    cbn. eexists; eexists; split; [reflexivity | exact Hc].
  - cbn. eexists; eexists; (split; [reflexivity | discriminate]).
Qed.

(** Two epochs never share a checkpoint path. *)
Lemma checkpoint_path_inj (save_dir : string) (e1 e2 : Z) :
  checkpoint_path save_dir e1 = checkpoint_path save_dir e2 -> e1 = e2.
Proof.
  unfold checkpoint_path, Py.os_path_join.
  destruct (str_head e1 ".pt") as (c1 & r1 & E1 & H1).
  destruct (str_head e2 ".pt") as (c2 & r2 & E2 & H2).
  intros H. apply str_inj, (append_cancel_r ".pt").
  rewrite E1, E2 in *. cbn [Py.startswith_char] in H.
  destruct (Ascii.eqb_spec c1 Py.sep) as [|_]; [contradiction|].
  destruct (Ascii.eqb_spec c2 Py.sep) as [|_]; [contradiction|].
  destruct ((match save_dir with EmptyString => true | _ => false end)
            || Py.endswith_char save_dir Py.sep).
  - now apply append_cancel_l in H.
  - apply append_cancel_l in H. congruence.
Qed.

Lemma range_NoDup (n : Z) : NoDup (range n).
Proof.
  unfold range. apply NoDup_map_NoDup_ForallPairs; [|apply seq_NoDup].
  intros a b _ _. apply Nat2Z.inj.
Qed.

(** X9: no run of [train_model] writes two checkpoints to one path: the
    files of a run never overwrite each other, whatever the directory
    and however the run ends. *)
Theorem checkpoints_never_overwritten {T : Torch} (model : NNModule)
    (train_dataloader test_dataloader : list Batch) (epochs : Z)
    (dev save_dir : string) (nosave : bool) (env : environment) :
  NoDup (saved_paths
           (snd (run (train_model model train_dataloader test_dataloader
                                  epochs dev save_dir nosave) env))).
Proof.
  pose proof (train_model_spec train_dataloader test_dataloader save_dir
                nosave model epochs dev env) as (Hp & _).
  apply (prefix_NoDup Hp). unfold checkpoints.
  destruct nosave; [constructor|].
  apply NoDup_map_NoDup_ForallPairs.
  - intros a b _ _. apply checkpoint_path_inj.
  - apply NoDup_filter, range_NoDup.
Qed.

(** ** Steps of the optimizer and of the scheduler *)

Section StepFacts.

Context {T : Torch}.

Variables train_dataloader test_dataloader : list Batch.
Variables (save_dir : string) (nosave : bool).

Lemma length_flat_map_const {A X} (xs : list X) (l : list A) :
  List.length (flat_map (fun _ => xs) l)
  = (List.length l * List.length xs)%nat.
Proof.
  induction l as [|a l IH]; [reflexivity|].
  cbn [flat_map List.length]. rewrite length_app, IH. lia.
Qed.

(** The optimizer steps of an epoch are those of its batches, whether
    the epoch runs to its end or not. *)
Lemma epoch_optimizer_steps (sample : Batch) (e : Z)
    (s : NNModule * Optimizer) :
  flat_map (one_if is_optimizer_step)
           (epoch_operations sample train_dataloader test_dataloader save_dir
                             nosave e s)
  = flat_map (fun _ => [tt]) train_dataloader.
Proof.
  unfold epoch_operations. cbn [flat_map].
  rewrite flat_map_app.
  rewrite (@flat_map_batches _ train_dataloader _ (one_if is_optimizer_step)
             [tt] eq_refl).
  cbn [one_if is_optimizer_step app flat_map].
  rewrite <- (app_nil_r (flat_map (fun _ => [tt]) train_dataloader)) at 2.
  f_equal.
  destruct (len train_dataloader =? 0)%Z; [reflexivity|].
  cbn [flat_map one_if is_optimizer_step app].
  destruct (has_samples test_dataloader); [|reflexivity].
  cbv zeta. cbn [flat_map one_if is_optimizer_step app].
  destruct (is_ok _); [|reflexivity].
  cbn [flat_map one_if is_optimizer_step app].
  destruct (negb nosave && (e mod 3 =? 2)%Z); reflexivity.
Qed.

Lemma dues_const {X} (xs : list X) (es : list Z) (s : NNModule * Optimizer) :
  List.length (dues train_dataloader (fun _ _ => xs) es s)
  = (List.length es * List.length xs)%nat.
Proof.
  revert s. induction es as [|e es IH]; intros s; [reflexivity|].
  cbn [dues List.length]. rewrite length_app, IH. lia.
Qed.

Lemma train_model_optimizer_steps (model : NNModule) (epochs : Z)
    (dev : string) (env : environment) :
  let x := run (train_model model train_dataloader test_dataloader epochs dev
                            save_dir nosave) env in
  let due := (Z.to_nat epochs * List.length train_dataloader)%nat in
  (count_done is_optimizer_step (snd x) <= due)%nat
  /\ (is_ok (fst x) = true -> count_done is_optimizer_step (snd x) = due).
Proof.
  cbv zeta. rewrite count_done_done.
  destruct (@train_model_done_by _ train_dataloader test_dataloader save_dir
              nosave _ (one_if is_optimizer_step) model epochs dev env
              (fun _ => eq_refl)) as [H1 H2].
  pose proof (train_model_operations_spec model train_dataloader
                test_dataloader epochs dev save_dir nosave env) as [_ Hok].
  assert (Hops :
            (List.length
               (flat_map (one_if is_optimizer_step)
                  (run_operations model train_dataloader test_dataloader
                                  epochs dev save_dir nosave))
             <= Z.to_nat epochs * List.length train_dataloader)%nat
            /\ (run_returns model train_dataloader test_dataloader epochs
                = true ->
                List.length
                  (flat_map (one_if is_optimizer_step)
                     (run_operations model train_dataloader test_dataloader
                                     epochs dev save_dir nosave))
                = (Z.to_nat epochs * List.length train_dataloader)%nat)).
  { unfold run_operations, run_returns, calm_result.
    cbn [flat_map one_if is_optimizer_step app].
    destruct test_dataloader as [|sample rest] eqn:Htest.
    { split; [cbn; lia | discriminate]. }
    rewrite <- Htest.
    cbn [flat_map one_if is_optimizer_step app].
    destruct (@epochs_produce _ train_dataloader test_dataloader save_dir
                nosave _ sample (one_if is_optimizer_step)
                (fun _ _ => flat_map (fun _ => [tt]) train_dataloader))
      with (es := range epochs) (s := initial_state model epochs)
      as [Hpre Heq].
    { intros e s. rewrite epoch_optimizer_steps. apply prefix_refl. }
    { intros e s _. apply epoch_optimizer_steps. }
    assert (Hdue :
              List.length
                (dues train_dataloader
                      (fun _ _ => flat_map (fun _ : Batch => [tt])
                                           train_dataloader)
                      (range epochs) (initial_state model epochs))
              = (Z.to_nat epochs * List.length train_dataloader)%nat).
    { rewrite dues_const, range_length, length_flat_map_const. cbn. lia. }
    split.
    - rewrite <- Hdue. now apply prefix_length.
    - intros Hret. rewrite <- Hdue. rewrite Heq; [reflexivity|].
      destruct (calm_epochs_result sample train_dataloader test_dataloader
                  (range epochs) (initial_state model epochs));
        [reflexivity | discriminate]. }
  destruct Hops as [Hle Hex]. split.
  - apply prefix_length in H1. lia.
  - intros Hr. rewrite (H2 Hr). apply Hex.
    unfold run in *.
    destruct (fst (train_model model train_dataloader test_dataloader epochs
                               dev save_dir nosave env 0%nat)) as [m|e];
      [|discriminate].
    destruct (Hok m eq_refl) as (_ & _ & Hres).
    unfold run_returns. now rewrite Hres.
Qed.

Lemma train_model_scheduler_steps (model : NNModule) (epochs : Z)
    (dev : string) (env : environment) :
  let x := run (train_model model train_dataloader test_dataloader epochs dev
                            save_dir nosave) env in
  (count_done is_scheduler_step (snd x) <= Z.to_nat epochs)%nat
  /\ (is_ok (fst x) = true
      -> count_done is_scheduler_step (snd x) = Z.to_nat epochs).
Proof.
  cbv zeta. rewrite count_done_done.
  assert (Hrep : reports_only (one_if is_scheduler_step))
    by (repeat split; intros; reflexivity).
  pose proof (@train_model_produces T train_dataloader test_dataloader
                save_dir nosave _ (one_if is_scheduler_step) model epochs
                dev env Hrep) as H.
  cbv zeta in H.
  assert (Hdue :
            List.length
              (flat_map (fun k =>
                 epoch_products (one_if is_scheduler_step) train_dataloader
                   test_dataloader save_dir nosave (Z.of_nat k)
                   (state_at train_dataloader (initial_state model epochs) k))
                 (seq 0 (Z.to_nat epochs)))
            = Z.to_nat epochs).
  { erewrite flat_map_ext.
    - rewrite (length_flat_map_const [tt]), length_seq. cbn. lia.
    - intros k. unfold epoch_products.
      cbn [one_if is_scheduler_step app].
      destruct (negb nosave && (Z.of_nat k mod 3 =? 2)%Z); reflexivity. }
  destruct H as [H1 H2]. split.
  - apply prefix_length in H1. lia.
  - intros Hr. now rewrite (H2 Hr).
Qed.

End StepFacts.

(** X10: a run of [train_model] that returns has stepped the optimizer
    once for every batch of every epoch, [epochs * len(train_dataloader)]
    times, and the scheduler once for every epoch; a run that raises has
    stepped neither more often than that. *)
Theorem train_model_steps {T : Torch} (model : NNModule)
    (train_dataloader test_dataloader : list Batch) (epochs : Z)
    (dev save_dir : string) (nosave : bool) (env : environment) :
  let x := run (train_model model train_dataloader test_dataloader epochs dev
                            save_dir nosave) env in
  let batches := (Z.to_nat epochs * List.length train_dataloader)%nat in
  (count_done is_optimizer_step (snd x) <= batches)%nat
  /\ (count_done is_scheduler_step (snd x) <= Z.to_nat epochs)%nat
  /\ (is_ok (fst x) = true ->
      count_done is_optimizer_step (snd x) = batches
      /\ count_done is_scheduler_step (snd x) = Z.to_nat epochs).
Proof.
  cbv zeta.
  destruct (train_model_optimizer_steps train_dataloader test_dataloader
              save_dir nosave model epochs dev env) as [H1 H2].
  destruct (train_model_scheduler_steps train_dataloader test_dataloader
              save_dir nosave model epochs dev env) as [H3 H4].
  split; [exact H1|]. split; [exact H3|].
  intros Hr. split; [exact (H2 Hr) | exact (H4 Hr)].
Qed.

(** ** Loaders without batches *)

(** X11: on a test loader without batches [train_model] never returns:
    [next(iter(test_dataloader))] raises [StopIteration] when nothing
    fails before it, and whatever fails the run ends before an
    optimizer is made or a directory created. *)
Theorem train_model_needs_test_batches {T : Torch} (model : NNModule)
    (train_dataloader : list Batch) (epochs : Z) (dev save_dir : string)
    (nosave : bool) :
  let tm := train_model model train_dataloader [] epochs dev save_dir nosave in
  fst (run tm calm) = Raise StopIteration
  /\ forall env,
       is_ok (fst (run tm env)) = false
       /\ prefix (map fst (snd (run tm env))) [EvToDevice dev; EvNextBatch].
Proof.
  cbv zeta. split.
  - now destruct (calm_run_operations model train_dataloader [] epochs dev
                    save_dir nosave).
  - intros env.
    pose proof (train_model_operations_spec model train_dataloader [] epochs
                  dev save_dir nosave env) as [Hp Hok].
    split; [|exact Hp].
    destruct (fst (run (train_model model train_dataloader [] epochs dev
                                    save_dir nosave) env)) as [m|e];
      [|reflexivity].
    destruct (Hok m eq_refl) as (_ & _ & Hres). discriminate Hres.
Qed.

(** X12: with at least one epoch and a test loader that has a batch, a
    training loader without batches makes every run of [train_model]
    raise: the first epoch divides the running loss by
    [len(train_dataloader)], which raises [ZeroDivisionError] when
    nothing failed before, and no run gets further, so nothing is
    evaluated, logged or saved. *)
Theorem train_model_needs_train_batches {T : Torch} (model : NNModule)
    (test_dataloader : list Batch) (epochs : Z) (dev save_dir : string)
    (nosave : bool) :
  test_dataloader <> [] -> (0 < epochs)%Z ->
  let tm := train_model model [] test_dataloader epochs dev save_dir nosave in
  fst (run tm calm) = Raise ZeroDivisionError
  /\ forall env,
       is_ok (fst (run tm env)) = false
       /\ prefix (map fst (snd (run tm env)))
                 [EvToDevice dev; EvNextBatch; EvAdam 1e-5%float;
                  EvLinearLR 1 0.1 (total_iters epochs); EvMakedirs save_dir;
                  EvTqdm epochs; EvModelTrain; EvTrueDiv].
Proof.
  intros Htest Hepochs. cbv zeta.
  assert (Hrange : exists es, range epochs = 0%Z :: es).
  { unfold range. destruct (Z.to_nat epochs) eqn:Hn; [lia|].
    cbn [seq map]. eauto. }
  destruct Hrange as [es Hes].
  destruct test_dataloader as [|sample rest]; [congruence|].
  split.
  - destruct (calm_run_operations model [] (sample :: rest) epochs dev
                save_dir nosave) as [_ ->].
    unfold calm_result. now rewrite Hes.
  - intros env.
    pose proof (train_model_operations_spec model [] (sample :: rest) epochs
                  dev save_dir nosave env) as [Hp Hok].
    unfold run_operations, calm_result in Hp, Hok.
    rewrite Hes in Hp, Hok.
    split; [|exact Hp].
    destruct (fst (run (train_model model [] (sample :: rest) epochs dev
                                    save_dir nosave) env)) as [m|e];
      [|reflexivity].
    destruct (Hok m eq_refl) as (_ & _ & Hres). discriminate Hres.
Qed.

Lemma train_model_needs_train_batches_witness :
  fst (run (train_model Toy.model [] Toy.two_right 1 "cpu" "out" false) calm)
  = Raise ZeroDivisionError.
Proof.
  apply (@train_model_needs_train_batches Toy.torch Toy.model Toy.two_right
           1 "cpu" "out" false); [discriminate | reflexivity].
Defined.

(** ** Evaluator: when it raises, and what it counts *)

Section EvaluatorMore.

Context {T : Torch}.

Lemma total_samples_zero (test_dataloader : list Batch) :
  total_samples test_dataloader = 0%Z
  <-> Forall (fun b => snd b = []) test_dataloader.
Proof.
  unfold total_samples, len.
  induction test_dataloader as [|[inputs targets] rest IH].
  - split; [constructor | reflexivity].
  - cbn [flat_map snd]. rewrite length_app. split.
    + intros H. constructor.
      * cbn [snd]. destruct targets; [reflexivity | cbn in H; lia].
      * apply IH. lia.
    + intros H. inversion H as [|b l Hb Hrest]; subst. cbn [snd] in Hb.
      subst targets. cbn [List.length Nat.add]. now apply IH.
Qed.

Lemma filter_length_le {A} (f : A -> bool) (l : list A) :
  (List.length (filter f l) <= List.length l)%nat.
Proof.
  induction l as [|a l IH]; [reflexivity|]. cbn [filter].
  destruct (f a); cbn [List.length]; lia.
Qed.

Lemma total_samples_cons (b : Batch) (rest : list Batch) :
  total_samples (b :: rest) = (len (snd b) + total_samples rest)%Z.
Proof.
  unfold total_samples, len. cbn [flat_map]. rewrite length_app. lia.
Qed.

Lemma n_correct_bounds (outputs targets : list float) :
  (0 <= n_correct outputs targets <= len targets)%Z.
Proof.
  unfold n_correct, len.
  pose proof (filter_length_le
                (fun ot => PrimFloat.eqb (threshold (fst ot)) (snd ot))
                (combine outputs targets)) as Hle.
  rewrite length_combine in Hle. lia.
Qed.

(** On outputs and targets of one size the comparison is row by row. *)
Lemma sum_equal_same_size (outputs targets : list float) :
  List.length outputs = List.length targets ->
  sum_equal (map threshold outputs) targets = Ok (n_correct outputs targets).
Proof.
  intros Hsize. unfold sum_equal, n_correct, len.
  rewrite length_map, Hsize, Nat.eqb_refl. do 2 f_equal.
  clear Hsize. revert targets.
  induction outputs as [|o outputs IH]; intros [|t targets];
    try reflexivity.
  cbn [map combine filter fst snd].
  destruct (PrimFloat.eqb (threshold o) t); cbn [List.length];
    now rewrite IH.
Qed.

Section RaisingFacts.

Variable net : NNModule -> Inputs -> result (list float).
Variable criterion : list float -> list float -> result float.

(** The loop raises what the first failing call raises and else runs
    through, counting every sample and no more correct ones than that,
    when the criterion refuses sizes that differ. *)
Lemma eval_loop_with_cases (model : NNModule) :
  checks_sizes criterion ->
  forall test_dataloader correct total val_loss,
    match first_failure net criterion model test_dataloader with
    | Some e =>
        eval_loop_with net criterion model test_dataloader correct total
                       val_loss
        = Raise e
    | None =>
        exists correct' val_loss',
          eval_loop_with net criterion model test_dataloader correct total
                         val_loss
          = Ok (correct', (total + total_samples test_dataloader)%Z,
                val_loss')
          /\ (correct <= correct'
              <= correct + total_samples test_dataloader)%Z
    end.
Proof.
  intros Hsizes.
  induction test_dataloader as [|[inputs targets] rest IH];
    intros correct total val_loss.
  - cbn [first_failure eval_loop_with]. exists correct, val_loss.
    change (total_samples []) with 0%Z. rewrite !Z.add_0_r.
    split; [reflexivity | lia].
  - cbn [first_failure eval_loop_with].
    destruct (net model inputs) as [outputs|e]; [|reflexivity].
    destruct (criterion outputs targets) as [loss|e] eqn:Hloss;
      [|reflexivity].
    cbv zeta. rewrite (sum_equal_same_size _ _ (Hsizes _ _ _ Hloss)).
    specialize (IH (correct + n_correct outputs targets)%Z
                   (total + len targets)%Z (PrimFloat.add val_loss loss)).
    destruct (first_failure net criterion model rest) as [e|];
      [exact IH|].
    destruct IH as (correct' & val_loss' & -> & Hbounds).
    exists correct', val_loss'. rewrite total_samples_cons. cbn [snd].
    pose proof (n_correct_bounds outputs targets).
    split; [do 3 f_equal; lia | lia].
Qed.

(** With calls that return what [forward] and [BCELoss] give, on batches
    whose outputs and targets have one size, the loop is [eval_loop]. *)
Lemma eval_loop_with_returning (model : NNModule) :
  (forall inputs, net model inputs = Ok (call_model model inputs)) ->
  (forall outputs targets,
      List.length outputs = List.length targets ->
      criterion outputs targets = Ok (BCELoss outputs targets)) ->
  forall test_dataloader correct total val_loss,
    Forall (fun b => List.length (call_model model (fst b))
                     = List.length (snd b)) test_dataloader ->
    eval_loop_with net criterion model test_dataloader correct total val_loss
    = Ok (eval_loop model test_dataloader correct total val_loss).
Proof.
  intros Hnet Hcriterion.
  induction test_dataloader as [|[inputs targets] rest IH];
    intros correct total val_loss Hshapes; [reflexivity|].
  inversion Hshapes as [|b l Hb Hrest]; subst. cbn [fst snd] in Hb.
  cbn [eval_loop_with eval_loop].
  rewrite Hnet, (Hcriterion _ _ Hb). cbv zeta.
  rewrite (sum_equal_same_size _ _ Hb). now apply IH.
Qed.

(** Then [eval_model_with] is [eval_model]. *)
Lemma eval_model_with_returning (model : NNModule)
    (test_dataloader : list Batch) :
  (forall inputs,
      net (model_eval model) inputs
      = Ok (call_model (model_eval model) inputs)) ->
  (forall outputs targets,
      List.length outputs = List.length targets ->
      criterion outputs targets = Ok (BCELoss outputs targets)) ->
  Forall (fun b => List.length (call_model (model_eval model) (fst b))
                   = List.length (snd b)) test_dataloader ->
  eval_model_with net criterion model test_dataloader
  = eval_model model test_dataloader.
Proof.
  intros Hnet Hcriterion Hshapes. unfold eval_model_with, eval_model.
  rewrite (@eval_loop_with_returning (model_eval model) Hnet Hcriterion
             test_dataloader 0%Z 0%Z 0%float Hshapes).
  destruct (eval_loop (model_eval model) test_dataloader 0 0 0)
    as [[correct total] val_loss].
  reflexivity.
Qed.

End RaisingFacts.

End EvaluatorMore.

Lemma toy_checks_sizes : checks_sizes Toy.criterion.
Proof.
  intros outputs targets loss H. unfold Toy.criterion in H.
  destruct (Nat.eqb_spec (List.length outputs) (List.length targets));
    [assumption | discriminate].
Qed.

(** X13: what makes [eval_model] fail, with a criterion that like
    [nn.BCELoss] refuses outputs and targets of sizes that differ.  When
    a call of the module or of the criterion raises, [eval_model] raises
    what the first such call raises.  When every call returns, it raises
    exactly when the loader has no batch or its batches hold no sample,
    and what it raises is [ZeroDivisionError], from one of its two
    divisions; the comparison of the predictions with the targets never
    fails, and else [eval_model] returns. *)
Theorem eval_model_raises_iff {T : Torch}
    (net : NNModule -> Inputs -> result (list float))
    (criterion : list float -> list float -> result float)
    (model : NNModule) (test_dataloader : list Batch) :
  checks_sizes criterion ->
  let r := fst (eval_model_with net criterion model test_dataloader) in
  match first_failure net criterion (model_eval model) test_dataloader with
  | Some e => r = Raise e
  | None =>
      (r = Raise ZeroDivisionError
       <-> test_dataloader = []
           \/ Forall (fun b => snd b = []) test_dataloader)
      /\ (is_ok r = true \/ r = Raise ZeroDivisionError)
  end.
Proof.
  intros Hsizes. cbv zeta. unfold eval_model_with.
  pose proof (eval_loop_with_cases net (model_eval model) Hsizes
                test_dataloader 0%Z 0%Z 0%float) as Hloop.
  destruct (first_failure net criterion (model_eval model) test_dataloader)
    as [e|].
  - now rewrite Hloop.
  - destruct Hloop as (correct & val_loss & -> & _). cbn [Z.add].
    pose proof (total_samples_zero test_dataloader) as Hzero.
    destruct (Z.eqb_spec (len test_dataloader) 0) as [Hlen|Hlen].
    + cbn [fst]. split; [|now right]. split; [|reflexivity].
      intros _. left. unfold len in Hlen.
      destruct test_dataloader; [reflexivity | cbn in Hlen; lia].
    + destruct (Z.eqb_spec (total_samples test_dataloader) 0) as [Htot|Htot];
        cbn [fst].
      * split; [|now right]. split; [|reflexivity].
        intros _. right. now apply Hzero.
      * split; [|now left]. split; [discriminate|].
        intros [->|H]; [now cbn in Hlen|].
        apply Hzero in H. contradiction.
Qed.

Lemma eval_model_raises_iff_witness :
  fst (@eval_model_with Toy.torch Toy.net Toy.criterion Toy.model [])
  = Raise ZeroDivisionError.
Proof.
  apply (proj1 (@eval_model_raises_iff Toy.torch Toy.net Toy.criterion
                  Toy.model [] toy_checks_sizes)).
  now left.
Defined.

(** X14: the counters of [eval_model] are sound when the criterion, like
    [nn.BCELoss], refuses outputs and targets of sizes that differ: a
    loop in which every call returns runs through, and after it [total]
    is the number of samples of the loader and [correct] is at least 0
    and at most [total], so the accuracy is the quotient of a count by a
    count that is not smaller. *)
Theorem eval_loop_counts {T : Torch}
    (net : NNModule -> Inputs -> result (list float))
    (criterion : list float -> list float -> result float)
    (model : NNModule) (test_dataloader : list Batch) :
  checks_sizes criterion ->
  first_failure net criterion model test_dataloader = None ->
  exists correct val_loss,
    eval_loop_with net criterion model test_dataloader 0 0 0
    = Ok (correct, total_samples test_dataloader, val_loss)
    /\ (0 <= correct <= total_samples test_dataloader)%Z.
Proof.
  intros Hsizes Hnone.
  pose proof (eval_loop_with_cases net model Hsizes test_dataloader
                0%Z 0%Z 0%float) as Hloop.
  rewrite Hnone in Hloop. destruct Hloop as (correct & val_loss & Heq & Hb).
  exists correct, val_loss. cbn [Z.add] in *. now split.
Qed.

Lemma eval_loop_counts_witness :
  exists correct val_loss,
    @eval_loop_with Toy.torch Toy.net Toy.criterion Toy.model Toy.three_right
                    0 0 0
    = Ok (correct, 4%Z, val_loss)
    /\ (0 <= correct <= 4)%Z.
Proof.
  apply (@eval_loop_counts Toy.torch Toy.net Toy.criterion Toy.model
           Toy.three_right toy_checks_sizes).
  reflexivity.
Defined.

(** The counters with a criterion that takes any two sizes: three
    outputs compared with the one target of their batch count as three
    correct samples of one. *)
Example eval_loop_lenient :
  exists val_loss,
    @eval_loop_with Toy.torch Toy.net Toy.lenient Toy.model
      [([0.75%float; 0.75%float; 0.75%float], [1%float])] 0 0 0
    = Ok (3%Z, 1%Z, val_loss).
Proof. eexists. vm_compute. reflexivity. Qed.

(** ** Shapes: inputs of another size *)

(** X15: [forward] accepts an input whose height and width are
    multiples of the configured 192 and 180, and folds the extra pixels
    into the batch: [x.view(-1, 64 * 45 * 48)] turns [b] images of size
    [192 k] by [180 j] into [b * k * j] rows, so the output has a row
    per block and not a row per image. *)
Theorem forward_shape_multiples (b k j : Z) :
  (0 < b)%Z -> (0 < k)%Z -> (0 < j)%Z ->
  Shape.forward_shape (b, 3, IMG_HEIGHT * k, IMG_WIDTH * j)%Z
  = Some (b * k * j, 1)%Z.
Proof.
  intros Hb Hk Hj.
  unfold Shape.forward_shape, Shape.conv2d, Shape.pool, Shape.view,
    Shape.linear, Shape.and_then, Shape.window_out, IMG_HEIGHT, IMG_WIDTH.
  cbn [Z.eqb Pos.eqb].
  replace ((192 * k + 2 * 2 - 5) / 1 + 1)%Z with (2 * (96 * k))%Z
    by (rewrite Z.div_1_r; lia).
  replace ((180 * j + 2 * 2 - 5) / 1 + 1)%Z with (2 * (90 * j))%Z
    by (rewrite Z.div_1_r; lia).
  assert (Hhalf : forall n, ((2 * n + 2 * 0 - 2) / 2 + 1 = n)%Z).
  { intros n. replace (2 * n + 2 * 0 - 2)%Z with ((n - 1) * 2)%Z by lia.
    rewrite Z.div_mul by lia. lia. }
  rewrite !Hhalf.
  replace ((96 * k + 2 * 2 - 5) / 1 + 1)%Z with (2 * (48 * k))%Z
    by (rewrite Z.div_1_r; lia).
  replace ((90 * j + 2 * 2 - 5) / 1 + 1)%Z with (2 * (45 * j))%Z
    by (rewrite Z.div_1_r; lia).
  rewrite !Hhalf.
  replace (b * 64 * (48 * k) * (45 * j))%Z
    with ((b * k * j) * (64 * 45 * 48))%Z by lia.
  rewrite Z_mod_mult, Z_div_mult by lia.
  cbn [Z.eqb]. rewrite Z.eqb_refl. reflexivity.
Qed.

Lemma forward_shape_multiples_witness :
  Shape.forward_shape (8, 3, 384, 180)%Z = Some (16, 1)%Z.
Proof.
  apply (@forward_shape_multiples 8%Z 2%Z 1%Z); reflexivity.
Defined.


(** X16: [plot_classes_preds] shows the first [RANGE = min(12,
    len(labels))] samples on a grid of 3 rows and [RANGE // 3] columns.
    When the network gives an output per image and [RANGE] is a multiple
    of 3 it returns a figure with one axes per sample, in order, each at
    position [idx + 1] with the image, the output and the label of its
    sample; when [RANGE] is not a multiple of 3 the grid is too small
    and the call raises [ValueError]. *)
Theorem plot_classes_preds_grid {Image Prob Label : Type}
    (net : list Image -> list Prob) (images : list Image)
    (labels : list Label) :
  (forall xs, List.length (net xs) = List.length xs) ->
  (List.length labels <= List.length images)%nat ->
  let RANGE := Z.min 12 (len labels) in
  let images' := Logger.upto RANGE images in
  let labels' := Logger.upto RANGE labels in
  ((RANGE mod 3 = 0)%Z ->
   exists fig,
     Logger.plot_classes_preds net images labels = Logger.Returns fig
     /\ Forall2 (Logger.classes_preds_axes RANGE images' labels'
                                           (net images'))
                (range RANGE) fig)
  /\ ((RANGE mod 3 <> 0)%Z ->
      Logger.plot_classes_preds net images labels = Logger.Raises ValueError).
Proof. apply plot_classes_preds_cases. Qed.

Lemma plot_classes_preds_grid_witness :
  Logger.plot_classes_preds (fun xs : list nat => xs) [1; 2; 3; 4]%nat
                            [true; false; true; true]
  = Logger.Raises ValueError.
Proof.
  apply (proj2 (@plot_classes_preds_grid nat nat bool (fun xs => xs)
                  [1; 2; 3; 4]%nat [true; false; true; true]
                  (fun xs => eq_refl) (le_n 4))).
  discriminate.
Defined.

Section RandomBatchFacts.

Variables Image Label : Type.

Import Logger.

(** What the loop of [plot_random_batch] returns, when it returns. *)
Lemma random_batch_loop_returns (batch_size : Z) (image_samples : list Image)
    (label_samples : list Label) (idxs : list Z) :
  forall fig fig',
    random_batch_loop batch_size image_samples label_samples idxs fig
    = Returns fig' ->
    exists axs, fig' = fig ++ axs
                /\ Forall2 (random_batch_axes batch_size image_samples
                                              label_samples) idxs axs.
Proof.
  induction idxs as [|i idxs IH]; intros fig fig' H; cbn in H.
  - injection H as <-. exists []. split; [now rewrite app_nil_r|constructor].
  - destruct (in_grid 8 (batch_size / 8) (i + 1)) eqn:Hgrid; [|discriminate].
    destruct (getitem image_samples i) as [img|] eqn:Himg; [|discriminate].
    destruct (getitem label_samples i) as [label|] eqn:Hlabel;
      [|discriminate].
    destruct (IH _ _ H) as (axs & -> & Haxs).
    eexists (_ :: axs). split; [now rewrite <- app_assoc|].
    constructor; [|exact Haxs].
    unfold random_batch_axes. cbn. now rewrite Hgrid.
Qed.

Lemma random_batch_loop_ok (batch_size : Z) (image_samples : list Image)
    (label_samples : list Label) (idxs : list Z) :
  (forall i, In i idxs ->
     in_grid 8 (batch_size / 8) (i + 1) = true
     /\ (exists x, getitem image_samples i = Some x)
     /\ (exists x, getitem label_samples i = Some x)) ->
  forall fig,
    returns (random_batch_loop batch_size image_samples label_samples idxs fig)
    = true.
Proof.
  induction idxs as [|i idxs IH]; intros Hall fig; cbn; [reflexivity|].
  destruct (Hall i (or_introl eq_refl)) as (-> & (img & ->) & (label & ->)).
  apply IH. intros k Hk. apply Hall. now right.
Qed.

Lemma grid_of_eight (batch_size : Z) :
  (0 <= batch_size)%Z ->
  ((batch_size mod 8 = 0)%Z
   <-> forall i, In i (range batch_size) ->
                 in_grid 8 (batch_size / 8) (i + 1) = true).
Proof.
  intros Hr. pose proof (Z.div_mod batch_size 8 ltac:(lia)) as Hdm.
  pose proof (Z.mod_pos_bound batch_size 8 ltac:(lia)) as Hm.
  unfold in_grid. split.
  - intros H0 i Hi. apply in_range in Hi.
    rewrite !andb_true_iff, !Z.ltb_lt, !Z.leb_le. lia.
  - intros Hall.
    destruct (Z.eq_dec batch_size 0) as [->|Hne]; [reflexivity|].
    specialize (Hall (batch_size - 1)%Z).
    rewrite in_range in Hall. specialize (Hall ltac:(lia)).
    rewrite !andb_true_iff, !Z.ltb_lt, !Z.leb_le in Hall. lia.
Qed.

End RandomBatchFacts.

(** X17: [plot_random_batch] raises [StopIteration] on a loader without
    batches.  Otherwise it returns a figure exactly when [batch_size] is
    not positive, or is a multiple of 8 that the first batch has the
    images and the labels for; the figure then has one axes per index
    below [batch_size], on a grid of 8 rows.  A first batch shorter than
    [batch_size] makes it raise. *)
Theorem plot_random_batch_returns_iff {Image Label : Type}
    (batch_size : Z) :
  Logger.plot_random_batch (@nil (list Image * list Label)%type) batch_size
  = Logger.Raises StopIteration
  /\ forall (image_samples : list Image) (label_samples : list Label) rest,
       let r := Logger.plot_random_batch
                  ((image_samples, label_samples) :: rest) batch_size in
       (Logger.returns r = true
        <-> (batch_size <= 0)%Z
            \/ ((batch_size mod 8 = 0)%Z
                /\ (batch_size <= len image_samples)%Z
                /\ (batch_size <= len label_samples)%Z))
       /\ forall fig,
            r = Logger.Returns fig ->
            Forall2 (Logger.random_batch_axes batch_size image_samples
                                              label_samples)
                    (range batch_size) fig.
Proof.
  split; [reflexivity|]. intros image_samples label_samples rest. cbv zeta.
  unfold Logger.plot_random_batch.
  assert (Hret : forall fig,
            Logger.random_batch_loop batch_size image_samples label_samples
              (range batch_size) [] = Logger.Returns fig ->
            Forall2 (Logger.random_batch_axes batch_size image_samples
                                              label_samples)
                    (range batch_size) fig).
  { intros fig H.
    now destruct (random_batch_loop_returns _ _ _ _ _ H)
      as (axs & -> & Haxs). }
  split; [|exact Hret]. split.
  - intros Hr.
    destruct (Z_le_gt_dec batch_size 0) as [Hle|Hgt]; [now left|]. right.
    destruct (Logger.random_batch_loop batch_size image_samples label_samples
                (range batch_size) []) as [fig|e|] eqn:Hloop;
      try discriminate.
    pose proof (Hret fig eq_refl) as Haxs.
    assert (Hlast : In (batch_size - 1)%Z (range batch_size))
      by (apply in_range; lia).
    destruct (Forall2_in_l Haxs _ Hlast) as (ax & _ & _ & _ & _ & Hi & Hl).
    apply getitem_some in Hi; [|lia]. apply getitem_some in Hl; [|lia].
    split; [|lia].
    apply grid_of_eight; [lia|]. intros i Hi'.
    destruct (Forall2_in_l Haxs _ Hi') as (ax' & Hax'). apply Hax'.
  - intros [Hle|(H0 & Himg & Hlbl)].
    + unfold range. replace (Z.to_nat batch_size) with 0%nat by lia.
      reflexivity.
    + destruct (Z_le_gt_dec batch_size 0) as [Hle|Hgt].
      { unfold range. replace (Z.to_nat batch_size) with 0%nat by lia.
        reflexivity. }
      apply random_batch_loop_ok. intros i Hi.
      split; [|split].
      * revert i Hi. apply grid_of_eight; [lia | exact H0].
      * eapply getitem_range; [exact Hi | exact Himg].
      * eapply getitem_range; [exact Hi | exact Hlbl].
Qed.

(** ** The trainer of [face.py] *)

Section GetTrainedModelFacts.

Context {T : Torch}.

Local Open Scope string_scope.

Lemma after_batches_training (train_dataloader : list Batch) :
  forall model optimizer,
    training (fst (after_batches model optimizer train_dataloader))
    = training model.
Proof.
  induction train_dataloader as [|[inputs targets] rest IH];
    intros model optimizer; [reflexivity|].
  cbn [after_batches]. now rewrite IH.
Qed.

(** The loop over the batches evaluates and reports once, in the last
    batch, after the step of the optimizer; the figure is drawn last,
    and when it cannot be drawn the scalars have been handed over. *)
Lemma get_trained_model_batches_spec (sample : Batch)
    (train_dataloader test_dataloader : list Batch) (epoch : Z) :
  forall batches done model optimizer running_loss average_loss,
    train_dataloader = (done ++ batches)%list ->
    get_trained_model_batches sample train_dataloader test_dataloader epoch
      (len done) batches (model, optimizer, running_loss, average_loss)
    = match batches with
      | [] => (Ok (model, optimizer, running_loss, average_loss), [])
      | _ :: _ =>
          let s' := after_batches model optimizer batches in
          let average_loss :=
            PyFloat.div_int
              (sum_floats running_loss
                 (map (fun ot => BCELoss (fst ot) (snd ot))
                      (epoch_outputs model optimizer batches)))
              (len train_dataloader) in
          if has_samples test_dataloader
          then
            match plot_classes_preds_result (model_eval (fst s')) sample with
            | Ok _ =>
                (Ok (model_eval (fst s'), snd s', 0%float, average_loss),
                 [AddScalars "Training stats"
                    [("Training loss", average_loss);
                     ("Test loss",
                      fst (eval_values (fst s') test_dataloader))]
                    (epoch + 1);
                  AddScalar "Accuracy"
                    (snd (eval_values (fst s') test_dataloader)) (epoch + 1);
                  AddFigure "predictions vs. actuals" (epoch + 1)])
            | Raise e =>
                (Raise e,
                 [AddScalars "Training stats"
                    [("Training loss", average_loss);
                     ("Test loss",
                      fst (eval_values (fst s') test_dataloader))]
                    (epoch + 1);
                  AddScalar "Accuracy"
                    (snd (eval_values (fst s') test_dataloader)) (epoch + 1)])
            end
          else (Raise ZeroDivisionError, [])
      end.
Proof.
  induction batches as [|[inputs targets] rest IH];
    intros done model optimizer running_loss average_loss Hdl;
    [reflexivity|].
  cbn [get_trained_model_batches get_trained_model_batch].
  assert (Hlen : len train_dataloader
                 = (len done + 1 + len rest)%Z).
  { rewrite Hdl. unfold len. rewrite length_app. cbn [List.length]. lia. }
  destruct rest as [|next rest'].
  - assert (Hlast : (len done =? len train_dataloader - 1)%Z = true).
    { apply Z.eqb_eq. rewrite Hlen. unfold len. cbn. lia. }
    assert (Hnz : (len train_dataloader =? 0)%Z = false).
    { apply Z.eqb_neq. rewrite Hlen. unfold len. cbn. lia. }
    rewrite Hlast, Hnz. cbv zeta.
    cbn [after_batches epoch_outputs map fst snd].
    set (model' := {| params := _; training := _ |}).
    pose proof (eval_model_cases model' test_dataloader) as Hfst.
    pose proof (eval_model_leaves model' test_dataloader) as Hsnd.
    destruct (eval_model model' test_dataloader) as [r m]. cbn [fst snd] in *.
    subst m. rewrite Hfst. unfold sum_floats. cbn [fold_left].
    destruct (has_samples test_dataloader); [|reflexivity].
    destruct (eval_values model' test_dataloader) as [eval_loss accuracy].
    destruct (plot_classes_preds_result (model_eval model') sample);
      reflexivity.
  - assert (Hnot : (len done =? len train_dataloader - 1)%Z = false).
    { apply Z.eqb_neq. rewrite Hlen. unfold len. cbn [List.length]. lia. }
    rewrite Hnot.
    assert (Hnext : (len done + 1)%Z = len (done ++ [(inputs, targets)])%list).
    { unfold len. rewrite length_app. cbn [List.length]. lia. }
    rewrite Hnext, IH.
    + cbv zeta. cbn [after_batches epoch_outputs map fst snd].
      unfold sum_floats. cbn [fold_left].
      destruct (has_samples test_dataloader); [|reflexivity].
      destruct (plot_classes_preds_result _ sample); reflexivity.
    + now rewrite <- app_assoc.
Qed.

(** An epoch runs to its end when it has no batch to train on, or has
    samples to evaluate on and a figure that can be drawn, and then
    leaves the state and the reports of the reference. *)
Lemma get_trained_model_epoch_spec (sample : Batch)
    (train_dataloader test_dataloader : list Batch) (epoch : Z)
    (s : NNModule * Optimizer) :
  get_trained_model_epoch sample train_dataloader test_dataloader epoch s
  = if match train_dataloader with [] => true | _ :: _ => false end
    then (Ok (trained_epoch train_dataloader s),
          epoch_reports train_dataloader test_dataloader epoch s)
    else if has_samples test_dataloader
    then match epoch_figure sample train_dataloader s with
         | Ok _ => (Ok (trained_epoch train_dataloader s),
                    epoch_reports train_dataloader test_dataloader epoch s)
         | Raise e =>
             (Raise e, epoch_scalars train_dataloader test_dataloader epoch s)
         end
    else (Raise ZeroDivisionError, []).
Proof.
  destruct s as [model optimizer]. unfold get_trained_model_epoch.
  change 0%Z with (len (@nil Batch)).
  rewrite (@get_trained_model_batches_spec sample train_dataloader
             test_dataloader epoch train_dataloader [] (model_train model)
             optimizer 0%float 0%float eq_refl).
  unfold trained_epoch, epoch_reports, epoch_scalars, epoch_reports,
    epoch_figure.
  cbn [fst snd].
  destruct train_dataloader as [|b rest]; [reflexivity|].
  cbv zeta.
  destruct (has_samples test_dataloader); [|reflexivity].
  destruct (plot_classes_preds_result _ sample); reflexivity.
Qed.

Lemma get_trained_model_epochs_spec (sample : Batch)
    (train_dataloader test_dataloader : list Batch) :
  match train_dataloader with
  | [] => True
  | _ :: _ =>
      has_samples test_dataloader = true
      /\ forall s, epoch_figure sample train_dataloader s = Ok tt
  end ->
  forall count first s,
    get_trained_model_epochs sample train_dataloader test_dataloader
      (map Z.of_nat (seq first count)) s
    = (Ok (Nat.iter count (trained_epoch train_dataloader) s),
       flat_map (fun k =>
                   epoch_reports train_dataloader test_dataloader
                     (Z.of_nat (first + k))
                     (Nat.iter k (trained_epoch train_dataloader) s))
                (seq 0 count)).
Proof.
  intros Hruns. induction count as [|count IH]; intros first s;
    [reflexivity|].
  cbn [seq map get_trained_model_epochs].
  assert (Hstep :
            get_trained_model_epoch sample train_dataloader test_dataloader
                                    (Z.of_nat first) s
            = (Ok (trained_epoch train_dataloader s),
               epoch_reports train_dataloader test_dataloader
                             (Z.of_nat first) s)).
  { rewrite get_trained_model_epoch_spec.
    destruct train_dataloader as [|b rest]; [reflexivity|].
    destruct Hruns as [-> Hfig]. now rewrite Hfig. }
  rewrite Hstep, IH.
  rewrite <- Nat.iter_succ_r. f_equal.
  cbn [flat_map]. rewrite Nat.add_0_r. f_equal.
  rewrite <- seq_shift, flat_map_of_map.
  apply flat_map_ext. intros k. rewrite Nat.iter_succ_r.
  do 2 f_equal. lia.
Qed.

Lemma get_trained_model_epochs_raise (sample : Batch)
    (train_dataloader test_dataloader : list Batch) (epoch : Z)
    (epochs : list Z) (s : NNModule * Optimizer) :
  train_dataloader <> [] -> has_samples test_dataloader = false ->
  get_trained_model_epochs sample train_dataloader test_dataloader
                           (epoch :: epochs) s
  = (Raise ZeroDivisionError, []).
Proof.
  intros Hdl Htest. cbn [get_trained_model_epochs].
  rewrite get_trained_model_epoch_spec, Htest.
  destruct train_dataloader; [congruence | reflexivity].
Qed.






(** [get_trained_model] runs at least one epoch. *)
Lemma EPOCHS_succ : exists n, Z.to_nat EPOCHS = S n.
Proof. exists 299%nat. reflexivity. Qed.

Lemma trained_epoch_params_nil (k : nat) :
  forall s, params (fst (Nat.iter k (trained_epoch []) s)) = params (fst s).
Proof.
  induction k as [|k IH]; intros s; [reflexivity|].
  rewrite Nat.iter_succ. unfold trained_epoch at 1.
  cbn [after_batches fst snd params model_train]. apply IH.
Qed.

(** Without batches to train on, every epoch reports its progress and a
    loss of 0, and leaves the parameters alone. *)
Lemma get_trained_model_epochs_nil (sample : Batch)
    (test_dataloader : list Batch) (count : nat) (s : NNModule * Optimizer) :
  get_trained_model_epochs sample [] test_dataloader
    (map Z.of_nat (seq 0 (S count))) s
  = (Ok ({| params := params (fst s); training := true |},
         snd (Nat.iter (S count) (trained_epoch []) s)),
     flat_map (fun epoch => [PbarUpdate; PbarSetPostfix epoch 0])
              (map Z.of_nat (seq 0 (S count)))).
Proof.
  rewrite (@get_trained_model_epochs_spec sample [] test_dataloader I).
  rewrite flat_map_of_map. f_equal.
  pose proof (trained_epoch_params_nil count s) as Hp.
  rewrite Nat.iter_succ.
  destruct (Nat.iter count (trained_epoch []) s) as [m o].
  cbn [fst] in Hp. unfold trained_epoch.
  cbn [after_batches fst snd]. unfold model_train. now rewrite Hp.
Qed.


End GetTrainedModelFacts.

(** X18: [get_trained_model] on a training loader without batches trains
    nothing and says nothing of it: when the test loader has a batch it
    returns the classifier as it was made, in training mode, having
    handed to the writer no scalar and no figure, only the progress of
    its epochs with a loss of 0. *)
Theorem get_trained_model_without_batches {T : Torch} (classifier : NNModule)
    (test_dataloader : list Batch) (dev : string) :
  test_dataloader <> [] ->
  get_trained_model classifier [] test_dataloader dev
  = (Ok (model_train classifier),
     flat_map (fun epoch => [PbarUpdate; PbarSetPostfix epoch 0])
              (range EPOCHS)).
Proof.
  intros Htest. unfold get_trained_model, range.
  destruct test_dataloader as [|sample rest]; [congruence|].
  destruct EPOCHS_succ as [n ->].
  now rewrite get_trained_model_epochs_nil.
Qed.

Lemma get_trained_model_without_batches_witness :
  fst (@get_trained_model Toy.torch Toy.model [] Toy.two_right "cpu")
  = Ok (model_train Toy.model).
Proof.
  rewrite (@get_trained_model_without_batches Toy.torch Toy.model
             Toy.two_right "cpu"); [reflexivity | discriminate].
Defined.



(** A test batch of two samples: the first figure cannot be drawn, and
    the run ends with the scalars of the first epoch handed over. *)
Example get_trained_model_figure_too_small :
  fst (@get_trained_model Toy.torch Toy.model Toy.two_right Toy.two_right
                          "cpu") = Raise ValueError
  /\ List.length (snd (@get_trained_model Toy.torch Toy.model Toy.two_right
                                          Toy.two_right "cpu")) = 2%nat.
Proof. split; vm_compute; reflexivity. Qed.

(** X20: when the test loader has batches but no sample in them,
    [get_trained_model] raises [ZeroDivisionError] from the evaluation
    at the end of the first epoch, after training on every batch of the
    epoch and before anything is handed to the writer or the progress
    bar. *)
Theorem get_trained_model_without_samples {T : Torch} (classifier : NNModule)
    (train_dataloader test_dataloader : list Batch) (dev : string) :
  train_dataloader <> [] -> test_dataloader <> [] ->
  Forall (fun b => snd b = []) test_dataloader ->
  get_trained_model classifier train_dataloader test_dataloader dev
  = (Raise ZeroDivisionError, []).
Proof.
  intros Hdl Htest Hempty. unfold get_trained_model, range.
  assert (Hno : has_samples test_dataloader = false).
  { unfold has_samples. apply total_samples_zero in Hempty.
    rewrite Hempty. cbn. apply andb_false_r. }
  destruct EPOCHS_succ as [n ->].
  change (map Z.of_nat (seq 0 (S n))) with (0%Z :: map Z.of_nat (seq 1 n)).
  destruct test_dataloader as [|sample rest]; [congruence|].
  now rewrite (@get_trained_model_epochs_raise T sample train_dataloader
                 (sample :: rest) 0%Z (map Z.of_nat (seq 1 n))
                 (classifier, Adam (params classifier) 0.000001%float)
                 Hdl Hno).
Qed.

Lemma get_trained_model_without_samples_witness :
  @get_trained_model Toy.torch Toy.model Toy.two_right [([], [])] "cpu"
  = (Raise ZeroDivisionError, []).
Proof.
  apply (@get_trained_model_without_samples Toy.torch Toy.model Toy.two_right
           [([], [])] "cpu"); [discriminate | discriminate |].
  repeat constructor.
Defined.
